(** * go-breaker: the circuit breaker's state machine and sliding window

    A shallow embedding of package [circuit_breaker]:

    - the state register ([State], [CircuitBreakerState] and its accessors;
      [circuit-breaker/config.go], lines 25 to 64);
    - [Config] ([circuit-breaker/config.go], lines 1 to 24, and the second
      declaration, which adds [SlidingWindowTime]);
    - module [V1]: the breaker of [circuit-breaker/circuitbreaker.go], whose
      rates are recomputed by a linear scan of the window and whose window is
      bounded by count only;
    - module [V2]: the breaker of [circuit-breaker/config.go], lines 65 to
      278, with the incrementally maintained [failureCount] and
      [slowCallCount] and the count-based and time-based pruning strategies.

    Conventions of the embedding.

    - Go [int] is 64 bits wide: a value is an integer of [Z], and the
      counters the code moves with [++] and [--] wrap around ([incr],
      [decr]).  [Len] of a list is the library's count of its elements.
    - [time.Duration] and the readings of [time.Time] are integers of [Z],
      in nanoseconds; the arithmetic of package [time] ([Since], [Add],
      [Before], which saturates rather than wraps) is taken on them as they
      are, readings and durations staying far from the 292 years a
      [Duration] holds: [time.Since t] at a clock reading [now] is
      [now - t].
    - Go [float64] is Rocq's primitive binary64 [float]; [float64(n)] is
      [float64_of_int n]; [a >= b] on floats is [PrimFloat.leb b a].
    - Go [error] is [option error] with [None] for [nil]; an error value is
      its message.
    - [container/list] is a Rocq [list], front first: [Front] is the head,
      [PushBack] appends, [Remove(front)] drops the head, [Len] is [length].
    - [sync.Mutex] has no counterpart: each lock-protected section is one
      function, and the two sections of [Execute] are separate definitions
      ([admission], [recordResult]) so that they can be interleaved.
    - The clock is read by the code, not owned by it: every function takes
      the readings it makes as arguments, in the order it makes them.
    - The guarded action is opaque: a transformer of a world [W] of the
      caller's choosing that yields the action's error. *)

From Stdlib Require Import ZArith List String Bool Lia Floats Uint63.
Import ListNotations.
Local Open Scope Z_scope.

(** ** Results of running code: normal return, run-time panic, endless loop *)

Inductive outcome (T : Type) : Type :=
| Returns (v : T)
| Panics
| Diverges.
Arguments Returns {T} v.
Arguments Panics {T}.
Arguments Diverges {T}.

Definition bind {T U : Type} (m : outcome T) (k : T -> outcome U) : outcome U :=
  match m with
  | Returns v => k v
  | Panics => Panics
  | Diverges => Diverges
  end.

Notation "x <- m ;; k" := (bind m (fun x => k))
  (at level 61, m at next level, right associativity).

(** ** Go [int] *)

Definition minInt : Z := - 2 ^ 63.
Definition maxInt : Z := 2 ^ 63 - 1.

(** The values an [int] holds. *)
Definition int64 (z : Z) : Prop := minInt <= z <= maxInt.

(** The [int] that the integer [z] wraps around to. *)
Definition wrap64 (z : Z) : Z := (z - minInt) mod 2 ^ 64 + minInt.

(** [x++] and [x--] *)
Definition incr (x : Z) : Z := wrap64 (x + 1).
Definition decr (x : Z) : Z := wrap64 (x - 1).

(** ** Time, errors, floats *)

Definition Time := Z.
Definition Duration := Z.
Definition error := string.

(** [err != nil] *)
Definition notNil (err : option error) : bool :=
  match err with
  | Some _ => true
  | None => false
  end.

(** [float64(n)] for a Go [int] [n] (exact below 2^53, rounded to nearest
    above, as the conversion of Go does). *)
Definition float64_of_int (n : Z) : float :=
  if n <? 0 then PrimFloat.opp (PrimFloat.of_uint63 (Uint63.of_Z (- n)))
  else PrimFloat.of_uint63 (Uint63.of_Z n).

(** [a >= b] on float64: false as soon as one side is NaN. *)
Definition float_ge (a b : float) : bool := PrimFloat.leb b a.

(** The clock readings one call of [Execute] makes, in program order:
    [time.Since(cb.lastFailureTime)] of the admission check, [time.Now()]
    before the action, [time.Since(start)] after it, then inside
    [recordResult]: [time.Now()] of [enforceTimeBasedWindow], [time.Now()] of
    the pushed entry (both [V2] only) and the one reading of the transition
    switch ([time.Now()] or [time.Since]). *)
Record Clock : Type := {
  atAdmission : Time;
  atStart : Time;
  atReturn : Time;
  atPrune : Time;
  atPush : Time;
  atRecord : Time
}.

(** ** The state register *)

Module StateRegister.

Inductive State : Type := Closed | Open | HalfOpen.

Record CircuitBreakerState : Type := { state : State }.

Definition SetState (s : CircuitBreakerState) (newState : State)
  : CircuitBreakerState :=
  {| state := newState |}.

Definition IsOpen (s : CircuitBreakerState) : bool :=
  match state s with Open => true | _ => false end.

Definition IsHalfOpen (s : CircuitBreakerState) : bool :=
  match state s with HalfOpen => true | _ => false end.

Definition IsClosed (s : CircuitBreakerState) : bool :=
  match state s with Closed => true | _ => false end.

End StateRegister.
Export StateRegister.

(** ** Configuration *)

(** [type SlidingWindowType string]: any string can be stored, the two
    constants are the ones the code dispatches on.  (The type is spelled
    [WindowType] here, the name [SlidingWindowType] being the field's.) *)
Definition WindowType := string.
Definition COUNT_BASED : WindowType := "COUNT_BASED"%string.
Definition TIME_BASED : WindowType := "TIME_BASED"%string.

(** The fields of [Config].  [SlidingWindowTime] is declared only by the
    second declaration of [Config] in the repository; it is kept here so that
    what reads it can be stated. *)
Record Config : Type := {
  Name : string;
  FailureRateThreshold : float;
  MinimumNumberOfCalls : Z;
  PermittedNumberOfCallsInHalfOpenState : Z;
  WaitDurationInOpenState : Duration;
  SlidingWindowSize : Z;
  SlidingWindowTime : Duration;
  SlidingWindowType : WindowType;
  SlowCallDurationThreshold : Duration;
  SlowCallRateThreshold : float
}.


(** The two messages of a rejected call. *)
Definition errOpened (c : Config) : error :=
  (Name c ++ " :circuit breaker is in opened state")%string.
Definition errHalfOpenLimit (c : Config) : error :=
  (Name c ++ " :circuit breaker half-open, no more calls allowed")%string.
Definition errNotInitialized : error :=
  "circuit breaker state is not initialized"%string.

(** [(float64(count) / float64(length)) * 100], the expression both rate
    functions end with. *)
Definition percentage (count length : Z) : float :=
  PrimFloat.mul
    (PrimFloat.div (float64_of_int count) (float64_of_int length))
    100%float.

(** ** V1: circuit-breaker/circuitbreaker.go *)

Module V1.

(** [requestEntry] stores whether a call was a failure or slow. *)
Record requestEntry : Type := { failed : bool; slow : bool }.

(** [state] is the pointer [*CircuitBreakerState]: [None] is [nil]. *)
Record CircuitBreaker : Type := {
  config : Config;
  state : option CircuitBreakerState;
  halfOpenCalls : Z;
  lastFailureTime : Time;
  requests : list requestEntry
}.

Definition set_state (s : CircuitBreakerState) (cb : CircuitBreaker) :=
  {| config := config cb; state := Some s;
     halfOpenCalls := halfOpenCalls cb;
     lastFailureTime := lastFailureTime cb; requests := requests cb |}.

Definition set_halfOpenCalls (n : Z) (cb : CircuitBreaker) :=
  {| config := config cb; state := state cb; halfOpenCalls := n;
     lastFailureTime := lastFailureTime cb; requests := requests cb |}.

Definition set_lastFailureTime (t : Time) (cb : CircuitBreaker) :=
  {| config := config cb; state := state cb;
     halfOpenCalls := halfOpenCalls cb;
     lastFailureTime := t; requests := requests cb |}.

Definition set_requests (l : list requestEntry) (cb : CircuitBreaker) :=
  {| config := config cb; state := state cb;
     halfOpenCalls := halfOpenCalls cb;
     lastFailureTime := lastFailureTime cb; requests := l |}.

(** [cb.requests.Len()] *)
Definition Len (cb : CircuitBreaker) : Z := Z.of_nat (List.length (requests cb)).

(** The zero [time.Time] of a fresh breaker stands as reading 0; no code
    path reads it before a transition into Open has stamped it. *)
Definition NewCircuitBreaker (config : Config) : CircuitBreaker :=
  {| config := config;
     state := Some {| StateRegister.state := Closed |};
     halfOpenCalls := 0;
     lastFailureTime := 0;
     requests := [] |}.

(** [addRequest] tracks recent failures in a sliding window: one record is
    removed from the front if the window has reached the limit, then the
    new one is pushed at the back. *)
Definition addRequest (failed slow : bool) (cb : CircuitBreaker)
  : CircuitBreaker :=
  let cb :=
    if SlidingWindowSize (config cb) <=? Len cb then
      match requests cb with
      | [] => cb                          (* Front() is nil *)
      | _ :: rest => set_requests rest cb (* Remove(front) *)
      end
    else cb in
  set_requests (requests cb ++ [{| failed := failed; slow := slow |}])%list cb.

(** The scan of [getFailureRate]: [failures] is the loop's counter. *)
Fixpoint scanFailures (l : list requestEntry) (failures : Z) : Z :=
  match l with
  | [] => failures
  | e :: rest => scanFailures rest (if failed e then incr failures else failures)
  end.

(** [getFailureRate] calculates the failure percentage. *)
Definition getFailureRate (cb : CircuitBreaker) : float :=
  if Len cb =? 0 then 0%float
  else percentage (scanFailures (requests cb) 0) (Len cb).

(** The scan of [getSlowCallRate]: failed calls are not considered slow. *)
Fixpoint scanSlowCalls (l : list requestEntry) (slowCalls : Z) : Z :=
  match l with
  | [] => slowCalls
  | entry :: rest =>
      scanSlowCalls rest
        (if slow entry && negb (failed entry) then incr slowCalls
         else slowCalls)
  end.

(** [getSlowCallRate] calculates the slow call percentage. *)
Definition getSlowCallRate (cb : CircuitBreaker) : float :=
  if Len cb =? 0 then 0%float
  else percentage (scanSlowCalls (requests cb) 0) (Len cb).

(** [recordResult], the second lock-protected section of [Execute]; [now]
    is the one clock reading its switch makes.  [cb.state.state] on a nil
    [cb.state] is a nil dereference. *)
Definition recordResult (now : Time) (err : option error) (isSlow : bool)
    (cb : CircuitBreaker) : outcome CircuitBreaker :=
  let cb := addRequest (notNil err) isSlow cb in
  let failureRate := getFailureRate cb in
  let slowCallRate := getSlowCallRate cb in
  match state cb with
  | None => Panics
  | Some st =>
      match StateRegister.state st with
      | Closed =>
          if (MinimumNumberOfCalls (config cb) <=? Len cb)
             && (float_ge failureRate (FailureRateThreshold (config cb))
                 || float_ge slowCallRate (SlowCallRateThreshold (config cb)))
          then Returns (set_lastFailureTime now (set_state (SetState st Open) cb))
          else Returns cb
      | Open =>
          if WaitDurationInOpenState (config cb) <=? now - lastFailureTime cb
          then Returns (set_halfOpenCalls 0 (set_state (SetState st HalfOpen) cb))
          else Returns cb
      | HalfOpen =>
          if notNil err || isSlow then
            Returns (set_lastFailureTime now
                       (set_halfOpenCalls 0 (set_state (SetState st Open) cb)))
          else if PermittedNumberOfCallsInHalfOpenState (config cb)
                    <=? halfOpenCalls cb
          then Returns (set_halfOpenCalls 0 (set_state (SetState st Closed) cb))
          else Returns cb
      end
  end.

(** The first lock-protected section of [Execute], from [cb.mu.Lock()] to
    the [cb.mu.Unlock()] that precedes the action: the breaker it leaves
    and the error it returns with, [None] when the call goes on to the
    action.  [now] is the reading of [time.Since(cb.lastFailureTime)],
    made only when the state is Open. *)
Definition admission (now : Time) (cb : CircuitBreaker)
  : CircuitBreaker * option error :=
  match state cb with
  | None => (cb, Some errNotInitialized)
  | Some st =>
      (* transition from Open -> Half-Open if cooling time has passed *)
      let '(st, cb) :=
        if IsOpen st
           && (WaitDurationInOpenState (config cb) <=? now - lastFailureTime cb)
        then
          let st := SetState st HalfOpen in
          (st, set_halfOpenCalls 0 (set_state st cb))
        else (st, cb) in
      if IsOpen st then (cb, Some (errOpened (config cb)))
      else if IsHalfOpen st then
        if PermittedNumberOfCallsInHalfOpenState (config cb)
             <=? halfOpenCalls cb
        then (cb, Some (errHalfOpenLimit (config cb)))
        else (set_halfOpenCalls (incr (halfOpenCalls cb)) cb, None)
      else (cb, None)
  end.

(** [Execute]: the result returned, the breaker afterwards and the world
    the action has (or has not) acted on. *)
Definition Execute {W : Type} (clk : Clock) (action : W -> option error * W)
    (cb : CircuitBreaker) (w : W)
  : outcome (option error * CircuitBreaker * W) :=
  match admission (atAdmission clk) cb with
  | (cb, Some rejection) => Returns (Some rejection, cb, w)
  | (cb, None) =>
      let start := atStart clk in
      let '(err, w) := action w in
      let duration := atReturn clk - start in
      (* Determine if call was slow *)
      let isSlow := SlowCallDurationThreshold (config cb) <=? duration in
      cb <- recordResult (atRecord clk) err isSlow cb ;;
      Returns (err, cb, w)
  end.

(** *** Notions the properties are stated with *)

(** The lifecycle state, when the register is there. *)
Definition current (cb : CircuitBreaker) : option State :=
  option_map StateRegister.state (state cb).

(** What a linear scan of a window finds: the records that failed, and
    the records that were slow and did not fail. *)
Definition failuresIn (l : list requestEntry) : Z :=
  Z.of_nat (List.length (filter failed l)).

Definition slowCallsIn (l : list requestEntry) : Z :=
  Z.of_nat (List.length (filter (fun e => slow e && negb (failed e)) l)).

(** The breakers a program can hold: a fresh one, and what the two
    lock-protected sections make of one, in any order (the sections of
    concurrent calls of [Execute] interleave). *)
Inductive reachable (c : Config) : CircuitBreaker -> Prop :=
| reach_new : reachable c (NewCircuitBreaker c)
| reach_admission now cb :
    reachable c cb -> reachable c (fst (admission now cb))
| reach_recordResult now err isSlow cb cb' :
    reachable c cb ->
    recordResult now err isSlow cb = Returns cb' ->
    reachable c cb'.

(** Calls of [Execute] one after the other, on a world the actions share. *)
Fixpoint ExecuteAll {W : Type} (calls : list (Clock * (W -> option error * W)))
    (cb : CircuitBreaker) (w : W) : outcome (CircuitBreaker * W) :=
  match calls with
  | [] => Returns (cb, w)
  | (clk, action) :: rest =>
      r <- Execute clk action cb w ;;
      ExecuteAll rest (snd (fst r)) (snd r)
  end.

End V1.

(** ** V2: circuit-breaker/config.go, the breaker with incremental counters *)

Module V2.

(** [requestEntry] stores whether a call was a failure or slow, and when
    it was recorded. *)
Record requestEntry : Type := {
  failed : bool;
  slow : bool;
  executionTime : Time
}.

Record CircuitBreaker : Type := {
  config : Config;
  state : option CircuitBreakerState;
  halfOpenCalls : Z;
  lastFailureTime : Time;
  requests : list requestEntry;
  failureCount : Z;
  slowCallCount : Z
}.

Definition set_state (s : CircuitBreakerState) (cb : CircuitBreaker) :=
  {| config := config cb; state := Some s;
     halfOpenCalls := halfOpenCalls cb;
     lastFailureTime := lastFailureTime cb; requests := requests cb;
     failureCount := failureCount cb; slowCallCount := slowCallCount cb |}.

Definition set_halfOpenCalls (n : Z) (cb : CircuitBreaker) :=
  {| config := config cb; state := state cb; halfOpenCalls := n;
     lastFailureTime := lastFailureTime cb; requests := requests cb;
     failureCount := failureCount cb; slowCallCount := slowCallCount cb |}.

Definition set_lastFailureTime (t : Time) (cb : CircuitBreaker) :=
  {| config := config cb; state := state cb;
     halfOpenCalls := halfOpenCalls cb;
     lastFailureTime := t; requests := requests cb;
     failureCount := failureCount cb; slowCallCount := slowCallCount cb |}.

Definition set_requests (l : list requestEntry) (cb : CircuitBreaker) :=
  {| config := config cb; state := state cb;
     halfOpenCalls := halfOpenCalls cb;
     lastFailureTime := lastFailureTime cb; requests := l;
     failureCount := failureCount cb; slowCallCount := slowCallCount cb |}.

Definition set_failureCount (n : Z) (cb : CircuitBreaker) :=
  {| config := config cb; state := state cb;
     halfOpenCalls := halfOpenCalls cb;
     lastFailureTime := lastFailureTime cb; requests := requests cb;
     failureCount := n; slowCallCount := slowCallCount cb |}.

Definition set_slowCallCount (n : Z) (cb : CircuitBreaker) :=
  {| config := config cb; state := state cb;
     halfOpenCalls := halfOpenCalls cb;
     lastFailureTime := lastFailureTime cb; requests := requests cb;
     failureCount := failureCount cb; slowCallCount := n |}.


(** [cb.requests.Len()] *)
Definition Len (cb : CircuitBreaker) : Z := Z.of_nat (List.length (requests cb)).

Definition NewCircuitBreaker (config : Config) : CircuitBreaker :=
  {| config := config;
     state := Some {| StateRegister.state := Closed |};
     halfOpenCalls := 0;
     lastFailureTime := 0;
     requests := [];
     failureCount := 0;
     slowCallCount := 0 |}.

(** [removeFrontRequest] removes the front request and updates counters. *)
Definition removeFrontRequest (cb : CircuitBreaker) : CircuitBreaker :=
  match requests cb with
  | [] => cb
  | entry :: rest =>
      (* Decrement counters accordingly *)
      let cb :=
        if failed entry then set_failureCount (decr (failureCount cb)) cb
        else if slow entry then set_slowCallCount (decr (slowCallCount cb)) cb
        else cb in
      set_requests rest cb
  end.

(** The [for] loop of [enforceCountBasedWindow], one iteration per unit of
    fuel: the condition is tested, and the body removes the front request
    when there is one and does nothing otherwise.  [None] when the fuel
    runs out before the condition fails. *)
Fixpoint enforceCountBasedWindow_loop (fuel : nat) (cb : CircuitBreaker)
  : option CircuitBreaker :=
  match fuel with
  | O => None
  | S fuel =>
      if SlidingWindowSize (config cb) <=? Len cb then
        enforceCountBasedWindow_loop fuel
          match requests cb with
          | [] => cb                       (* Front() is nil *)
          | _ :: _ => removeFrontRequest cb
          end
      else Some cb
  end.

(** [enforceCountBasedWindow] removes oldest entries while the count has
    reached [SlidingWindowSize].  One more iteration than the window has
    requests decides the loop: if the condition has not failed by then it
    never will ([enforceCountBasedWindow_diverges]). *)
Definition enforceCountBasedWindow (cb : CircuitBreaker)
  : outcome CircuitBreaker :=
  match enforceCountBasedWindow_loop (S (List.length (requests cb))) cb with
  | Some cb => Returns cb
  | None => Diverges
  end.

(** The [for] loop of [enforceTimeBasedWindow], one iteration per unit of
    fuel. *)
Fixpoint enforceTimeBasedWindow_loop (fuel : nat) (expirationTime : Time)
    (cb : CircuitBreaker) : option CircuitBreaker :=
  match fuel with
  | O => None
  | S fuel =>
      match requests cb with
      | [] => Some cb                      (* Len() > 0 fails *)
      | entry :: _ =>
          if negb (executionTime entry <? expirationTime)
          then Some cb  (* Stop removing when the first valid entry is found *)
          else enforceTimeBasedWindow_loop fuel expirationTime
                 (removeFrontRequest cb)
      end
  end.

(** [enforceTimeBasedWindow] removes entries older than the window;
    [now] is its [time.Now()], and [time.Duration(SlidingWindowSize)] reads
    the size as nanoseconds. *)
Definition enforceTimeBasedWindow (now : Time) (cb : CircuitBreaker)
  : outcome CircuitBreaker :=
  let expirationTime := now + - SlidingWindowSize (config cb) in
  match enforceTimeBasedWindow_loop (S (List.length (requests cb)))
          expirationTime cb with
  | Some cb => Returns cb
  | None => Diverges
  end.

(** [cleanupOldRequests] removes outdated requests based on the sliding
    window strategy; a type that is neither constant selects no case. *)
Definition cleanupOldRequests (now : Time) (cb : CircuitBreaker)
  : outcome CircuitBreaker :=
  if String.eqb (SlidingWindowType (config cb)) COUNT_BASED then
    enforceCountBasedWindow cb
  else if String.eqb (SlidingWindowType (config cb)) TIME_BASED then
    enforceTimeBasedWindow now cb
  else Returns cb.

(** [addRequest] tracks recent failures in a sliding window; [pruneNow]
    and [pushNow] are the readings of [enforceTimeBasedWindow] and of the
    pushed entry. *)
Definition addRequest (pruneNow pushNow : Time) (failed slow : bool)
    (cb : CircuitBreaker) : outcome CircuitBreaker :=
  (* Remove old requests based on the configured strategy *)
  cb <- cleanupOldRequests pruneNow cb ;;
  let cb :=
    set_requests
      (requests cb
         ++ [{| failed := failed; slow := slow; executionTime := pushNow |}])%list
      cb in
  Returns
    (if failed then set_failureCount (incr (failureCount cb)) cb
     else if slow then set_slowCallCount (incr (slowCallCount cb)) cb
     else cb).

(** [getFailureRate] returns the failure percentage in O(1) time. *)
Definition getFailureRate (cb : CircuitBreaker) : float :=
  if Len cb =? 0 then 0%float
  else percentage (failureCount cb) (Len cb).

(** [getSlowCallRate] returns the slow call percentage in O(1) time. *)
Definition getSlowCallRate (cb : CircuitBreaker) : float :=
  if Len cb =? 0 then 0%float
  else percentage (slowCallCount cb) (Len cb).

(** [recordResult], the second lock-protected section of [Execute]. *)
Definition recordResult (pruneNow pushNow now : Time) (err : option error)
    (isSlow : bool) (cb : CircuitBreaker) : outcome CircuitBreaker :=
  cb <- addRequest pruneNow pushNow (notNil err) isSlow cb ;;
  let failureRate := getFailureRate cb in
  let slowCallRate := getSlowCallRate cb in
  match state cb with
  | None => Panics
  | Some st =>
      match StateRegister.state st with
      | Closed =>
          if (MinimumNumberOfCalls (config cb) <=? Len cb)
             && (float_ge failureRate (FailureRateThreshold (config cb))
                 || float_ge slowCallRate (SlowCallRateThreshold (config cb)))
          then Returns (set_lastFailureTime now (set_state (SetState st Open) cb))
          else Returns cb
      | Open =>
          if WaitDurationInOpenState (config cb) <=? now - lastFailureTime cb
          then Returns (set_halfOpenCalls 0 (set_state (SetState st HalfOpen) cb))
          else Returns cb
      | HalfOpen =>
          if notNil err || isSlow then
            Returns (set_lastFailureTime now
                       (set_halfOpenCalls 0 (set_state (SetState st Open) cb)))
          else if PermittedNumberOfCallsInHalfOpenState (config cb)
                    <=? halfOpenCalls cb
          then Returns (set_halfOpenCalls 0 (set_state (SetState st Closed) cb))
          else Returns cb
      end
  end.

(** The first lock-protected section of [Execute] (as in [V1]). *)
Definition admission (now : Time) (cb : CircuitBreaker)
  : CircuitBreaker * option error :=
  match state cb with
  | None => (cb, Some errNotInitialized)
  | Some st =>
      (* transition from Open -> Half-Open if cooling time has passed *)
      let '(st, cb) :=
        if IsOpen st
           && (WaitDurationInOpenState (config cb) <=? now - lastFailureTime cb)
        then
          let st := SetState st HalfOpen in
          (st, set_halfOpenCalls 0 (set_state st cb))
        else (st, cb) in
      if IsOpen st then (cb, Some (errOpened (config cb)))
      else if IsHalfOpen st then
        if PermittedNumberOfCallsInHalfOpenState (config cb)
             <=? halfOpenCalls cb
        then (cb, Some (errHalfOpenLimit (config cb)))
        else (set_halfOpenCalls (incr (halfOpenCalls cb)) cb, None)
      else (cb, None)
  end.

Definition Execute {W : Type} (clk : Clock) (action : W -> option error * W)
    (cb : CircuitBreaker) (w : W)
  : outcome (option error * CircuitBreaker * W) :=
  match admission (atAdmission clk) cb with
  | (cb, Some rejection) => Returns (Some rejection, cb, w)
  | (cb, None) =>
      let start := atStart clk in
      let '(err, w) := action w in
      let duration := atReturn clk - start in
      (* Determine if call was slow *)
      let isSlow := SlowCallDurationThreshold (config cb) <=? duration in
      cb <- recordResult (atPrune clk) (atPush clk) (atRecord clk)
              err isSlow cb ;;
      Returns (err, cb, w)
  end.

(** *** Notions the properties are stated with *)

Definition current (cb : CircuitBreaker) : option State :=
  option_map StateRegister.state (state cb).

Definition failuresIn (l : list requestEntry) : Z :=
  Z.of_nat (List.length (filter failed l)).

Definition slowCallsIn (l : list requestEntry) : Z :=
  Z.of_nat (List.length (filter (fun e => slow e && negb (failed e)) l)).

(** The aggregates agree with a linear scan of the window. *)
Definition exact (cb : CircuitBreaker) : Prop :=
  failureCount cb = failuresIn (requests cb)
  /\ slowCallCount cb = slowCallsIn (requests cb).

(** The aggregates are the [int]s that the counts of a linear scan wrap
    around to: what [exact] comes to should a window outgrow [int]. *)
Definition tracked (cb : CircuitBreaker) : Prop :=
  failureCount cb = wrap64 (failuresIn (requests cb))
  /\ slowCallCount cb = wrap64 (slowCallsIn (requests cb)).

(** The window without its leading records older than [horizon]. *)
Fixpoint dropOlder (horizon : Time) (l : list requestEntry)
  : list requestEntry :=
  match l with
  | [] => []
  | e :: rest =>
      if executionTime e <? horizon then dropOlder horizon rest else l
  end.



Inductive reachable (c : Config) : CircuitBreaker -> Prop :=
| reach_new : reachable c (NewCircuitBreaker c)
| reach_admission now cb :
    reachable c cb -> reachable c (fst (admission now cb))
| reach_recordResult pruneNow pushNow now err isSlow cb cb' :
    reachable c cb ->
    recordResult pruneNow pushNow now err isSlow cb = Returns cb' ->
    reachable c cb'.


End V2.

(** ** Concrete configurations and calls *)

Definition Second : Duration := 1000000000.
Definition Millisecond : Duration := 1000000.

(** The configurations of the scenario of the specification: the five
    values it fixes, with any name and any slow-call thresholds. *)
Definition scenarioConfig (name : string) (slowAfter : Duration)
    (slowRate : float) : Config :=
  {| Name := name;
     SlidingWindowType := COUNT_BASED;
     FailureRateThreshold := 50;
     MinimumNumberOfCalls := 6;
     WaitDurationInOpenState := 2 * Second;
     PermittedNumberOfCallsInHalfOpenState := 3;
     SlidingWindowSize := 10;
     SlidingWindowTime := 0;
     SlowCallDurationThreshold := slowAfter;
     SlowCallRateThreshold := slowRate |}.

(** The configuration of [TestHalfOpenToClosedTransition]. *)
Definition testConfig : Config :=
  scenarioConfig "test" (200 * Millisecond) 50.

(** The same with another window: its kind and its size. *)
Definition withWindow (kind : WindowType) (size : Z) (c : Config) : Config :=
  {| Name := Name c;
     SlidingWindowType := kind;
     FailureRateThreshold := FailureRateThreshold c;
     MinimumNumberOfCalls := MinimumNumberOfCalls c;
     WaitDurationInOpenState := WaitDurationInOpenState c;
     PermittedNumberOfCallsInHalfOpenState :=
       PermittedNumberOfCallsInHalfOpenState c;
     SlidingWindowSize := size;
     SlidingWindowTime := SlidingWindowTime c;
     SlowCallDurationThreshold := SlowCallDurationThreshold c;
     SlowCallRateThreshold := SlowCallRateThreshold c |}.

(** A count-based window of size 0: what a [Config] literal that does not
    set [SlidingWindowSize] asks for. *)
Definition zeroSizeConfig : Config := withWindow COUNT_BASED 0 testConfig.


(** A clock that reads [t] at admission and at the start of the action,
    [t + took] when the action returns and from then on. *)
Definition clockAt (t : Time) (took : Duration) : Clock :=
  {| atAdmission := t; atStart := t; atReturn := t + took;
     atPrune := t + took; atPush := t + took; atRecord := t + took |}.

(** Actions on a world that counts how often an action has run. *)
Definition failing (message : error) (runs : nat) : option error * nat :=
  (Some message, S runs).
Definition succeeding (runs : nat) : option error * nat := (None, S runs).


(** A window of calls that all failed, with the slowness of each. *)
Definition failedWindow (slows : list bool) : list V1.requestEntry :=
  map (fun b => {| V1.failed := true; V1.slow := b |}) slows.

(** Whether the call that clock [clk] times was slow under [c]. *)
Definition tookLong (c : Config) (clk : Clock) : bool :=
  SlowCallDurationThreshold c <=? atReturn clk - atStart clk.




(** Breakers of the test configuration: V1 opened at reading 0; V1 probing
    with the quota of three used up; V2 after one failing call recorded at
    reading 1. *)
Definition openedBreaker : V1.CircuitBreaker :=
  V1.set_lastFailureTime 0
    (V1.set_state {| StateRegister.state := Open |}
       (V1.NewCircuitBreaker testConfig)).

Definition probingBreaker : V1.CircuitBreaker :=
  V1.set_halfOpenCalls 3
    (V1.set_state {| StateRegister.state := HalfOpen |}
       (V1.NewCircuitBreaker testConfig)).

Definition onceFailed : V2.CircuitBreaker :=
  V2.set_failureCount 1
    (V2.set_requests
       [{| V2.failed := true; V2.slow := false; V2.executionTime := 1 |}]
       (V2.NewCircuitBreaker testConfig)).

(** ** Runs, histories and the two versions side by side *)

(** Calls of [Execute] of V2 one after the other. *)
Fixpoint ExecuteAllV2 {W : Type}
    (calls : list (Clock * (W -> option error * W)))
    (cb : V2.CircuitBreaker) (w : W) : outcome (V2.CircuitBreaker * W) :=
  match calls with
  | [] => Returns (cb, w)
  | (clk, action) :: rest =>
      r <- V2.Execute clk action cb w ;;
      ExecuteAllV2 rest (snd (fst r)) (snd r)
  end.

(** The last [n] elements of a list (all of it when it has fewer). *)
Definition latest {A : Type} (n : nat) (l : list A) : list A :=
  skipn (List.length l - n) l.

(** A breaker of V1 together with the records pushed on it since it was
    made, oldest first: the lock-protected sections in any order, each
    [recordResult] adding the record of its call. *)
Inductive recordedV1 (c : Config)
  : list V1.requestEntry -> V1.CircuitBreaker -> Prop :=
| recordedV1_new : recordedV1 c [] (V1.NewCircuitBreaker c)
| recordedV1_admission history now cb :
    recordedV1 c history cb ->
    recordedV1 c history (fst (V1.admission now cb))
| recordedV1_recordResult history now err isSlow cb cb' :
    recordedV1 c history cb ->
    V1.recordResult now err isSlow cb = Returns cb' ->
    recordedV1 c
      (history ++ [{| V1.failed := notNil err; V1.slow := isSlow |}]) cb'.

(** The same for V2. *)
Inductive recordedV2 (c : Config)
  : list V2.requestEntry -> V2.CircuitBreaker -> Prop :=
| recordedV2_new : recordedV2 c [] (V2.NewCircuitBreaker c)
| recordedV2_admission history now cb :
    recordedV2 c history cb ->
    recordedV2 c history (fst (V2.admission now cb))
| recordedV2_recordResult history pruneNow pushNow now err isSlow cb cb' :
    recordedV2 c history cb ->
    V2.recordResult pruneNow pushNow now err isSlow cb = Returns cb' ->
    recordedV2 c
      (history ++ [{| V2.failed := notNil err; V2.slow := isSlow;
                      V2.executionTime := pushNow |}]) cb'.

(** A breaker of V2 seen as one of V1: the timestamps of the records and
    the two aggregates are forgotten. *)
Definition eraseEntry (e : V2.requestEntry) : V1.requestEntry :=
  {| V1.failed := V2.failed e; V1.slow := V2.slow e |}.

Definition erase (cb : V2.CircuitBreaker) : V1.CircuitBreaker :=
  {| V1.config := V2.config cb;
     V1.state := V2.state cb;
     V1.halfOpenCalls := V2.halfOpenCalls cb;
     V1.lastFailureTime := V2.lastFailureTime cb;
     V1.requests := map eraseEntry (V2.requests cb) |}.


(** Breakers without a state register, as the zero value of the struct
    has it. *)
Definition noRegisterV1 (c : Config) : V1.CircuitBreaker :=
  {| V1.config := c; V1.state := None; V1.halfOpenCalls := 0;
     V1.lastFailureTime := 0; V1.requests := [] |}.

Definition noRegisterV2 (c : Config) : V2.CircuitBreaker :=
  {| V2.config := c; V2.state := None; V2.halfOpenCalls := 0;
     V2.lastFailureTime := 0; V2.requests := [];
     V2.failureCount := 0; V2.slowCallCount := 0 |}.



(** What the half-open counter [h] satisfies under a quota when the
    lifecycle state is [current]: it is within the quota, and it is 0
    outside Half-Open. *)
Definition counterWithin (quota : Z) (current : option State) (h : Z) : Prop :=
  0 <= h <= Z.max 0 quota /\ (current <> Some HalfOpen -> h = 0).


(** The world after the actions of [calls] have run one after the other. *)
Definition afterActions {W : Type}
    (calls : list (Clock * (W -> option error * W))) (w : W) : W :=
  fold_left (fun w call => snd (snd call w)) calls w.

(** Admission sections one after the other with no [recordResult] in
    between, as when callers arrive while the admitted calls are still
    running: the breaker at the end and what each caller was told. *)
Fixpoint admissionsV1 (readings : list Time) (cb : V1.CircuitBreaker)
  : V1.CircuitBreaker * list (option error) :=
  match readings with
  | [] => (cb, [])
  | now :: rest =>
      let '(cb, told) := V1.admission now cb in
      let '(cb, others) := admissionsV1 rest cb in
      (cb, told :: others)
  end.

Fixpoint admissionsV2 (readings : list Time) (cb : V2.CircuitBreaker)
  : V2.CircuitBreaker * list (option error) :=
  match readings with
  | [] => (cb, [])
  | now :: rest =>
      let '(cb, told) := V2.admission now cb in
      let '(cb, others) := admissionsV2 rest cb in
      (cb, told :: others)
  end.

(** The breaker of the test configuration when it has just become
    Half-Open, and a breaker without a half-open quota that is Open. *)
Definition firstProbeV1 : V1.CircuitBreaker :=
  V1.set_state {| StateRegister.state := HalfOpen |}
    (V1.NewCircuitBreaker testConfig).


(** * Properties *)

(** Integer arithmetic is left to [lia]: [simpl] does not unfold it. *)
#[local] Arguments Z.add : simpl never.
#[local] Arguments Z.sub : simpl never.
#[local] Arguments Z.opp : simpl never.
#[local] Arguments Z.mul : simpl never.
#[local] Arguments Z.of_nat : simpl never.

(** ** Go [int]: when [++] and [--] do not wrap *)

Lemma wrap64_int64 (z : Z) : int64 z -> wrap64 z = z.
Proof.
  unfold int64, wrap64, minInt, maxInt. intro H.
  rewrite Z.mod_small; lia.
Qed.

Lemma wrap64_is_int64 (z : Z) : int64 (wrap64 z).
Proof.
  unfold int64, wrap64, minInt, maxInt.
  pose proof (Z.mod_pos_bound (z - - 2 ^ 63) (2 ^ 64)). lia.
Qed.

Lemma wrap64_absorb (a b : Z) : wrap64 (wrap64 a + b) = wrap64 (a + b).
Proof.
  unfold wrap64. f_equal.
  replace ((a - minInt) mod 2 ^ 64 + minInt + b - minInt)
    with ((a - minInt) mod 2 ^ 64 + b) by lia.
  rewrite Z.add_mod_idemp_l by (vm_compute; discriminate).
  f_equal. lia.
Qed.

Lemma incr_int64 (x : Z) : minInt <= x < maxInt -> incr x = x + 1.
Proof. intro H. apply wrap64_int64. unfold int64. lia. Qed.

Lemma decr_int64 (x : Z) : minInt < x <= maxInt -> decr x = x - 1.
Proof. intro H. apply wrap64_int64. unfold int64. lia. Qed.

Lemma incr_wrap64 (a : Z) : incr (wrap64 a) = wrap64 (a + 1).
Proof. apply wrap64_absorb. Qed.

Lemma decr_wrap64 (a : Z) : decr (wrap64 a) = wrap64 (a - 1).
Proof.
  unfold decr. replace (wrap64 a - 1) with (wrap64 a + -1) by lia.
  rewrite wrap64_absorb. reflexivity.
Qed.

(** ** Bookkeeping: outcomes, states, windows *)

Lemma bind_Returns {T U : Type} (m : outcome T) (k : T -> outcome U) (u : U) :
  bind m k = Returns u -> exists v, m = Returns v /\ k v = Returns u.
Proof.
  destruct m as [v| |]; simpl; intro H; try discriminate.
  exists v; split; [reflexivity | exact H].
Qed.

Lemma IsOpen_iff (st : CircuitBreakerState) :
  IsOpen st = true <-> StateRegister.state st = Open.
Proof. unfold IsOpen; destruct (StateRegister.state st); split; congruence. Qed.

Lemma IsHalfOpen_iff (st : CircuitBreakerState) :
  IsHalfOpen st = true <-> StateRegister.state st = HalfOpen.
Proof. unfold IsHalfOpen; destruct (StateRegister.state st); split; congruence. Qed.

Lemma IsClosed_iff (st : CircuitBreakerState) :
  IsClosed st = true <-> StateRegister.state st = Closed.
Proof. unfold IsClosed; destruct (StateRegister.state st); split; congruence. Qed.

(** Decides the integer tests of a goal's conditionals from the context. *)
Ltac decide_tests :=
  repeat match goal with
    | |- context [?a <=? ?b] =>
        first [ replace (a <=? b) with true by (symmetry; apply Z.leb_le; lia)
              | replace (a <=? b) with false by (symmetry; apply Z.leb_gt; lia) ]
    | |- context [?a <? ?b] =>
        first [ replace (a <? b) with true by (symmetry; apply Z.ltb_lt; lia)
              | replace (a <? b) with false by (symmetry; apply Z.ltb_ge; lia) ]
    end.

(** ** The admission section *)

Section AdmissionV1.

Import V1.
Variable now : Time.
Variable cb : CircuitBreaker.
Variable st : CircuitBreakerState.
Hypothesis Hst : state cb = Some st.

Lemma V1_admission_closed :
  StateRegister.state st = Closed -> admission now cb = (cb, None).
Proof.
  intro Hs. unfold admission, IsOpen, IsHalfOpen. rewrite Hst, Hs. simpl.
  rewrite Hs. reflexivity.
Qed.

Lemma V1_admission_open_cooling :
  StateRegister.state st = Open ->
  now - lastFailureTime cb < WaitDurationInOpenState (config cb) ->
  admission now cb = (cb, Some (errOpened (config cb))).
Proof.
  intros Hs Hlt.
  unfold admission, IsOpen, IsHalfOpen. rewrite Hst, Hs. simpl.
  decide_tests. simpl. rewrite Hs. reflexivity.
Qed.

Lemma V1_admission_open_cooled :
  StateRegister.state st = Open ->
  WaitDurationInOpenState (config cb) <= now - lastFailureTime cb ->
  admission now cb =
    let probing :=
      set_halfOpenCalls 0 (set_state (SetState st HalfOpen) cb) in
    if PermittedNumberOfCallsInHalfOpenState (config cb) <=? 0
    then (probing, Some (errHalfOpenLimit (config cb)))
    else (set_halfOpenCalls 1 probing, None).
Proof.
  intros Hs Hle.
  unfold admission, IsOpen, IsHalfOpen. rewrite Hst, Hs. simpl.
  decide_tests. simpl.
  destruct (PermittedNumberOfCallsInHalfOpenState (config cb) <=? 0);
    reflexivity.
Qed.

Lemma V1_admission_halfopen :
  StateRegister.state st = HalfOpen ->
  admission now cb =
    if PermittedNumberOfCallsInHalfOpenState (config cb) <=? halfOpenCalls cb
    then (cb, Some (errHalfOpenLimit (config cb)))
    else (set_halfOpenCalls (incr (halfOpenCalls cb)) cb, None).
Proof.
  intro Hs. unfold admission, IsOpen, IsHalfOpen. rewrite Hst, Hs. simpl.
  rewrite Hs. reflexivity.
Qed.

End AdmissionV1.

Section AdmissionV2.

Import V2.
Variable now : Time.
Variable cb : CircuitBreaker.
Variable st : CircuitBreakerState.
Hypothesis Hst : state cb = Some st.

Lemma V2_admission_closed :
  StateRegister.state st = Closed -> admission now cb = (cb, None).
Proof.
  intro Hs. unfold admission, IsOpen, IsHalfOpen. rewrite Hst, Hs. simpl.
  rewrite Hs. reflexivity.
Qed.

Lemma V2_admission_open_cooling :
  StateRegister.state st = Open ->
  now - lastFailureTime cb < WaitDurationInOpenState (config cb) ->
  admission now cb = (cb, Some (errOpened (config cb))).
Proof.
  intros Hs Hlt.
  unfold admission, IsOpen, IsHalfOpen. rewrite Hst, Hs. simpl.
  decide_tests. simpl. rewrite Hs. reflexivity.
Qed.

Lemma V2_admission_open_cooled :
  StateRegister.state st = Open ->
  WaitDurationInOpenState (config cb) <= now - lastFailureTime cb ->
  admission now cb =
    let probing :=
      set_halfOpenCalls 0 (set_state (SetState st HalfOpen) cb) in
    if PermittedNumberOfCallsInHalfOpenState (config cb) <=? 0
    then (probing, Some (errHalfOpenLimit (config cb)))
    else (set_halfOpenCalls 1 probing, None).
Proof.
  intros Hs Hle.
  unfold admission, IsOpen, IsHalfOpen. rewrite Hst, Hs. simpl.
  decide_tests. simpl.
  destruct (PermittedNumberOfCallsInHalfOpenState (config cb) <=? 0);
    reflexivity.
Qed.

Lemma V2_admission_halfopen :
  StateRegister.state st = HalfOpen ->
  admission now cb =
    if PermittedNumberOfCallsInHalfOpenState (config cb) <=? halfOpenCalls cb
    then (cb, Some (errHalfOpenLimit (config cb)))
    else (set_halfOpenCalls (incr (halfOpenCalls cb)) cb, None).
Proof.
  intro Hs. unfold admission, IsOpen, IsHalfOpen. rewrite Hst, Hs. simpl.
  rewrite Hs. reflexivity.
Qed.

End AdmissionV2.

(** A call the admission section turns down returns at once: the action is
    not run, so the world it would act on is handed back as it was. *)
Lemma V1_Execute_rejected {W : Type} (clk : Clock)
    (action : W -> option error * W) (cb cb' : V1.CircuitBreaker) (w : W)
    (rejection : error) :
  V1.admission (atAdmission clk) cb = (cb', Some rejection) ->
  V1.Execute clk action cb w = Returns (Some rejection, cb', w).
Proof. intro H. unfold V1.Execute. rewrite H. reflexivity. Qed.

Lemma V2_Execute_rejected {W : Type} (clk : Clock)
    (action : W -> option error * W) (cb cb' : V2.CircuitBreaker) (w : W)
    (rejection : error) :
  V2.admission (atAdmission clk) cb = (cb', Some rejection) ->
  V2.Execute clk action cb w = Returns (Some rejection, cb', w).
Proof. intro H. unfold V2.Execute. rewrite H. reflexivity. Qed.

(** An admitted call runs the action once and records what it did. *)
Lemma V1_Execute_admitted {W : Type} (clk : Clock)
    (action : W -> option error * W) (cb cb' : V1.CircuitBreaker) (w : W) :
  V1.admission (atAdmission clk) cb = (cb', None) ->
  V1.Execute clk action cb w =
    (cb'' <- V1.recordResult (atRecord clk) (fst (action w))
               (SlowCallDurationThreshold (V1.config cb')
                  <=? atReturn clk - atStart clk) cb' ;;
     Returns (fst (action w), cb'', snd (action w))).
Proof.
  intro H. unfold V1.Execute. rewrite H. destruct (action w); reflexivity.
Qed.

Lemma V2_Execute_admitted {W : Type} (clk : Clock)
    (action : W -> option error * W) (cb cb' : V2.CircuitBreaker) (w : W) :
  V2.admission (atAdmission clk) cb = (cb', None) ->
  V2.Execute clk action cb w =
    (cb'' <- V2.recordResult (atPrune clk) (atPush clk) (atRecord clk)
               (fst (action w))
               (SlowCallDurationThreshold (V2.config cb')
                  <=? atReturn clk - atStart clk) cb' ;;
     Returns (fst (action w), cb'', snd (action w))).
Proof.
  intro H. unfold V2.Execute. rewrite H. destruct (action w); reflexivity.
Qed.

(** ** C1: the order of the pre-admission decision *)

(** C1.  For every call of [Execute] on a breaker whose state register is
    there, in both versions of the breaker, the admission section decides in
    the four steps of the specification.  (1) Open with the wait elapsed:
    the breaker becomes Half-Open with [halfOpenCalls] reset to 0, and the
    decision goes on from there as step 3 does, so the call is admitted as
    the first probe ([halfOpenCalls] = 1) unless the quota is not even 1.
    (2) Open with the wait not elapsed: rejected with the opened-state
    error, breaker untouched.  (3) Half-Open: rejected with the half-open
    error when [halfOpenCalls] has reached the quota, otherwise admitted with
    [halfOpenCalls] incremented (by [++], which adds one: the counter is
    below a quota that is an [int]).  (4) Closed: admitted, breaker
    untouched.
    Whenever the section rejects, [Execute] returns that error and the
    action has not run: the world it acts on is returned unchanged. *)
Theorem C1_admission_order :
  forall (now : Time),
    (forall (cb : V1.CircuitBreaker) (st : CircuitBreakerState),
        V1.state cb = Some st ->
        let wait := WaitDurationInOpenState (V1.config cb) in
        let quota := PermittedNumberOfCallsInHalfOpenState (V1.config cb) in
        let elapsed := now - V1.lastFailureTime cb in
        let probing :=
          V1.set_halfOpenCalls 0 (V1.set_state (SetState st HalfOpen) cb) in
        (StateRegister.state st = Open -> wait <= elapsed -> 0 < quota ->
         V1.admission now cb = (V1.set_halfOpenCalls 1 probing, None))
        /\ (StateRegister.state st = Open -> wait <= elapsed -> quota <= 0 ->
            V1.admission now cb
            = (probing, Some (errHalfOpenLimit (V1.config cb))))
        /\ (StateRegister.state st = Open -> elapsed < wait ->
            V1.admission now cb = (cb, Some (errOpened (V1.config cb))))
        /\ (StateRegister.state st = HalfOpen -> quota <= V1.halfOpenCalls cb ->
            V1.admission now cb = (cb, Some (errHalfOpenLimit (V1.config cb))))
        /\ (StateRegister.state st = HalfOpen -> V1.halfOpenCalls cb < quota ->
            V1.admission now cb
            = (V1.set_halfOpenCalls (incr (V1.halfOpenCalls cb)) cb, None)
            /\ (minInt <= V1.halfOpenCalls cb -> quota <= maxInt ->
                incr (V1.halfOpenCalls cb) = V1.halfOpenCalls cb + 1))
        /\ (StateRegister.state st = Closed ->
            V1.admission now cb = (cb, None)))
    /\ (forall (cb : V2.CircuitBreaker) (st : CircuitBreakerState),
        V2.state cb = Some st ->
        let wait := WaitDurationInOpenState (V2.config cb) in
        let quota := PermittedNumberOfCallsInHalfOpenState (V2.config cb) in
        let elapsed := now - V2.lastFailureTime cb in
        let probing :=
          V2.set_halfOpenCalls 0 (V2.set_state (SetState st HalfOpen) cb) in
        (StateRegister.state st = Open -> wait <= elapsed -> 0 < quota ->
         V2.admission now cb = (V2.set_halfOpenCalls 1 probing, None))
        /\ (StateRegister.state st = Open -> wait <= elapsed -> quota <= 0 ->
            V2.admission now cb
            = (probing, Some (errHalfOpenLimit (V2.config cb))))
        /\ (StateRegister.state st = Open -> elapsed < wait ->
            V2.admission now cb = (cb, Some (errOpened (V2.config cb))))
        /\ (StateRegister.state st = HalfOpen -> quota <= V2.halfOpenCalls cb ->
            V2.admission now cb = (cb, Some (errHalfOpenLimit (V2.config cb))))
        /\ (StateRegister.state st = HalfOpen -> V2.halfOpenCalls cb < quota ->
            V2.admission now cb
            = (V2.set_halfOpenCalls (incr (V2.halfOpenCalls cb)) cb, None)
            /\ (minInt <= V2.halfOpenCalls cb -> quota <= maxInt ->
                incr (V2.halfOpenCalls cb) = V2.halfOpenCalls cb + 1))
        /\ (StateRegister.state st = Closed ->
            V2.admission now cb = (cb, None)))
    /\ (forall (W : Type) (clk : Clock) (action : W -> option error * W)
               (w : W) (rejection : error) (cb cb' : V1.CircuitBreaker),
        atAdmission clk = now ->
        V1.admission now cb = (cb', Some rejection) ->
        V1.Execute clk action cb w = Returns (Some rejection, cb', w))
    /\ (forall (W : Type) (clk : Clock) (action : W -> option error * W)
               (w : W) (rejection : error) (cb cb' : V2.CircuitBreaker),
        atAdmission clk = now ->
        V2.admission now cb = (cb', Some rejection) ->
        V2.Execute clk action cb w = Returns (Some rejection, cb', w)).
Proof.
  intro now. repeat apply conj.
  - intros cb st Hst wait quota elapsed probing.
    repeat apply conj; intros Hs; intros.
    + subst wait elapsed quota probing.
      rewrite (V1_admission_open_cooled now cb st Hst Hs) by assumption.
      decide_tests. reflexivity.
    + subst wait elapsed quota probing.
      rewrite (V1_admission_open_cooled now cb st Hst Hs) by assumption.
      decide_tests. reflexivity.
    + apply (V1_admission_open_cooling now cb st Hst Hs). assumption.
    + rewrite (V1_admission_halfopen now cb st Hst Hs).
      subst quota. decide_tests. reflexivity.
    + rewrite (V1_admission_halfopen now cb st Hst Hs).
      subst quota. decide_tests. split; [reflexivity | ].
      intros Hmin Hmax. apply incr_int64. lia.
    + apply (V1_admission_closed now cb st Hst Hs).
  - intros cb st Hst wait quota elapsed probing.
    repeat apply conj; intros Hs; intros.
    + subst wait elapsed quota probing.
      rewrite (V2_admission_open_cooled now cb st Hst Hs) by assumption.
      decide_tests. reflexivity.
    + subst wait elapsed quota probing.
      rewrite (V2_admission_open_cooled now cb st Hst Hs) by assumption.
      decide_tests. reflexivity.
    + apply (V2_admission_open_cooling now cb st Hst Hs). assumption.
    + rewrite (V2_admission_halfopen now cb st Hst Hs).
      subst quota. decide_tests. reflexivity.
    + rewrite (V2_admission_halfopen now cb st Hst Hs).
      subst quota. decide_tests. split; [reflexivity | ].
      intros Hmin Hmax. apply incr_int64. lia.
    + apply (V2_admission_closed now cb st Hst Hs).
  - intros W clk action w rejection cb cb' Hclk H.
    apply V1_Execute_rejected. rewrite Hclk. exact H.
  - intros W clk action w rejection cb cb' Hclk H.
    apply V2_Execute_rejected. rewrite Hclk. exact H.
Qed.

(** ** What the sections of V1 leave alone *)

Lemma V1_addRequest_requests (failed slow : bool) (cb : V1.CircuitBreaker) :
  V1.requests (V1.addRequest failed slow cb) =
    ((if SlidingWindowSize (V1.config cb) <=? V1.Len cb
      then tl (V1.requests cb) else V1.requests cb)
       ++ [{| V1.failed := failed; V1.slow := slow |}])%list.
Proof.
  unfold V1.addRequest.
  destruct (SlidingWindowSize (V1.config cb) <=? V1.Len cb);
    [destruct (V1.requests cb) eqn:E | ]; simpl; rewrite ?E; reflexivity.
Qed.

Lemma V1_addRequest_frame (failed slow : bool) (cb : V1.CircuitBreaker) :
  V1.addRequest failed slow cb
  = V1.set_requests (V1.requests (V1.addRequest failed slow cb)) cb.
Proof.
  unfold V1.addRequest.
  destruct (SlidingWindowSize (V1.config cb) <=? V1.Len cb);
    [destruct (V1.requests cb) eqn:E | ]; simpl; rewrite ?E; reflexivity.
Qed.

Lemma V1_addRequest_state (failed slow : bool) (cb : V1.CircuitBreaker) :
  V1.state (V1.addRequest failed slow cb) = V1.state cb.
Proof. rewrite V1_addRequest_frame. reflexivity. Qed.

Lemma V1_addRequest_config (failed slow : bool) (cb : V1.CircuitBreaker) :
  V1.config (V1.addRequest failed slow cb) = V1.config cb.
Proof. rewrite V1_addRequest_frame. reflexivity. Qed.

Lemma V1_addRequest_halfOpenCalls (failed slow : bool) (cb : V1.CircuitBreaker) :
  V1.halfOpenCalls (V1.addRequest failed slow cb) = V1.halfOpenCalls cb.
Proof. rewrite V1_addRequest_frame. reflexivity. Qed.

Lemma V1_addRequest_lastFailureTime (failed slow : bool)
    (cb : V1.CircuitBreaker) :
  V1.lastFailureTime (V1.addRequest failed slow cb) = V1.lastFailureTime cb.
Proof. rewrite V1_addRequest_frame. reflexivity. Qed.

(** The admission section touches the state register and [halfOpenCalls]
    only, and admits no call on a breaker without a register. *)
Lemma V1_admission_frame (now : Time) (cb : V1.CircuitBreaker) :
  let cb' := fst (V1.admission now cb) in
  V1.config cb' = V1.config cb
  /\ V1.requests cb' = V1.requests cb
  /\ V1.lastFailureTime cb' = V1.lastFailureTime cb
  /\ (V1.state cb = None -> V1.state cb' = None)
  /\ (V1.state cb <> None -> V1.state cb' <> None).
Proof.
  unfold V1.admission.
  destruct (V1.state cb) as [st|] eqn:Hst; simpl.
  2: { rewrite Hst. repeat split; congruence. }
  destruct (IsOpen st
            && (WaitDurationInOpenState (V1.config cb)
                <=? now - V1.lastFailureTime cb)); simpl.
  - destruct (PermittedNumberOfCallsInHalfOpenState (V1.config cb) <=? 0);
      simpl; repeat split; congruence.
  - destruct (IsOpen st); [ | destruct (IsHalfOpen st);
      [destruct (PermittedNumberOfCallsInHalfOpenState (V1.config cb)
                 <=? V1.halfOpenCalls cb) | ] ];
      simpl; rewrite ?Hst; repeat split; congruence.
Qed.

Lemma V1_admission_rejections (now : Time) (cb cb' : V1.CircuitBreaker)
    (rejection : error) :
  V1.admission now cb = (cb', Some rejection) ->
  rejection = errOpened (V1.config cb)
  \/ rejection = errHalfOpenLimit (V1.config cb)
  \/ rejection = errNotInitialized.
Proof.
  unfold V1.admission.
  destruct (V1.state cb) as [st|]; [ | intro H; inversion H; auto ].
  destruct (IsOpen st
            && (WaitDurationInOpenState (V1.config cb)
                <=? now - V1.lastFailureTime cb)); simpl.
  - destruct (PermittedNumberOfCallsInHalfOpenState (V1.config cb) <=? 0);
      intro H; inversion H; auto.
  - destruct (IsOpen st); [ | destruct (IsHalfOpen st);
      [destruct (PermittedNumberOfCallsInHalfOpenState (V1.config cb)
                 <=? V1.halfOpenCalls cb) | ] ];
      intro H; inversion H; auto.
Qed.

Lemma V1_admitted_has_state (now : Time) (cb cb' : V1.CircuitBreaker) :
  V1.admission now cb = (cb', None) -> V1.state cb' <> None.
Proof.
  intro H.
  destruct (V1_admission_frame now cb) as (_ & _ & _ & _ & Hsome).
  rewrite H in Hsome. simpl in Hsome. apply Hsome.
  unfold V1.admission in H. destruct (V1.state cb); [discriminate | inversion H].
Qed.

(** [recordResult] dereferences the register once: with a register it
    returns, and it keeps the configuration and the window [addRequest] made. *)
Lemma V1_recordResult_returns (now : Time) (err : option error) (isSlow : bool)
    (cb : V1.CircuitBreaker) :
  V1.state cb <> None ->
  exists cb',
    V1.recordResult now err isSlow cb = Returns cb'
    /\ V1.requests cb' = V1.requests (V1.addRequest (notNil err) isSlow cb)
    /\ V1.config cb' = V1.config cb
    /\ V1.state cb' <> None.
Proof.
  intro Hst. unfold V1.recordResult.
  assert (Hw := V1_addRequest_state (notNil err) isSlow cb).
  assert (Hc := V1_addRequest_config (notNil err) isSlow cb).
  remember (V1.addRequest (notNil err) isSlow cb) as w eqn:Ew.
  destruct (V1.state w) as [st|] eqn:E; [ | congruence ].
  destruct (StateRegister.state st);
    repeat match goal with
      | |- context [if ?b then _ else _] => destruct b
      end;
    eexists; (split; [reflexivity | ]); simpl; rewrite ?E;
    repeat split; congruence.
Qed.

(** ** Counting by scan *)

Lemma V2_failuresIn_cons (e : V2.requestEntry) (l : list V2.requestEntry) :
  V2.failuresIn (e :: l) = (if V2.failed e then 1 else 0) + V2.failuresIn l.
Proof.
  unfold V2.failuresIn. cbn [filter].
  destruct (V2.failed e); cbn [List.length]; lia.
Qed.

Lemma V2_slowCallsIn_cons (e : V2.requestEntry) (l : list V2.requestEntry) :
  V2.slowCallsIn (e :: l)
  = (if V2.slow e && negb (V2.failed e) then 1 else 0) + V2.slowCallsIn l.
Proof.
  unfold V2.slowCallsIn. cbn [filter].
  destruct (V2.slow e && negb (V2.failed e)); cbn [List.length]; lia.
Qed.

Lemma V2_failuresIn_app (l l' : list V2.requestEntry) :
  V2.failuresIn (l ++ l') = V2.failuresIn l + V2.failuresIn l'.
Proof.
  unfold V2.failuresIn. rewrite filter_app, length_app. lia.
Qed.

Lemma V2_slowCallsIn_app (l l' : list V2.requestEntry) :
  V2.slowCallsIn (l ++ l') = V2.slowCallsIn l + V2.slowCallsIn l'.
Proof.
  unfold V2.slowCallsIn. rewrite filter_app, length_app. lia.
Qed.

(** A record is counted by one aggregate at most, and the two together
    never count more records than the window has. *)
Lemma V2_scan_bounds (l : list V2.requestEntry) :
  0 <= V2.failuresIn l
  /\ 0 <= V2.slowCallsIn l
  /\ V2.failuresIn l + V2.slowCallsIn l <= Z.of_nat (List.length l).
Proof.
  induction l as [|e l IH].
  - unfold V2.failuresIn, V2.slowCallsIn. simpl. lia.
  - rewrite V2_failuresIn_cons, V2_slowCallsIn_cons.
    change (List.length (e :: l)) with (S (List.length l)).
    destruct (V2.failed e), (V2.slow e); cbn [andb negb]; lia.
Qed.

(** ** Removing the front request *)

Lemma V2_removeFrontRequest_requests (cb : V2.CircuitBreaker) :
  V2.requests (V2.removeFrontRequest cb) = tl (V2.requests cb).
Proof.
  unfold V2.removeFrontRequest.
  destruct (V2.requests cb) as [|e rest] eqn:E; simpl; [exact E | reflexivity].
Qed.

Lemma V2_removeFrontRequest_frame (cb : V2.CircuitBreaker) :
  let cb' := V2.removeFrontRequest cb in
  V2.config cb' = V2.config cb
  /\ V2.state cb' = V2.state cb
  /\ V2.halfOpenCalls cb' = V2.halfOpenCalls cb
  /\ V2.lastFailureTime cb' = V2.lastFailureTime cb.
Proof.
  unfold V2.removeFrontRequest.
  destruct (V2.requests cb) as [|e rest]; simpl; [tauto | ].
  destruct (V2.failed e), (V2.slow e); simpl; tauto.
Qed.

(** The change of the aggregates at a removal: the one that counted the
    removed record is decremented, once. *)
Lemma V2_removeFrontRequest_counts (cb : V2.CircuitBreaker)
    (e : V2.requestEntry) (rest : list V2.requestEntry) :
  V2.requests cb = e :: rest ->
  let cb' := V2.removeFrontRequest cb in
  V2.requests cb' = rest
  /\ V2.failureCount cb'
     = (if V2.failed e then decr (V2.failureCount cb)
        else V2.failureCount cb)
  /\ V2.slowCallCount cb'
     = (if V2.slow e && negb (V2.failed e) then decr (V2.slowCallCount cb)
        else V2.slowCallCount cb).
Proof.
  intro E. unfold V2.removeFrontRequest. rewrite E.
  destruct (V2.failed e), (V2.slow e); simpl; repeat split; reflexivity.
Qed.

(** Each removal takes the removed record out of the one aggregate that
    counted it: tracked aggregates stay tracked. *)
Lemma V2_removeFrontRequest_tracked (cb : V2.CircuitBreaker) :
  V2.tracked cb -> V2.tracked (V2.removeFrontRequest cb).
Proof.
  unfold V2.tracked. intros (Hf & Hs).
  destruct (V2.requests cb) as [|e rest] eqn:E.
  - unfold V2.removeFrontRequest. rewrite E, E. split; assumption.
  - destruct (V2_removeFrontRequest_counts cb e rest E) as (Hq & Hf' & Hs').
    rewrite Hq, Hf', Hs', Hf, Hs, !decr_wrap64.
    rewrite V2_failuresIn_cons, V2_slowCallsIn_cons.
    destruct (V2.failed e), (V2.slow e); simpl; split; f_equal; lia.
Qed.

(** Aggregates that are tracked are exact as long as the length of the
    window is an [int]. *)
Lemma V2_tracked_exact (cb : V2.CircuitBreaker) :
  V2.tracked cb -> V2.Len cb <= maxInt -> V2.exact cb.
Proof.
  unfold V2.tracked, V2.exact, V2.Len. intros (Hf & Hs) Hlen.
  pose proof (V2_scan_bounds (V2.requests cb)) as (B1 & B2 & B3).
  rewrite Hf, Hs, !wrap64_int64; [tauto | | ]; unfold int64, minInt; lia.
Qed.

(** [k] removals in a row. *)
Lemma V2_removals_requests (k : nat) (cb : V2.CircuitBreaker) :
  V2.requests (Nat.iter k V2.removeFrontRequest cb) = skipn k (V2.requests cb).
Proof.
  induction k as [|k IH]; [reflexivity | ].
  simpl Nat.iter. rewrite V2_removeFrontRequest_requests, IH.
  clear IH. revert k. induction (V2.requests cb) as [|e l IHl]; intro k.
  - destruct k; reflexivity.
  - destruct k; [reflexivity | ]. simpl. apply (IHl k).
Qed.

Lemma V2_removals_frame (k : nat) (cb : V2.CircuitBreaker) :
  let cb' := Nat.iter k V2.removeFrontRequest cb in
  V2.config cb' = V2.config cb
  /\ V2.state cb' = V2.state cb
  /\ V2.halfOpenCalls cb' = V2.halfOpenCalls cb
  /\ V2.lastFailureTime cb' = V2.lastFailureTime cb.
Proof.
  induction k as [|k IH]; simpl; [tauto | ].
  destruct (V2_removeFrontRequest_frame (Nat.iter k V2.removeFrontRequest cb))
    as (H1 & H2 & H3 & H4).
  simpl in IH. destruct IH as (I1 & I2 & I3 & I4).
  repeat split; congruence.
Qed.

Lemma V2_removals_tracked (k : nat) (cb : V2.CircuitBreaker) :
  V2.tracked cb -> V2.tracked (Nat.iter k V2.removeFrontRequest cb).
Proof.
  intro H. induction k as [|k IH]; simpl;
    [exact H | apply V2_removeFrontRequest_tracked, IH].
Qed.

Lemma iter_shift {A : Type} (f : A -> A) (k : nat) (x : A) :
  Nat.iter k f (f x) = Nat.iter (S k) f x.
Proof. induction k as [|k IH]; simpl; [reflexivity | now rewrite IH]. Qed.

Lemma V2_removals_Len (k : nat) (cb : V2.CircuitBreaker) :
  V2.Len (Nat.iter k V2.removeFrontRequest cb)
  = Z.of_nat (List.length (V2.requests cb) - k).
Proof.
  unfold V2.Len. rewrite V2_removals_requests, length_skipn. reflexivity.
Qed.

(** ** The count-based pruning loop *)

Section CountBasedLoop.

Import V2.

(** The body of the loop is a removal: on an empty window both do nothing. *)
Lemma V2_count_loop_step (fuel : nat) (cb : CircuitBreaker) :
  enforceCountBasedWindow_loop (S fuel) cb =
    if SlidingWindowSize (config cb) <=? Len cb
    then enforceCountBasedWindow_loop fuel (removeFrontRequest cb)
    else Some cb.
Proof.
  simpl. destruct (SlidingWindowSize (config cb) <=? Len cb);
    [ | reflexivity ].
  destruct (requests cb) eqn:E; [ | reflexivity ].
  unfold removeFrontRequest. rewrite E. reflexivity.
Qed.

(** When the loop ends it has removed some [k] front requests, it ends
    with the window below the size, and not before. *)
Lemma V2_count_loop_result (fuel : nat) :
  forall cb r,
    enforceCountBasedWindow_loop fuel cb = Some r ->
    exists k : nat,
      r = Nat.iter k removeFrontRequest cb
      /\ Len r < SlidingWindowSize (config cb)
      /\ forall j : nat, (j < k)%nat ->
           SlidingWindowSize (config cb)
           <= Len (Nat.iter j removeFrontRequest cb).
Proof.
  induction fuel as [|fuel IH]; intros cb r H; [discriminate | ].
  rewrite V2_count_loop_step in H.
  destruct (SlidingWindowSize (config cb) <=? Len cb) eqn:Hc.
  - destruct (IH _ _ H) as (k & Hr & Hlt & Hj).
    destruct (V2_removeFrontRequest_frame cb) as (Hcfg & _).
    simpl in Hcfg. rewrite Hcfg in Hlt, Hj.
    exists (S k). rewrite <- iter_shift. repeat split; try assumption.
    intros [|j] Hlt'.
    + simpl. apply Z.leb_le. exact Hc.
    + rewrite <- iter_shift. apply Hj. lia.
  - inversion H; subst r. exists O. simpl. repeat split.
    + apply Z.leb_gt. exact Hc.
    + intros j Hj. lia.
Qed.

(** More fuel changes nothing once the loop has ended. *)
Lemma V2_count_loop_fuel (fuel : nat) :
  forall cb r more,
    enforceCountBasedWindow_loop fuel cb = Some r ->
    enforceCountBasedWindow_loop (fuel + more) cb = Some r.
Proof.
  induction fuel as [|fuel IH]; intros cb r more H; [discriminate | ].
  change (S fuel + more)%nat with (S (fuel + more)).
  rewrite V2_count_loop_step in *.
  destruct (SlidingWindowSize (config cb) <=? Len cb);
    [apply IH | ]; exact H.
Qed.

(** With a size of at least 1 the loop ends within one iteration more than
    the window has requests. *)
Lemma V2_count_loop_terminates (fuel : nat) :
  forall cb,
    1 <= SlidingWindowSize (config cb) ->
    (List.length (requests cb) < fuel)%nat ->
    exists r, enforceCountBasedWindow_loop fuel cb = Some r.
Proof.
  induction fuel as [|fuel IH]; intros cb Hsize Hfuel; [lia | ].
  rewrite V2_count_loop_step.
  destruct (SlidingWindowSize (config cb) <=? Len cb) eqn:Hc;
    [ | eexists; reflexivity ].
  apply Z.leb_le in Hc. unfold Len in Hc.
  destruct (V2_removeFrontRequest_frame cb) as (Hcfg & _). simpl in Hcfg.
  apply IH.
  - rewrite Hcfg. exact Hsize.
  - rewrite V2_removeFrontRequest_requests.
    destruct (requests cb); simpl in *; lia.
Qed.

(** With a size below 1 the condition of the loop holds for every window,
    the empty one included: no amount of fuel ends it. *)
Lemma V2_count_loop_spins (fuel : nat) :
  forall cb,
    SlidingWindowSize (config cb) <= 0 ->
    enforceCountBasedWindow_loop fuel cb = None.
Proof.
  induction fuel as [|fuel IH]; intros cb Hsize; [reflexivity | ].
  rewrite V2_count_loop_step.
  replace (SlidingWindowSize (config cb) <=? Len cb) with true
    by (symmetry; apply Z.leb_le; unfold Len; lia).
  apply IH.
  destruct (V2_removeFrontRequest_frame cb) as (Hcfg & _). simpl in Hcfg.
  rewrite Hcfg. exact Hsize.
Qed.

(** [Diverges] is the right reading of fuel running out in
    [enforceCountBasedWindow]: then no fuel at all ends the loop. *)
Lemma enforceCountBasedWindow_diverges (cb : CircuitBreaker) :
  enforceCountBasedWindow cb = Diverges <->
  forall fuel, enforceCountBasedWindow_loop fuel cb = None.
Proof.
  unfold enforceCountBasedWindow. split.
  - intros H fuel.
    destruct (Z_le_gt_dec (SlidingWindowSize (config cb)) 0) as [Hle|Hgt].
    + apply V2_count_loop_spins. exact Hle.
    + destruct (V2_count_loop_terminates (S (List.length (requests cb))) cb)
        as (r & Hr); [lia | lia | ].
      rewrite Hr in H. discriminate.
  - intro H. rewrite H. reflexivity.
Qed.

Lemma enforceCountBasedWindow_returns (cb r : CircuitBreaker) :
  enforceCountBasedWindow cb = Returns r <->
  exists fuel, enforceCountBasedWindow_loop fuel cb = Some r.
Proof.
  unfold enforceCountBasedWindow. split.
  - intro H.
    destruct (enforceCountBasedWindow_loop _ cb) as [r'|] eqn:E;
      [ | discriminate ].
    inversion H; subst r'. eexists. exact E.
  - intros (fuel & H).
    destruct (Z_le_gt_dec (SlidingWindowSize (config cb)) 0) as [Hle|Hgt].
    + rewrite V2_count_loop_spins in H by exact Hle. discriminate.
    + destruct (V2_count_loop_terminates (S (List.length (requests cb))) cb)
        as (r' & Hr); [lia | lia | ].
      rewrite Hr.
      apply (V2_count_loop_fuel _ _ _ (S (List.length (requests cb)))) in H.
      apply (V2_count_loop_fuel _ _ _ fuel) in Hr.
      rewrite Nat.add_comm in Hr. congruence.
Qed.

(** What count-based pruning returns: the breaker with its [k] oldest
    requests removed, [k] the least number that brings the window below the
    size. *)
Lemma enforceCountBasedWindow_result (cb r : CircuitBreaker) :
  enforceCountBasedWindow cb = Returns r ->
  1 <= SlidingWindowSize (config cb)
  /\ Len r = Z.min (Len cb) (SlidingWindowSize (config cb) - 1)
  /\ exists k : nat,
       r = Nat.iter k removeFrontRequest cb
       /\ requests r = skipn k (requests cb).
Proof.
  intro H. apply enforceCountBasedWindow_returns in H.
  destruct H as (fuel & H).
  assert (Hsize : 1 <= SlidingWindowSize (config cb)).
  { destruct (Z_le_gt_dec (SlidingWindowSize (config cb)) 0) as [Hle|Hgt];
      [ | lia ].
    rewrite V2_count_loop_spins in H by exact Hle. discriminate. }
  split; [exact Hsize | ].
  destruct (V2_count_loop_result _ _ _ H) as (k & Hr & Hlt & Hj).
  split.
  - subst r. rewrite V2_removals_Len in *. unfold Len.
    destruct k as [|k]; [rewrite Nat.sub_0_r in *; unfold Len in *; lia | ].
    specialize (Hj k (Nat.lt_succ_diag_r k)).
    rewrite V2_removals_Len in Hj. lia.
  - exists k. split; [exact Hr | ].
    subst r. apply V2_removals_requests.
Qed.

End CountBasedLoop.

(** ** The time-based pruning loop *)

Section TimeBasedLoop.

Import V2.

(** The loop always ends, within one iteration more than the window has
    requests: it has then removed the leading requests older than the
    expiration time, and only those. *)
Lemma V2_time_loop_result (expirationTime : Time) (fuel : nat) :
  forall cb,
    (List.length (requests cb) < fuel)%nat ->
    exists k : nat,
      enforceTimeBasedWindow_loop fuel expirationTime cb
      = Some (Nat.iter k removeFrontRequest cb)
      /\ skipn k (requests cb) = dropOlder expirationTime (requests cb).
Proof.
  induction fuel as [|fuel IH]; intros cb Hfuel; [lia | ].
  simpl. destruct (requests cb) as [|e rest] eqn:E.
  - exists O. split; reflexivity.
  - simpl. destruct (executionTime e <? expirationTime) eqn:Hold; simpl.
    + destruct (IH (removeFrontRequest cb)) as (k & Hk & Hdrop).
      { rewrite V2_removeFrontRequest_requests, E. simpl in *. lia. }
      exists (S k). rewrite <- iter_shift. split; [exact Hk | ].
      rewrite V2_removeFrontRequest_requests, E in Hdrop. exact Hdrop.
    + exists O. split; reflexivity.
Qed.

Lemma enforceTimeBasedWindow_result (now : Time) (cb : CircuitBreaker) :
  exists k : nat,
    enforceTimeBasedWindow now cb
    = Returns (Nat.iter k removeFrontRequest cb)
    /\ requests (Nat.iter k removeFrontRequest cb)
       = dropOlder (now - SlidingWindowSize (config cb)) (requests cb).
Proof.
  unfold enforceTimeBasedWindow.
  destruct (V2_time_loop_result (now + - SlidingWindowSize (config cb))
              (S (List.length (requests cb))) cb) as (k & Hk & Hdrop);
    [lia | ].
  exists k. rewrite Hk. split; [reflexivity | ].
  rewrite V2_removals_requests, Hdrop. reflexivity.
Qed.

End TimeBasedLoop.

(** ** Pruning and insertion in V2 *)

Lemma V2_cleanupOldRequests_result (now : Time) (cb r : V2.CircuitBreaker) :
  V2.cleanupOldRequests now cb = Returns r ->
  exists k : nat, r = Nat.iter k V2.removeFrontRequest cb.
Proof.
  unfold V2.cleanupOldRequests.
  destruct (String.eqb _ COUNT_BASED).
  - intro H. apply enforceCountBasedWindow_result in H.
    destruct H as (_ & _ & k & Hr & _). exists k. exact Hr.
  - destruct (String.eqb _ TIME_BASED).
    + destruct (enforceTimeBasedWindow_result now cb) as (k & Hk & _).
      rewrite Hk. intro H. inversion H. exists k. reflexivity.
    + intro H. inversion H. exists O. reflexivity.
Qed.

(** Pruning only ever fails to return for a count-based window whose size
    is below 1. *)
Lemma V2_cleanupOldRequests_returns (now : Time) (cb : V2.CircuitBreaker) :
  SlidingWindowType (V2.config cb) <> COUNT_BASED
  \/ 1 <= SlidingWindowSize (V2.config cb) ->
  exists r, V2.cleanupOldRequests now cb = Returns r.
Proof.
  intro H. unfold V2.cleanupOldRequests.
  destruct (String.eqb_spec (SlidingWindowType (V2.config cb)) COUNT_BASED)
    as [Heq|Hne].
  - destruct H as [H|H]; [contradiction | ].
    unfold V2.enforceCountBasedWindow.
    destruct (V2_count_loop_terminates
                (S (List.length (V2.requests cb))) cb H) as (r & Hr); [lia | ].
    rewrite Hr. eexists; reflexivity.
  - destruct (String.eqb _ TIME_BASED).
    + destruct (enforceTimeBasedWindow_result now cb) as (k & Hk & _).
      rewrite Hk. eexists; reflexivity.
    + eexists; reflexivity.
Qed.

(** [addRequest] is pruning, then the push of the new record with the
    matching aggregate incremented. *)
Lemma V2_addRequest_result (pruneNow pushNow : Time) (failed slow : bool)
    (cb r : V2.CircuitBreaker) :
  V2.addRequest pruneNow pushNow failed slow cb = Returns r ->
  exists pruned,
    V2.cleanupOldRequests pruneNow cb = Returns pruned
    /\ V2.requests r
       = (V2.requests pruned
            ++ [{| V2.failed := failed; V2.slow := slow;
                   V2.executionTime := pushNow |}])%list
    /\ V2.failureCount r
       = (if failed then incr (V2.failureCount pruned)
          else V2.failureCount pruned)
    /\ V2.slowCallCount r
       = (if slow && negb failed then incr (V2.slowCallCount pruned)
          else V2.slowCallCount pruned)
    /\ V2.config r = V2.config cb
    /\ V2.state r = V2.state cb
    /\ V2.halfOpenCalls r = V2.halfOpenCalls cb
    /\ V2.lastFailureTime r = V2.lastFailureTime cb.
Proof.
  unfold V2.addRequest. intro H.
  apply bind_Returns in H. destruct H as (pruned & Hp & H).
  exists pruned. split; [exact Hp | ].
  destruct (V2_cleanupOldRequests_result _ _ _ Hp) as (k & Hk).
  destruct (V2_removals_frame k cb) as (F1 & F2 & F3 & F4).
  simpl in F1, F2, F3, F4. rewrite <- Hk in F1, F2, F3, F4.
  inversion H; subst r; clear H.
  destruct failed, slow; simpl; repeat split; assumption.
Qed.

Lemma V2_addRequest_tracked (pruneNow pushNow : Time) (failed slow : bool)
    (cb r : V2.CircuitBreaker) :
  V2.tracked cb ->
  V2.addRequest pruneNow pushNow failed slow cb = Returns r ->
  V2.tracked r.
Proof.
  intros Hex H.
  destruct (V2_addRequest_result _ _ _ _ _ _ H)
    as (pruned & Hp & Hreq & Hf & Hs & _).
  destruct (V2_cleanupOldRequests_result _ _ _ Hp) as (k & Hk).
  assert (Hpex : V2.tracked pruned)
    by (subst pruned; apply V2_removals_tracked; exact Hex).
  destruct Hpex as (Hpf & Hps).
  unfold V2.tracked.
  rewrite Hreq, Hf, Hs, V2_failuresIn_app, V2_slowCallsIn_app, Hpf, Hps.
  rewrite V2_failuresIn_cons, V2_slowCallsIn_cons, !incr_wrap64. simpl.
  unfold V2.failuresIn, V2.slowCallsIn. simpl.
  destruct failed, slow; simpl; split; f_equal; lia.
Qed.

Lemma V2_addRequest_returns (pruneNow pushNow : Time) (failed slow : bool)
    (cb : V2.CircuitBreaker) :
  SlidingWindowType (V2.config cb) <> COUNT_BASED
  \/ 1 <= SlidingWindowSize (V2.config cb) ->
  exists r, V2.addRequest pruneNow pushNow failed slow cb = Returns r.
Proof.
  intro H.
  destruct (V2_cleanupOldRequests_returns pruneNow cb H) as (p & Hp).
  unfold V2.addRequest. rewrite Hp. simpl. eexists; reflexivity.
Qed.

(** ** What the sections of V2 leave alone *)

Lemma V2_admission_frame (now : Time) (cb : V2.CircuitBreaker) :
  let cb' := fst (V2.admission now cb) in
  V2.config cb' = V2.config cb
  /\ V2.requests cb' = V2.requests cb
  /\ V2.failureCount cb' = V2.failureCount cb
  /\ V2.slowCallCount cb' = V2.slowCallCount cb
  /\ V2.lastFailureTime cb' = V2.lastFailureTime cb
  /\ (V2.state cb = None -> V2.state cb' = None)
  /\ (V2.state cb <> None -> V2.state cb' <> None).
Proof.
  unfold V2.admission.
  destruct (V2.state cb) as [st|] eqn:Hst; simpl.
  2: { rewrite Hst. repeat split; congruence. }
  destruct (IsOpen st
            && (WaitDurationInOpenState (V2.config cb)
                <=? now - V2.lastFailureTime cb)); simpl.
  - destruct (PermittedNumberOfCallsInHalfOpenState (V2.config cb) <=? 0);
      simpl; repeat split; congruence.
  - destruct (IsOpen st); [ | destruct (IsHalfOpen st);
      [destruct (PermittedNumberOfCallsInHalfOpenState (V2.config cb)
                 <=? V2.halfOpenCalls cb) | ] ];
      simpl; rewrite ?Hst; repeat split; congruence.
Qed.

Lemma V2_admission_rejections (now : Time) (cb cb' : V2.CircuitBreaker)
    (rejection : error) :
  V2.admission now cb = (cb', Some rejection) ->
  rejection = errOpened (V2.config cb)
  \/ rejection = errHalfOpenLimit (V2.config cb)
  \/ rejection = errNotInitialized.
Proof.
  unfold V2.admission.
  destruct (V2.state cb) as [st|]; [ | intro H; inversion H; auto ].
  destruct (IsOpen st
            && (WaitDurationInOpenState (V2.config cb)
                <=? now - V2.lastFailureTime cb)); simpl.
  - destruct (PermittedNumberOfCallsInHalfOpenState (V2.config cb) <=? 0);
      intro H; inversion H; auto.
  - destruct (IsOpen st); [ | destruct (IsHalfOpen st);
      [destruct (PermittedNumberOfCallsInHalfOpenState (V2.config cb)
                 <=? V2.halfOpenCalls cb) | ] ];
      intro H; inversion H; auto.
Qed.

Lemma V2_admitted_has_state (now : Time) (cb cb' : V2.CircuitBreaker) :
  V2.admission now cb = (cb', None) -> V2.state cb' <> None.
Proof.
  intro H.
  destruct (V2_admission_frame now cb) as (_ & _ & _ & _ & _ & _ & Hsome).
  rewrite H in Hsome. simpl in Hsome. apply Hsome.
  unfold V2.admission in H. destruct (V2.state cb); [discriminate | inversion H].
Qed.

(** The transition switch of [recordResult] moves the state register,
    [halfOpenCalls] and [lastFailureTime], never the window or its
    aggregates. *)
Lemma V2_recordResult_result (pruneNow pushNow now : Time)
    (err : option error) (isSlow : bool) (cb r : V2.CircuitBreaker) :
  V2.recordResult pruneNow pushNow now err isSlow cb = Returns r ->
  exists w,
    V2.addRequest pruneNow pushNow (notNil err) isSlow cb = Returns w
    /\ V2.requests r = V2.requests w
    /\ V2.failureCount r = V2.failureCount w
    /\ V2.slowCallCount r = V2.slowCallCount w
    /\ V2.config r = V2.config cb
    /\ V2.state r <> None.
Proof.
  unfold V2.recordResult. intro H.
  apply bind_Returns in H. destruct H as (w & Hw & H).
  exists w. split; [exact Hw | ].
  destruct (V2_addRequest_result _ _ _ _ _ _ Hw)
    as (_ & _ & _ & _ & _ & Hc & _).
  destruct (V2.state w) as [st|] eqn:E; [ | discriminate ].
  destruct (StateRegister.state st);
    repeat match type of H with
      | context [if ?b then _ else _] => destruct b
      end;
    inversion H; subst r; simpl; rewrite ?E; repeat split; congruence.
Qed.

Lemma V2_recordResult_returns (pruneNow pushNow now : Time)
    (err : option error) (isSlow : bool) (cb : V2.CircuitBreaker) :
  V2.state cb <> None ->
  SlidingWindowType (V2.config cb) <> COUNT_BASED
  \/ 1 <= SlidingWindowSize (V2.config cb) ->
  exists r, V2.recordResult pruneNow pushNow now err isSlow cb = Returns r.
Proof.
  intros Hst Hcfg.
  destruct (V2_addRequest_returns pruneNow pushNow (notNil err) isSlow cb Hcfg)
    as (w & Hw).
  destruct (V2_addRequest_result _ _ _ _ _ _ Hw)
    as (_ & _ & _ & _ & _ & _ & Hs & _).
  unfold V2.recordResult. rewrite Hw. simpl.
  destruct (V2.state w) as [st|] eqn:E; [ | congruence ].
  destruct (StateRegister.state st);
    repeat match goal with
      | |- context [if ?b then _ else _] => destruct b
      end;
    eexists; reflexivity.
Qed.

(** ** Invariants of the reachable breakers *)

Lemma V1_reachable_config (c : Config) (cb : V1.CircuitBreaker) :
  V1.reachable c cb -> V1.config cb = c /\ V1.state cb <> None.
Proof.
  induction 1 as [ | now cb Hr (IHc & IHs) | now err isSlow cb cb' Hr (IHc & IHs) H ].
  - simpl. split; [reflexivity | discriminate].
  - destruct (V1_admission_frame now cb) as (Hc & _ & _ & _ & Hs).
    simpl in Hc, Hs. split; [congruence | auto].
  - destruct (V1_recordResult_returns now err isSlow cb IHs)
      as (r & Hr' & _ & Hc & Hs).
    assert (r = cb') by congruence. subst r. split; [congruence | exact Hs].
Qed.

Lemma V2_reachable_config (c : Config) (cb : V2.CircuitBreaker) :
  V2.reachable c cb -> V2.config cb = c /\ V2.state cb <> None.
Proof.
  induction 1 as [ | now cb Hr (IHc & IHs)
                   | pruneNow pushNow now err isSlow cb cb' Hr (IHc & IHs) H ].
  - simpl. split; [reflexivity | discriminate].
  - destruct (V2_admission_frame now cb) as (Hc & _ & _ & _ & _ & _ & Hs).
    simpl in Hc, Hs. split; [congruence | auto].
  - destruct (V2_recordResult_result _ _ _ _ _ _ _ H)
      as (_ & _ & _ & _ & _ & Hc & Hs).
    split; [congruence | exact Hs].
Qed.

(** The aggregates of a reachable breaker are tracked, and so exact as
    long as the length of its window is an [int]. *)
Lemma V2_reachable_tracked (c : Config) (cb : V2.CircuitBreaker) :
  V2.reachable c cb -> V2.tracked cb.
Proof.
  induction 1 as [ | now cb Hr IH
                   | pruneNow pushNow now err isSlow cb cb' Hr IH H ].
  - split; reflexivity.
  - destruct (V2_admission_frame now cb) as (_ & Hq & Hf & Hs & _).
    simpl in Hq, Hf, Hs. unfold V2.tracked in *. rewrite Hq, Hf, Hs. exact IH.
  - destruct (V2_recordResult_result _ _ _ _ _ _ _ H)
      as (w & Hw & Hq & Hf & Hs & _).
    pose proof (V2_addRequest_tracked _ _ _ _ _ _ IH Hw) as Hex.
    unfold V2.tracked in *. rewrite Hq, Hf, Hs. exact Hex.
Qed.


(** [Execute] stays among the reachable breakers. *)
Lemma V1_Execute_reachable {W : Type} (c : Config) (clk : Clock)
    (action : W -> option error * W) (cb cb' : V1.CircuitBreaker) (w w' : W)
    (result : option error) :
  V1.reachable c cb ->
  V1.Execute clk action cb w = Returns (result, cb', w') ->
  V1.reachable c cb'.
Proof.
  intros Hr H.
  pose proof (V1.reach_admission c (atAdmission clk) cb Hr) as Ha.
  destruct (V1.admission (atAdmission clk) cb) as [cb1 [rej|]] eqn:E.
  - rewrite (V1_Execute_rejected clk action cb cb1 w rej E) in H.
    inversion H; subst. exact Ha.
  - rewrite (V1_Execute_admitted clk action cb cb1 w E) in H.
    apply bind_Returns in H. destruct H as (cb2 & H2 & H).
    inversion H; subst.
    apply (V1.reach_recordResult c _ _ _ _ _ Ha H2).
Qed.

Lemma V2_Execute_reachable {W : Type} (c : Config) (clk : Clock)
    (action : W -> option error * W) (cb cb' : V2.CircuitBreaker) (w w' : W)
    (result : option error) :
  V2.reachable c cb ->
  V2.Execute clk action cb w = Returns (result, cb', w') ->
  V2.reachable c cb'.
Proof.
  intros Hr H.
  pose proof (V2.reach_admission c (atAdmission clk) cb Hr) as Ha.
  destruct (V2.admission (atAdmission clk) cb) as [cb1 [rej|]] eqn:E.
  - rewrite (V2_Execute_rejected clk action cb cb1 w rej E) in H.
    inversion H; subst. exact Ha.
  - rewrite (V2_Execute_admitted clk action cb cb1 w E) in H.
    apply bind_Returns in H. destruct H as (cb2 & H2 & H).
    inversion H; subst.
    apply (V2.reach_recordResult c _ _ _ _ _ _ _ Ha H2).
Qed.

(** ** C2: Closed to Open *)

Lemma trip_test_iff (minimum len : Z) (failureRate failureThreshold
    slowCallRate slowThreshold : float) :
  (minimum <=? len)
  && (float_ge failureRate failureThreshold
      || float_ge slowCallRate slowThreshold) = true
  <-> minimum <= len
      /\ (float_ge failureRate failureThreshold = true
          \/ float_ge slowCallRate slowThreshold = true).
Proof.
  rewrite andb_true_iff, orb_true_iff, Z.leb_le. reflexivity.
Qed.

Lemma V1_recordResult_closed (now : Time) (err : option error) (isSlow : bool)
    (cb : V1.CircuitBreaker) (st : CircuitBreakerState) :
  V1.state cb = Some st ->
  StateRegister.state st = Closed ->
  let w := V1.addRequest (notNil err) isSlow cb in
  V1.recordResult now err isSlow cb =
    Returns
      (if (MinimumNumberOfCalls (V1.config w) <=? V1.Len w)
          && (float_ge (V1.getFailureRate w) (FailureRateThreshold (V1.config w))
              || float_ge (V1.getSlowCallRate w)
                   (SlowCallRateThreshold (V1.config w)))
       then V1.set_lastFailureTime now (V1.set_state (SetState st Open) w)
       else w).
Proof.
  intros Hst Hs w. unfold V1.recordResult. fold w.
  replace (V1.state w) with (Some st)
    by (symmetry; rewrite <- Hst; apply V1_addRequest_state).
  rewrite Hs. destruct (_ && _); reflexivity.
Qed.

Lemma V2_recordResult_closed (pruneNow pushNow now : Time)
    (err : option error) (isSlow : bool) (cb w : V2.CircuitBreaker)
    (st : CircuitBreakerState) :
  V2.state cb = Some st ->
  StateRegister.state st = Closed ->
  V2.addRequest pruneNow pushNow (notNil err) isSlow cb = Returns w ->
  V2.recordResult pruneNow pushNow now err isSlow cb =
    Returns
      (if (MinimumNumberOfCalls (V2.config w) <=? V2.Len w)
          && (float_ge (V2.getFailureRate w) (FailureRateThreshold (V2.config w))
              || float_ge (V2.getSlowCallRate w)
                   (SlowCallRateThreshold (V2.config w)))
       then V2.set_lastFailureTime now (V2.set_state (SetState st Open) w)
       else w).
Proof.
  intros Hst Hs Hw. unfold V2.recordResult. rewrite Hw. simpl.
  destruct (V2_addRequest_result _ _ _ _ _ _ Hw)
    as (_ & _ & _ & _ & _ & _ & Hstw & _).
  rewrite Hstw, Hst, Hs. destruct (_ && _); reflexivity.
Qed.

(** C2.  Recording an outcome on a Closed breaker: with [w] the breaker
    after [addRequest] (window pruned, new record pushed), the breaker
    becomes Open if and only if the length of that window is at least
    [MinimumNumberOfCalls] and (the failure rate of [w] is at least
    [FailureRateThreshold] or its slow-call rate is at least
    [SlowCallRateThreshold]); when it does, [lastFailureTime] is stamped with
    the clock reading and nothing else changes; when it does not, nothing
    changes at all.  In particular it stays Closed whenever the window is
    shorter than [MinimumNumberOfCalls], whatever the rates.  This holds for
    V1, where [recordResult] always returns, and for V2 whenever its
    [addRequest] returns. *)
Theorem C2_closed_to_open :
  (forall (now : Time) (err : option error) (isSlow : bool)
          (cb : V1.CircuitBreaker) (st : CircuitBreakerState),
      V1.state cb = Some st ->
      StateRegister.state st = Closed ->
      let w := V1.addRequest (notNil err) isSlow cb in
      exists cb',
        V1.recordResult now err isSlow cb = Returns cb'
        /\ (V1.current cb' = Some Open <->
            MinimumNumberOfCalls (V1.config cb) <= V1.Len w
            /\ (float_ge (V1.getFailureRate w)
                  (FailureRateThreshold (V1.config cb)) = true
                \/ float_ge (V1.getSlowCallRate w)
                     (SlowCallRateThreshold (V1.config cb)) = true))
        /\ (V1.current cb' = Some Open ->
            cb' = V1.set_lastFailureTime now (V1.set_state (SetState st Open) w))
        /\ (V1.current cb' <> Some Open -> cb' = w)
        /\ (V1.Len w < MinimumNumberOfCalls (V1.config cb) ->
            V1.current cb' = Some Closed))
  /\ (forall (pruneNow pushNow now : Time) (err : option error)
             (isSlow : bool) (cb w : V2.CircuitBreaker)
             (st : CircuitBreakerState),
      V2.state cb = Some st ->
      StateRegister.state st = Closed ->
      V2.addRequest pruneNow pushNow (notNil err) isSlow cb = Returns w ->
      exists cb',
        V2.recordResult pruneNow pushNow now err isSlow cb = Returns cb'
        /\ (V2.current cb' = Some Open <->
            MinimumNumberOfCalls (V2.config cb) <= V2.Len w
            /\ (float_ge (V2.getFailureRate w)
                  (FailureRateThreshold (V2.config cb)) = true
                \/ float_ge (V2.getSlowCallRate w)
                     (SlowCallRateThreshold (V2.config cb)) = true))
        /\ (V2.current cb' = Some Open ->
            cb' = V2.set_lastFailureTime now (V2.set_state (SetState st Open) w))
        /\ (V2.current cb' <> Some Open -> cb' = w)
        /\ (V2.Len w < MinimumNumberOfCalls (V2.config cb) ->
            V2.current cb' = Some Closed)).
Proof.
  split.
  - intros now err isSlow cb st Hst Hs w.
    pose proof (V1_recordResult_closed now err isSlow cb st Hst Hs) as H.
    cbv zeta in H. fold w in H.
    assert (Hc : V1.config w = V1.config cb) by apply V1_addRequest_config.
    assert (Hw : V1.current w = Some Closed).
    { unfold V1.current, w. rewrite V1_addRequest_state, Hst. simpl.
      now rewrite Hs. }
    rewrite Hc in H.
    destruct (_ && _) eqn:Htest in H;
      eexists; (split; [exact H | ]).
    + apply trip_test_iff in Htest.
      split; [split; [intros _; exact Htest | intros _; reflexivity] | ].
      split; [intros _; reflexivity | ].
      split; [intro Hn; exfalso; apply Hn; reflexivity | intro Hlt; lia].
    + assert (Hno : ~ (MinimumNumberOfCalls (V1.config cb) <= V1.Len w
                       /\ (float_ge (V1.getFailureRate w)
                             (FailureRateThreshold (V1.config cb)) = true
                           \/ float_ge (V1.getSlowCallRate w)
                                (SlowCallRateThreshold (V1.config cb)) = true))).
      { intro Hyes. apply trip_test_iff in Hyes. congruence. }
      split; [split; [rewrite Hw; congruence | intro Hyes; contradiction] | ].
      split; [rewrite Hw; congruence | ].
      split; [intros _; reflexivity | intros _; exact Hw].
  - intros pruneNow pushNow now err isSlow cb w st Hst Hs Haw.
    pose proof (V2_recordResult_closed pruneNow pushNow now err isSlow cb w st
                  Hst Hs Haw) as H.
    destruct (V2_addRequest_result _ _ _ _ _ _ Haw)
      as (_ & _ & _ & _ & _ & Hc & Hstw & _).
    assert (Hw : V2.current w = Some Closed).
    { unfold V2.current. rewrite Hstw, Hst. simpl. now rewrite Hs. }
    rewrite Hc in H.
    destruct (_ && _) eqn:Htest in H;
      eexists; (split; [exact H | ]).
    + apply trip_test_iff in Htest.
      split; [split; [intros _; exact Htest | intros _; reflexivity] | ].
      split; [intros _; reflexivity | ].
      split; [intro Hn; exfalso; apply Hn; reflexivity | intro Hlt; lia].
    + assert (Hno : ~ (MinimumNumberOfCalls (V2.config cb) <= V2.Len w
                       /\ (float_ge (V2.getFailureRate w)
                             (FailureRateThreshold (V2.config cb)) = true
                           \/ float_ge (V2.getSlowCallRate w)
                                (SlowCallRateThreshold (V2.config cb)) = true))).
      { intro Hyes. apply trip_test_iff in Hyes. congruence. }
      split; [split; [rewrite Hw; congruence | intro Hyes; contradiction] | ].
      split; [rewrite Hw; congruence | ].
      split; [intros _; reflexivity | intros _; exact Hw].
Qed.

(** ** C3: leaving Half-Open *)

Lemma V1_recordResult_halfopen (now : Time) (err : option error)
    (isSlow : bool) (cb : V1.CircuitBreaker) (st : CircuitBreakerState) :
  V1.state cb = Some st ->
  StateRegister.state st = HalfOpen ->
  let w := V1.addRequest (notNil err) isSlow cb in
  V1.recordResult now err isSlow cb =
    if notNil err || isSlow then
      Returns (V1.set_lastFailureTime now
                 (V1.set_halfOpenCalls 0 (V1.set_state (SetState st Open) w)))
    else if PermittedNumberOfCallsInHalfOpenState (V1.config cb)
              <=? V1.halfOpenCalls cb
    then Returns (V1.set_halfOpenCalls 0 (V1.set_state (SetState st Closed) w))
    else Returns w.
Proof.
  intros Hst Hs w. subst w. unfold V1.recordResult. cbv zeta.
  rewrite V1_addRequest_state, Hst, Hs.
  rewrite V1_addRequest_config, V1_addRequest_halfOpenCalls. reflexivity.
Qed.

(** C3.  Recording the outcome of a call on a Half-Open breaker (V1), with
    [w] the breaker after [addRequest].  If the call failed or was slow, the
    breaker becomes Open, [lastFailureTime] is stamped with the clock
    reading and [halfOpenCalls] is reset to 0, whatever [halfOpenCalls]
    was.  If it neither failed nor was slow and [halfOpenCalls] has reached
    the quota, the breaker becomes Closed and [halfOpenCalls] is reset to
    0.  If it neither failed nor was slow and the quota is not reached, the
    breaker is left Half-Open, unchanged.  In all three cases the window is
    the one [addRequest] left: it ends with the new record and keeps the
    earlier ones, except the oldest when the window was full; no transition
    clears it. *)
Theorem C3_half_open_transitions :
  forall (now : Time) (err : option error) (isSlow : bool)
         (cb : V1.CircuitBreaker) (st : CircuitBreakerState),
    V1.state cb = Some st ->
    StateRegister.state st = HalfOpen ->
    let w := V1.addRequest (notNil err) isSlow cb in
    let quota := PermittedNumberOfCallsInHalfOpenState (V1.config cb) in
    (err <> None \/ isSlow = true ->
     V1.recordResult now err isSlow cb
     = Returns (V1.set_lastFailureTime now
                  (V1.set_halfOpenCalls 0 (V1.set_state (SetState st Open) w))))
    /\ (err = None -> isSlow = false -> quota <= V1.halfOpenCalls cb ->
        V1.recordResult now err isSlow cb
        = Returns (V1.set_halfOpenCalls 0
                     (V1.set_state (SetState st Closed) w)))
    /\ (err = None -> isSlow = false -> V1.halfOpenCalls cb < quota ->
        V1.recordResult now err isSlow cb = Returns w
        /\ V1.current w = Some HalfOpen)
    /\ (forall cb', V1.recordResult now err isSlow cb = Returns cb' ->
        V1.requests cb' = V1.requests w
        /\ exists kept,
             V1.requests cb'
             = (kept ++ [{| V1.failed := notNil err; V1.slow := isSlow |}])%list
             /\ (kept = V1.requests cb \/ kept = tl (V1.requests cb))).
Proof.
  intros now err isSlow cb st Hst Hs w quota.
  assert (Hstw : V1.state w = Some st)
    by (rewrite <- Hst; apply V1_addRequest_state).
  assert (Hc : V1.config w = V1.config cb) by apply V1_addRequest_config.
  assert (Hh : V1.halfOpenCalls w = V1.halfOpenCalls cb)
    by apply V1_addRequest_halfOpenCalls.
  pose proof (V1_recordResult_halfopen now err isSlow cb st Hst Hs) as Hrec.
  cbv zeta in Hrec. fold w quota in Hrec.
  repeat apply conj.
  - intros Hbad. rewrite Hrec.
    replace (notNil err || isSlow) with true; [reflexivity | ].
    symmetry. apply orb_true_iff.
    destruct Hbad as [Hbad|Hbad]; [left | right; exact Hbad].
    destruct err; [reflexivity | congruence].
  - intros Herr Hslow Hq. rewrite Hrec. subst err isSlow. simpl.
    decide_tests. reflexivity.
  - intros Herr Hslow Hq. rewrite Hrec. subst err isSlow. simpl.
    decide_tests. split; [reflexivity | ].
    unfold V1.current. rewrite Hstw. simpl. now rewrite Hs.
  - intros cb' H. rewrite Hrec in H.
    assert (Hreq : V1.requests cb' = V1.requests w).
    { destruct (notNil err || isSlow);
        [ | destruct (quota <=? V1.halfOpenCalls cb) ];
        inversion H; reflexivity. }
    split; [exact Hreq | ].
    rewrite Hreq. unfold w. rewrite V1_addRequest_requests.
    eexists. split; [reflexivity | ].
    destruct (SlidingWindowSize (V1.config cb) <=? V1.Len cb); auto.
Qed.

(** ** C4: the aggregates are exact *)

(** C4.  On every breaker of V2 that a program can reach (a fresh breaker,
    then the lock-protected sections of [Execute] in any order), the
    length of the window being an [int] as [Len()] has it: [failureCount]
    is the number of window records with [failed] set and [slowCallCount]
    is the number of window records with [slow] set and [failed] not set, as
    a linear scan of the window finds them; no record is counted by both,
    so together they count at most the window's length.  The operations in
    between keep that: removing the front record takes exactly that
    record's contribution out of the aggregate that counted it, once, and
    pruning and [addRequest], when they return, leave the aggregates exact
    again.  (Whatever the length, the aggregates are the [int]s the two
    counts wrap around to.) *)
Theorem C4_aggregates_exact :
  forall (c : Config) (cb : V2.CircuitBreaker),
    V2.reachable c cb ->
    V2.tracked cb
    /\ (V2.Len cb <= maxInt ->
        V2.failureCount cb = V2.failuresIn (V2.requests cb)
        /\ V2.slowCallCount cb = V2.slowCallsIn (V2.requests cb)
        /\ V2.failureCount cb + V2.slowCallCount cb <= V2.Len cb
        /\ (forall e rest,
               V2.requests cb = e :: rest ->
               let cb' := V2.removeFrontRequest cb in
               V2.requests cb' = rest
               /\ V2.failureCount cb'
                  = V2.failureCount cb - (if V2.failed e then 1 else 0)
               /\ V2.slowCallCount cb'
                  = V2.slowCallCount cb
                    - (if V2.slow e && negb (V2.failed e) then 1 else 0)
               /\ V2.failureCount cb' = V2.failuresIn rest
               /\ V2.slowCallCount cb' = V2.slowCallsIn rest))
    /\ (forall now cb',
           V2.cleanupOldRequests now cb = Returns cb' ->
           V2.tracked cb' /\ (V2.Len cb' <= maxInt -> V2.exact cb'))
    /\ (forall pruneNow pushNow failed slow cb',
           V2.addRequest pruneNow pushNow failed slow cb = Returns cb' ->
           V2.tracked cb' /\ (V2.Len cb' <= maxInt -> V2.exact cb')).
Proof.
  intros c cb Hreach.
  pose proof (V2_reachable_tracked c cb Hreach) as Htr.
  split; [exact Htr | ]. split; [ | split ].
  - intro Hlen.
    destruct (V2_tracked_exact cb Htr Hlen) as (Hf & Hs).
    pose proof (V2_scan_bounds (V2.requests cb)) as (B1 & B2 & B3).
    split; [exact Hf | ]. split; [exact Hs | ].
    split; [rewrite Hf, Hs; unfold V2.Len; lia | ].
    intros e rest E cb'.
    destruct (V2_removeFrontRequest_counts cb e rest E) as (Hq & Hf' & Hs').
    fold cb' in Hq, Hf', Hs'.
    rewrite E, V2_failuresIn_cons, V2_slowCallsIn_cons in *.
    unfold V2.Len in Hlen. rewrite E in Hlen.
    change (List.length (e :: rest)) with (S (List.length rest)) in *.
    assert (Hfd : V2.failureCount cb'
                  = V2.failureCount cb - (if V2.failed e then 1 else 0)).
    { rewrite Hf'. destruct (V2.failed e); [ | lia ].
      apply decr_int64. unfold minInt. lia. }
    assert (Hsd : V2.slowCallCount cb'
                  = V2.slowCallCount cb
                    - (if V2.slow e && negb (V2.failed e) then 1 else 0)).
    { rewrite Hs'. destruct (V2.slow e && negb (V2.failed e)); [ | lia ].
      apply decr_int64. unfold minInt. lia. }
    split; [exact Hq | ]. split; [exact Hfd | ]. split; [exact Hsd | ].
    split; lia.
  - intros now cb' H.
    destruct (V2_cleanupOldRequests_result _ _ _ H) as (k & Hk).
    assert (Ht : V2.tracked cb')
      by (subst cb'; apply V2_removals_tracked; exact Htr).
    split; [exact Ht | apply V2_tracked_exact, Ht].
  - intros pruneNow pushNow failed slow cb' H.
    pose proof (V2_addRequest_tracked _ _ _ _ _ _ Htr H) as Ht.
    split; [exact Ht | apply V2_tracked_exact, Ht].
Qed.

(** ** C5: the bound of the count-based window *)

Lemma V2_cleanup_count_based (now : Time) (cb : V2.CircuitBreaker) :
  SlidingWindowType (V2.config cb) = COUNT_BASED ->
  V2.cleanupOldRequests now cb = V2.enforceCountBasedWindow cb.
Proof. intro H. unfold V2.cleanupOldRequests. rewrite H. reflexivity. Qed.




(** On the same configuration the pruning loop of V2 never ends. *)
Lemma V2_zero_size_diverges :
  V2.addRequest 0 0 false false (V2.NewCircuitBreaker zeroSizeConfig)
  = Diverges.
Proof. reflexivity. Qed.


(** ** C6: the time-based window *)

Section DropOlder.

Import V2.
Variable horizon : Time.





End DropOlder.







(** ** C7: the rates *)

Lemma V1_failuresIn_cons (e : V1.requestEntry) (l : list V1.requestEntry) :
  V1.failuresIn (e :: l) = (if V1.failed e then 1 else 0) + V1.failuresIn l.
Proof.
  unfold V1.failuresIn. cbn [filter].
  destruct (V1.failed e); cbn [List.length]; lia.
Qed.

Lemma V1_slowCallsIn_cons (e : V1.requestEntry) (l : list V1.requestEntry) :
  V1.slowCallsIn (e :: l)
  = (if V1.slow e && negb (V1.failed e) then 1 else 0) + V1.slowCallsIn l.
Proof.
  unfold V1.slowCallsIn. cbn [filter].
  destruct (V1.slow e && negb (V1.failed e)); cbn [List.length]; lia.
Qed.

(** The two scans count what they are meant to count, on top of what the
    counter held when the scan began. *)
Lemma V1_scanFailures_counts (l : list V1.requestEntry) :
  forall failures,
    V1.scanFailures l (wrap64 failures)
    = wrap64 (failures + V1.failuresIn l).
Proof.
  induction l as [|e l IH]; intro failures.
  - unfold V1.failuresIn. simpl. f_equal; lia.
  - simpl. rewrite V1_failuresIn_cons. destruct (V1.failed e).
    + rewrite incr_wrap64, IH. f_equal; lia.
    + rewrite IH. f_equal; lia.
Qed.

Lemma V1_scanSlowCalls_counts (l : list V1.requestEntry) :
  forall slowCalls,
    V1.scanSlowCalls l (wrap64 slowCalls)
    = wrap64 (slowCalls + V1.slowCallsIn l).
Proof.
  induction l as [|e l IH]; intro slowCalls.
  - unfold V1.slowCallsIn. simpl. f_equal; lia.
  - simpl. rewrite V1_slowCallsIn_cons.
    destruct (V1.slow e && negb (V1.failed e)).
    + rewrite incr_wrap64, IH. f_equal; lia.
    + rewrite IH. f_equal; lia.
Qed.

Lemma V1_scan_bounds (l : list V1.requestEntry) :
  0 <= V1.failuresIn l <= Z.of_nat (List.length l)
  /\ 0 <= V1.slowCallsIn l <= Z.of_nat (List.length l).
Proof.
  unfold V1.failuresIn, V1.slowCallsIn.
  pose proof (filter_length_le V1.failed l).
  pose proof (filter_length_le (fun e => V1.slow e && negb (V1.failed e)) l).
  lia.
Qed.

(** The scans, begun at 0 as the code begins them, on a window whose
    length is an [int]. *)
Lemma V1_scans (cb : V1.CircuitBreaker) :
  V1.Len cb <= maxInt ->
  V1.scanFailures (V1.requests cb) 0 = V1.failuresIn (V1.requests cb)
  /\ V1.scanSlowCalls (V1.requests cb) 0 = V1.slowCallsIn (V1.requests cb).
Proof.
  unfold V1.Len. intro Hlen.
  pose proof (V1_scan_bounds (V1.requests cb)) as (Bf & Bs).
  pose proof (V1_scanFailures_counts (V1.requests cb) 0) as Hf.
  pose proof (V1_scanSlowCalls_counts (V1.requests cb) 0) as Hs.
  change (wrap64 0) with 0 in Hf, Hs.
  rewrite Hf, Hs, !wrap64_int64; [split; lia | | ]; unfold int64, minInt; lia.
Qed.


(** Without the guard for the empty window the quotient would be a NaN. *)
Example percentage_of_nothing : PrimFloat.is_nan (percentage 0 0) = true.
Proof. reflexivity. Qed.

Example percentage_all : percentage 6 6 = 100%float.
Proof. reflexivity. Qed.

Example percentage_half : percentage 3 6 = 50%float.
Proof. reflexivity. Qed.

(** The quotient is rounded before it is scaled: the rate is the nearest
    binary64 value of that computation, not always of the exact
    percentage. *)
Example percentage_rounds :
  percentage 29 100 = 0x1.cffffffffffffp+4%float (* 28.999999999999996 *).
Proof. reflexivity. Qed.


(** ** C8: what a call returns *)

(** [Execute] of V1 always returns: the admission section lets no call
    through to [recordResult] without a state register. *)
Lemma V1_Execute_returns {W : Type} (clk : Clock)
    (action : W -> option error * W) (cb : V1.CircuitBreaker) (w : W) :
  exists r, V1.Execute clk action cb w = Returns r.
Proof.
  destruct (V1.admission (atAdmission clk) cb) as [cb1 [rej|]] eqn:E.
  - rewrite (V1_Execute_rejected clk action cb cb1 w rej E). eexists; reflexivity.
  - rewrite (V1_Execute_admitted clk action cb cb1 w E).
    destruct (V1_recordResult_returns (atRecord clk) (fst (action w))
                (SlowCallDurationThreshold (V1.config cb1)
                   <=? atReturn clk - atStart clk) cb1
                (V1_admitted_has_state _ _ _ E)) as (cb2 & H2 & _).
    rewrite H2. simpl. eexists; reflexivity.
Qed.

(** C8.  A call the admission section rejects returns an error made on the
    spot (one of the three messages of the breaker), the action is not run
    (its world is returned as it was), and the window and [lastFailureTime]
    are those of before the call, in V2 the two aggregates as well.  A call
    it admits runs the action once and returns the action's own result, be
    it [nil] or an error, as it is: in V1 always, in V2 whenever
    [recordResult] returns, which it does unless the window is count-based
    with a size below 1. *)
Theorem C8_rejection_and_propagation :
  forall (W : Type) (clk : Clock) (action : W -> option error * W) (w : W),
    (forall (cb cb' : V1.CircuitBreaker) (rejection : error),
        V1.admission (atAdmission clk) cb = (cb', Some rejection) ->
        V1.Execute clk action cb w = Returns (Some rejection, cb', w)
        /\ (rejection = errOpened (V1.config cb)
            \/ rejection = errHalfOpenLimit (V1.config cb)
            \/ rejection = errNotInitialized)
        /\ V1.requests cb' = V1.requests cb
        /\ V1.lastFailureTime cb' = V1.lastFailureTime cb)
    /\ (forall (cb cb' : V1.CircuitBreaker),
        V1.admission (atAdmission clk) cb = (cb', None) ->
        exists cb'',
          V1.Execute clk action cb w
          = Returns (fst (action w), cb'', snd (action w)))
    /\ (forall (cb cb' : V2.CircuitBreaker) (rejection : error),
        V2.admission (atAdmission clk) cb = (cb', Some rejection) ->
        V2.Execute clk action cb w = Returns (Some rejection, cb', w)
        /\ (rejection = errOpened (V2.config cb)
            \/ rejection = errHalfOpenLimit (V2.config cb)
            \/ rejection = errNotInitialized)
        /\ V2.requests cb' = V2.requests cb
        /\ V2.failureCount cb' = V2.failureCount cb
        /\ V2.slowCallCount cb' = V2.slowCallCount cb
        /\ V2.lastFailureTime cb' = V2.lastFailureTime cb)
    /\ (forall (cb cb' : V2.CircuitBreaker),
        V2.admission (atAdmission clk) cb = (cb', None) ->
        (forall r, V2.Execute clk action cb w = Returns r ->
                   fst (fst r) = fst (action w) /\ snd r = snd (action w))
        /\ (SlidingWindowType (V2.config cb) <> COUNT_BASED
            \/ 1 <= SlidingWindowSize (V2.config cb) ->
            exists cb'',
              V2.Execute clk action cb w
              = Returns (fst (action w), cb'', snd (action w)))).
Proof.
  intros W clk action w. repeat apply conj.
  - intros cb cb' rejection H.
    destruct (V1_admission_frame (atAdmission clk) cb) as (_ & Hq & Ht & _).
    rewrite H in Hq, Ht. simpl in Hq, Ht.
    split; [apply V1_Execute_rejected, H | ].
    split; [apply (V1_admission_rejections _ _ _ _ H) | ].
    split; assumption.
  - intros cb cb' H.
    rewrite (V1_Execute_admitted clk action cb cb' w H).
    destruct (V1_recordResult_returns (atRecord clk) (fst (action w))
                (SlowCallDurationThreshold (V1.config cb')
                   <=? atReturn clk - atStart clk) cb'
                (V1_admitted_has_state _ _ _ H)) as (cb2 & H2 & _).
    rewrite H2. simpl. eexists; reflexivity.
  - intros cb cb' rejection H.
    destruct (V2_admission_frame (atAdmission clk) cb)
      as (_ & Hq & Hf & Hs & Ht & _).
    rewrite H in Hq, Hf, Hs, Ht. simpl in Hq, Hf, Hs, Ht.
    split; [apply V2_Execute_rejected, H | ].
    split; [apply (V2_admission_rejections _ _ _ _ H) | ].
    repeat split; assumption.
  - intros cb cb' H.
    rewrite (V2_Execute_admitted clk action cb cb' w H).
    split.
    + intros r Hr. apply bind_Returns in Hr.
      destruct Hr as (cb2 & _ & Hr). inversion Hr. split; reflexivity.
    + intro Hcfg.
      destruct (V2_admission_frame (atAdmission clk) cb) as (Hc & _).
      rewrite H in Hc. simpl in Hc.
      destruct (V2_recordResult_returns (atPrune clk) (atPush clk)
                  (atRecord clk) (fst (action w))
                  (SlowCallDurationThreshold (V2.config cb')
                     <=? atReturn clk - atStart clk) cb'
                  (V2_admitted_has_state _ _ _ H)) as (cb2 & H2).
      { rewrite Hc. exact Hcfg. }
      rewrite H2. simpl. eexists; reflexivity.
Qed.

(** ** C9: the scenario of the test *)

(** C9.  A breaker of V1 under a configuration with
    [FailureRateThreshold] 50, [MinimumNumberOfCalls] 6, a count-based
    window of size 10, [WaitDurationInOpenState] 2s and a half-open quota
    of 3 (any name, any slow-call thresholds).  Six calls that fail, at any
    clock readings and however long they take, are all run and leave the
    breaker Open, stamped with the reading at which the sixth was
    recorded.  If the next call comes at least 2s after that stamp, its
    admission section first moves the breaker to Half-Open and counts the
    call as the first of the quota; that call succeeding without being
    slow, the breaker is Half-Open with [halfOpenCalls] 1 after it.  Two
    more calls that succeed without being slow reach the quota of 3: after
    them the breaker is Closed and [halfOpenCalls] is 0.  The world counts
    the actions run: 9. *)
Theorem C9_test_scenario :
  forall (name : string) (slowAfter : Duration) (slowRate : float)
         (c1 c2 c3 c4 c5 c6 c7 c8 c9 : Clock)
         (m1 m2 m3 m4 m5 m6 : error),
    let cfg := scenarioConfig name slowAfter slowRate in
    exists cb6,
      V1.ExecuteAll
        [(c1, failing m1); (c2, failing m2); (c3, failing m3);
         (c4, failing m4); (c5, failing m5); (c6, failing m6)]
        (V1.NewCircuitBreaker cfg) 0%nat
      = Returns (cb6, 6%nat)
      /\ V1.current cb6 = Some Open
      /\ V1.lastFailureTime cb6 = atRecord c6
      /\ (2 * Second <= atAdmission c7 - atRecord c6 ->
          atReturn c7 - atStart c7 < slowAfter ->
          exists cb7,
            V1.current (fst (V1.admission (atAdmission c7) cb6)) = Some HalfOpen
            /\ V1.halfOpenCalls (fst (V1.admission (atAdmission c7) cb6)) = 1
            /\ V1.Execute c7 succeeding cb6 6%nat = Returns (None, cb7, 7%nat)
            /\ V1.current cb7 = Some HalfOpen
            /\ V1.halfOpenCalls cb7 = 1
            /\ (atReturn c8 - atStart c8 < slowAfter ->
                atReturn c9 - atStart c9 < slowAfter ->
                exists cb9,
                  V1.ExecuteAll [(c8, succeeding); (c9, succeeding)] cb7 7%nat
                  = Returns (cb9, 9%nat)
                  /\ V1.current cb9 = Some Closed
                  /\ V1.halfOpenCalls cb9 = 0)).
Proof.
  intros name slowAfter slowRate c1 c2 c3 c4 c5 c6 c7 c8 c9
         m1 m2 m3 m4 m5 m6 cfg.
  set (window6 := failedWindow
                    [tookLong cfg c1; tookLong cfg c2; tookLong cfg c3;
                     tookLong cfg c4; tookLong cfg c5; tookLong cfg c6]).
  set (cb6 := V1.set_lastFailureTime (atRecord c6)
                (V1.set_state {| state := Open |}
                   (V1.set_requests window6 (V1.NewCircuitBreaker cfg)))).
  exists cb6.
  split; [reflexivity | ]. split; [reflexivity | ]. split; [reflexivity | ].
  intros Hwait Hfast7.
  (* the seventh call: Open, cooled down *)
  assert (Hadm7 : V1.admission (atAdmission c7) cb6
                  = (V1.set_halfOpenCalls 1
                       (V1.set_state {| state := HalfOpen |} cb6), None)).
  { rewrite (V1_admission_open_cooled (atAdmission c7) cb6 {| state := Open |});
      [reflexivity | reflexivity | reflexivity | exact Hwait]. }
  set (probe1 := V1.set_halfOpenCalls 1
                   (V1.set_state {| state := HalfOpen |} cb6)) in *.
  assert (Hnot7 : tookLong cfg c7 = false) by (apply Z.leb_gt; exact Hfast7).
  set (cb7 := V1.addRequest false false probe1).
  exists cb7. rewrite Hadm7.
  split; [reflexivity | ]. split; [reflexivity | ].
  split.
  { rewrite (V1_Execute_admitted c7 succeeding cb6 probe1 6%nat Hadm7).
    change (SlowCallDurationThreshold (V1.config probe1)
            <=? atReturn c7 - atStart c7) with (tookLong cfg c7).
    rewrite Hnot7. reflexivity. }
  split; [reflexivity | ]. split; [reflexivity | ].
  intros Hfast8 Hfast9.
  assert (Hnot8 : tookLong cfg c8 = false) by (apply Z.leb_gt; exact Hfast8).
  assert (Hnot9 : tookLong cfg c9 = false) by (apply Z.leb_gt; exact Hfast9).
  eexists. split.
  - unfold V1.ExecuteAll.
    rewrite (V1_Execute_admitted c8 succeeding cb7
               (V1.set_halfOpenCalls 2 cb7) 7%nat eq_refl).
    change (SlowCallDurationThreshold (V1.config (V1.set_halfOpenCalls 2 cb7))
            <=? atReturn c8 - atStart c8) with (tookLong cfg c8).
    rewrite Hnot8. cbn [bind fst snd succeeding].
    set (cb8 := V1.addRequest false false (V1.set_halfOpenCalls 2 cb7)).
    change (V1.recordResult (atRecord c8) None false
              (V1.set_halfOpenCalls 2 cb7)) with (Returns cb8).
    cbn [bind fst snd].
    rewrite (V1_Execute_admitted c9 succeeding cb8
               (V1.set_halfOpenCalls 3 cb8) 8%nat eq_refl).
    change (SlowCallDurationThreshold (V1.config (V1.set_halfOpenCalls 3 cb8))
            <=? atReturn c9 - atStart c9) with (tookLong cfg c9).
    rewrite Hnot9. reflexivity.
  - split; reflexivity.
Qed.

(** ** C10: what the time-based window reads *)

Section Retime.
Variable d : Duration.












End Retime.


(** ** The theorems at concrete breakers *)

(** C1 at work: the breaker of the test, opened at reading 0, is called at
    reading 3s; the wait of 2s has elapsed and the call is the first probe. *)
Lemma C1_witness :
  V1.admission (3 * Second) openedBreaker
  = (V1.set_halfOpenCalls 1
       (V1.set_halfOpenCalls 0
          (V1.set_state {| state := HalfOpen |} openedBreaker)), None).
Proof.
  apply (proj1 (proj1 (C1_admission_order (3 * Second))
                  openedBreaker {| state := Open |} eq_refl));
    [reflexivity | vm_compute; discriminate | reflexivity].
Defined.

(** C2 at work: the first failure on a fresh breaker of the test leaves
    it Closed, the window being shorter than six. *)
Lemma C2_witness :
  exists cb',
    V1.recordResult 7 (Some "failure"%string) false
      (V1.NewCircuitBreaker testConfig) = Returns cb'
    /\ V1.current cb' = Some Closed.
Proof.
  destruct (proj1 C2_closed_to_open 7 (Some "failure"%string) false
              (V1.NewCircuitBreaker testConfig) {| state := Closed |}
              eq_refl eq_refl) as (cb' & Hr & _ & _ & _ & Hstay).
  exists cb'. split; [exact Hr | apply Hstay; reflexivity].
Defined.

(** C3 at work: the third probe succeeds and closes the breaker. *)
Lemma C3_witness :
  V1.recordResult 9 None false probingBreaker
  = Returns (V1.set_halfOpenCalls 0
               (V1.set_state {| state := Closed |}
                  (V1.addRequest false false probingBreaker))).
Proof.
  apply (proj1 (proj2 (C3_half_open_transitions 9 None false probingBreaker
                         {| state := HalfOpen |} eq_refl eq_refl)));
    [reflexivity | reflexivity | vm_compute; discriminate].
Defined.

(** C4 at work: the breaker of V2 after one failing call. *)
Lemma C4_witness :
  V2.reachable testConfig onceFailed
  /\ V2.failureCount onceFailed = V2.failuresIn (V2.requests onceFailed)
  /\ V2.slowCallCount onceFailed = V2.slowCallsIn (V2.requests onceFailed).
Proof.
  assert (H : V2.reachable testConfig onceFailed).
  { apply (V2.reach_recordResult testConfig 1 1 1 (Some "failure"%string)
             false (V2.NewCircuitBreaker testConfig) onceFailed);
      [apply V2.reach_new | reflexivity]. }
  split; [exact H | ].
  destruct (C4_aggregates_exact testConfig onceFailed H) as (_ & Hex & _).
  destruct Hex as (Hf & Hs & _); [vm_compute; discriminate | ].
  split; [exact Hf | exact Hs].
Defined.




(** C8 at work: a call on the opened breaker before the wait has elapsed
    is rejected and the action is not run. *)
Lemma C8_witness :
  V1.Execute (clockAt 5 1) succeeding openedBreaker 0%nat
  = Returns (Some (errOpened testConfig), openedBreaker, 0%nat).
Proof.
  apply (proj1 (C8_rejection_and_propagation nat (clockAt 5 1) succeeding 0%nat)
           openedBreaker openedBreaker (errOpened testConfig)).
  reflexivity.
Defined.

(** C9 at work: the run of [TestHalfOpenToClosedTransition], every action
    taking 1ns and the pause being 3s. *)
Lemma C9_witness :
  exists cb6 cb7 cb9,
    V1.ExecuteAll
      [(clockAt 0 1, failing "failure"%string);
       (clockAt 10 1, failing "failure"%string);
       (clockAt 20 1, failing "failure"%string);
       (clockAt 30 1, failing "failure"%string);
       (clockAt 40 1, failing "failure"%string);
       (clockAt 50 1, failing "failure"%string)]
      (V1.NewCircuitBreaker testConfig) 0%nat = Returns (cb6, 6%nat)
    /\ V1.Execute (clockAt (3 * Second + 51) 1) succeeding cb6 6%nat
       = Returns (None, cb7, 7%nat)
    /\ V1.ExecuteAll
         [(clockAt (3 * Second + 60) 1, succeeding);
          (clockAt (3 * Second + 70) 1, succeeding)] cb7 7%nat
       = Returns (cb9, 9%nat)
    /\ V1.current cb9 = Some Closed /\ V1.halfOpenCalls cb9 = 0.
Proof.
  destruct (C9_test_scenario "test"%string (200 * Millisecond) 50%float
              (clockAt 0 1) (clockAt 10 1) (clockAt 20 1) (clockAt 30 1)
              (clockAt 40 1) (clockAt 50 1) (clockAt (3 * Second + 51) 1)
              (clockAt (3 * Second + 60) 1) (clockAt (3 * Second + 70) 1)
              "failure"%string "failure"%string "failure"%string
              "failure"%string "failure"%string "failure"%string)
    as (cb6 & H6 & _ & _ & H).
  destruct H as (cb7 & _ & _ & H7 & _ & _ & H);
    [vm_compute; discriminate | reflexivity | ].
  destruct H as (cb9 & H9 & Hc & Hh); [reflexivity | reflexivity | ].
  exists cb6, cb7, cb9. repeat split; assumption.
Defined.


(** * Further properties *)

(** * Further properties *)

(** ** The Open case of [recordResult] *)

Lemma V1_recordResult_open (now : Time) (err : option error) (isSlow : bool)
    (cb : V1.CircuitBreaker) (st : CircuitBreakerState) :
  V1.state cb = Some st ->
  StateRegister.state st = Open ->
  let w := V1.addRequest (notNil err) isSlow cb in
  V1.recordResult now err isSlow cb =
    if WaitDurationInOpenState (V1.config cb) <=? now - V1.lastFailureTime cb
    then Returns (V1.set_halfOpenCalls 0 (V1.set_state (SetState st HalfOpen) w))
    else Returns w.
Proof.
  intros Hst Hs w. subst w. unfold V1.recordResult. cbv zeta.
  rewrite V1_addRequest_state, Hst, Hs.
  rewrite V1_addRequest_config, V1_addRequest_lastFailureTime. reflexivity.
Qed.

Lemma V2_recordResult_open (pruneNow pushNow now : Time)
    (err : option error) (isSlow : bool) (cb w : V2.CircuitBreaker)
    (st : CircuitBreakerState) :
  V2.state cb = Some st ->
  StateRegister.state st = Open ->
  V2.addRequest pruneNow pushNow (notNil err) isSlow cb = Returns w ->
  V2.recordResult pruneNow pushNow now err isSlow cb =
    if WaitDurationInOpenState (V2.config cb) <=? now - V2.lastFailureTime cb
    then Returns (V2.set_halfOpenCalls 0 (V2.set_state (SetState st HalfOpen) w))
    else Returns w.
Proof.
  intros Hst Hs Hw. unfold V2.recordResult. rewrite Hw. simpl.
  destruct (V2_addRequest_result _ _ _ _ _ _ Hw)
    as (_ & _ & _ & _ & _ & Hc & Hstw & _ & Ht).
  rewrite Hstw, Hst, Hs, Hc, Ht. reflexivity.
Qed.

Lemma V2_recordResult_halfopen (pruneNow pushNow now : Time)
    (err : option error) (isSlow : bool) (cb w : V2.CircuitBreaker)
    (st : CircuitBreakerState) :
  V2.state cb = Some st ->
  StateRegister.state st = HalfOpen ->
  V2.addRequest pruneNow pushNow (notNil err) isSlow cb = Returns w ->
  V2.recordResult pruneNow pushNow now err isSlow cb =
    if notNil err || isSlow then
      Returns (V2.set_lastFailureTime now
                 (V2.set_halfOpenCalls 0 (V2.set_state (SetState st Open) w)))
    else if PermittedNumberOfCallsInHalfOpenState (V2.config cb)
              <=? V2.halfOpenCalls cb
    then Returns (V2.set_halfOpenCalls 0 (V2.set_state (SetState st Closed) w))
    else Returns w.
Proof.
  intros Hst Hs Hw. unfold V2.recordResult. rewrite Hw. simpl.
  destruct (V2_addRequest_result _ _ _ _ _ _ Hw)
    as (_ & _ & _ & _ & _ & Hc & Hstw & Hh & _).
  rewrite Hstw, Hst, Hs, Hc, Hh. reflexivity.
Qed.

(** X1.  [recordResult] on a breaker that is Open, as when a call admitted
    earlier finishes after the breaker has opened.  Once the wait has
    elapsed since [lastFailureTime] the breaker becomes Half-Open with
    [halfOpenCalls] 0, whatever the outcome of the call, and the admission
    section at the same reading moves it to Half-Open as well.  Before
    that the breaker stays Open with its [lastFailureTime].  In both cases
    the record of the call has been added to the window.  For both
    versions, V2 whenever its [addRequest] returns. *)
Theorem X1_open_to_half_open_on_record :
  (forall (now : Time) (err : option error) (isSlow : bool)
          (cb : V1.CircuitBreaker) (st : CircuitBreakerState),
      V1.state cb = Some st ->
      StateRegister.state st = Open ->
      let w := V1.addRequest (notNil err) isSlow cb in
      let elapsed := now - V1.lastFailureTime cb in
      (WaitDurationInOpenState (V1.config cb) <= elapsed ->
       V1.recordResult now err isSlow cb
       = Returns (V1.set_halfOpenCalls 0
                    (V1.set_state (SetState st HalfOpen) w))
       /\ V1.current (fst (V1.admission now cb)) = Some HalfOpen)
      /\ (elapsed < WaitDurationInOpenState (V1.config cb) ->
          V1.recordResult now err isSlow cb = Returns w
          /\ V1.current w = Some Open
          /\ V1.lastFailureTime w = V1.lastFailureTime cb
          /\ V1.current (fst (V1.admission now cb)) = Some Open))
  /\ (forall (pruneNow pushNow now : Time) (err : option error)
             (isSlow : bool) (cb w : V2.CircuitBreaker)
             (st : CircuitBreakerState),
      V2.state cb = Some st ->
      StateRegister.state st = Open ->
      V2.addRequest pruneNow pushNow (notNil err) isSlow cb = Returns w ->
      let elapsed := now - V2.lastFailureTime cb in
      (WaitDurationInOpenState (V2.config cb) <= elapsed ->
       V2.recordResult pruneNow pushNow now err isSlow cb
       = Returns (V2.set_halfOpenCalls 0
                    (V2.set_state (SetState st HalfOpen) w))
       /\ V2.current (fst (V2.admission now cb)) = Some HalfOpen)
      /\ (elapsed < WaitDurationInOpenState (V2.config cb) ->
          V2.recordResult pruneNow pushNow now err isSlow cb = Returns w
          /\ V2.current w = Some Open
          /\ V2.lastFailureTime w = V2.lastFailureTime cb
          /\ V2.current (fst (V2.admission now cb)) = Some Open)).
Proof.
  split.
  - intros now err isSlow cb st Hst Hs w elapsed.
    pose proof (V1_recordResult_open now err isSlow cb st Hst Hs) as Hrec.
    cbv zeta in Hrec. fold w in Hrec. subst elapsed. split; intro Hcmp.
    + rewrite Hrec. decide_tests. split; [reflexivity | ].
      rewrite (V1_admission_open_cooled now cb st Hst Hs Hcmp). cbv zeta.
      destruct (_ <=? 0); reflexivity.
    + rewrite Hrec. decide_tests. split; [reflexivity | ].
      split; [ | split ].
      * unfold V1.current, w. rewrite V1_addRequest_state, Hst. simpl.
        now rewrite Hs.
      * apply V1_addRequest_lastFailureTime.
      * rewrite (V1_admission_open_cooling now cb st Hst Hs Hcmp).
        unfold V1.current. simpl. rewrite Hst. simpl. now rewrite Hs.
  - intros pruneNow pushNow now err isSlow cb w st Hst Hs Hw elapsed.
    pose proof (V2_recordResult_open pruneNow pushNow now err isSlow cb w st
                  Hst Hs Hw) as Hrec.
    destruct (V2_addRequest_result _ _ _ _ _ _ Hw)
      as (_ & _ & _ & _ & _ & Hc & Hstw & _ & Ht).
    subst elapsed. split; intro Hcmp.
    + rewrite Hrec. decide_tests. split; [reflexivity | ].
      rewrite (V2_admission_open_cooled now cb st Hst Hs Hcmp). cbv zeta.
      destruct (_ <=? 0); reflexivity.
    + rewrite Hrec. decide_tests. split; [reflexivity | ].
      split; [ | split ].
      * unfold V2.current. rewrite Hstw, Hst. simpl. now rewrite Hs.
      * exact Ht.
      * rewrite (V2_admission_open_cooling now cb st Hst Hs Hcmp).
        unfold V2.current. simpl. rewrite Hst. simpl. now rewrite Hs.
Qed.

(** ** The half-open counter *)

Lemma V1_current_state (cb : V1.CircuitBreaker) (st : CircuitBreakerState) :
  V1.state cb = Some st -> V1.current cb = Some (StateRegister.state st).
Proof. intro H. unfold V1.current. rewrite H. reflexivity. Qed.

Lemma V2_current_state (cb : V2.CircuitBreaker) (st : CircuitBreakerState) :
  V2.state cb = Some st -> V2.current cb = Some (StateRegister.state st).
Proof. intro H. unfold V2.current. rewrite H. reflexivity. Qed.

Section Counter.

Variable quota : Z.
Hypothesis Hquota : quota <= maxInt.


Lemma V1_admission_counter (now : Time) (cb : V1.CircuitBreaker) :
  PermittedNumberOfCallsInHalfOpenState (V1.config cb) = quota ->
  counterWithin quota (V1.current cb) (V1.halfOpenCalls cb) ->
  counterWithin quota (V1.current (fst (V1.admission now cb)))
         (V1.halfOpenCalls (fst (V1.admission now cb))).
Proof.
  intros Hq (Hr & Hz).
  destruct (V1.state cb) as [st|] eqn:Hst.
  2: { unfold V1.admission. rewrite Hst. simpl. split; assumption. }
  rewrite (V1_current_state cb st Hst) in Hz.
  destruct (StateRegister.state st) eqn:Hs.
  - rewrite (V1_admission_closed now cb st Hst Hs). simpl.
    rewrite (V1_current_state cb st Hst), Hs. split; assumption.
  - destruct (Z_lt_le_dec (now - V1.lastFailureTime cb)
                (WaitDurationInOpenState (V1.config cb))) as [Hlt|Hle].
    + rewrite (V1_admission_open_cooling now cb st Hst Hs Hlt). simpl.
      rewrite (V1_current_state cb st Hst), Hs. split; assumption.
    + rewrite (V1_admission_open_cooled now cb st Hst Hs Hle). cbv zeta.
      rewrite Hq. destruct (quota <=? 0) eqn:E; simpl.
      * split; [lia | intros _; reflexivity].
      * apply Z.leb_gt in E. split; [lia | intro H; exfalso; apply H; reflexivity].
  - rewrite (V1_admission_halfopen now cb st Hst Hs). rewrite Hq.
    destruct (quota <=? V1.halfOpenCalls cb) eqn:E; simpl.
    + rewrite (V1_current_state cb st Hst), Hs. split; assumption.
    + apply Z.leb_gt in E.
      rewrite incr_int64 by (unfold minInt; lia).
      split; [lia | ].
      unfold V1.current. simpl. rewrite Hst. simpl. rewrite Hs.
      intro H; exfalso; apply H; reflexivity.
Qed.

Lemma V1_recordResult_counter (now : Time) (err : option error)
    (isSlow : bool) (cb cb' : V1.CircuitBreaker) :
  counterWithin quota (V1.current cb) (V1.halfOpenCalls cb) ->
  V1.recordResult now err isSlow cb = Returns cb' ->
  counterWithin quota (V1.current cb') (V1.halfOpenCalls cb').
Proof.
  intros (Hr & Hz) H.
  destruct (V1.state cb) as [st|] eqn:Hst.
  2: { unfold V1.recordResult in H. cbv zeta in H.
       rewrite V1_addRequest_state, Hst in H. discriminate. }
  rewrite (V1_current_state cb st Hst) in Hz.
  assert (Hw : V1.current (V1.addRequest (notNil err) isSlow cb)
               = Some (StateRegister.state st)).
  { apply V1_current_state. rewrite V1_addRequest_state. exact Hst. }
  assert (Hh := V1_addRequest_halfOpenCalls (notNil err) isSlow cb).
  assert (Hc := V1_addRequest_config (notNil err) isSlow cb).
  destruct (StateRegister.state st) eqn:Hs.
  - rewrite (V1_recordResult_closed now err isSlow cb st Hst Hs) in H.
    cbv zeta in H. remember (V1.addRequest (notNil err) isSlow cb) as w.
    assert (Hzero : V1.halfOpenCalls cb = 0) by (apply Hz; discriminate).
    destruct (_ && _) in H; inversion H; subst cb'; simpl;
      rewrite ?Hw, ?Hh, Hzero; (split; [lia | intros _; reflexivity]).
  - rewrite (V1_recordResult_open now err isSlow cb st Hst Hs) in H.
    cbv zeta in H. remember (V1.addRequest (notNil err) isSlow cb) as w.
    assert (Hzero : V1.halfOpenCalls cb = 0) by (apply Hz; discriminate).
    destruct (_ <=? _) in H; inversion H; subst cb'; simpl;
      rewrite ?Hw, ?Hh, ?Hzero; (split; [lia | intros _; reflexivity]).
  - rewrite (V1_recordResult_halfopen now err isSlow cb st Hst Hs) in H.
    cbv zeta in H. remember (V1.addRequest (notNil err) isSlow cb) as w.
    destruct (notNil err || isSlow) in H;
      [ | destruct (_ <=? _) in H ]; inversion H; subst cb'; simpl;
      rewrite ?Hw, ?Hh; try (split; [lia | intros _; reflexivity]).
    split; [exact Hr | intro Hn; exfalso; apply Hn; reflexivity].
Qed.

Lemma V2_admission_counter (now : Time) (cb : V2.CircuitBreaker) :
  PermittedNumberOfCallsInHalfOpenState (V2.config cb) = quota ->
  counterWithin quota (V2.current cb) (V2.halfOpenCalls cb) ->
  counterWithin quota (V2.current (fst (V2.admission now cb)))
         (V2.halfOpenCalls (fst (V2.admission now cb))).
Proof.
  intros Hq (Hr & Hz).
  destruct (V2.state cb) as [st|] eqn:Hst.
  2: { unfold V2.admission. rewrite Hst. simpl. split; assumption. }
  rewrite (V2_current_state cb st Hst) in Hz.
  destruct (StateRegister.state st) eqn:Hs.
  - rewrite (V2_admission_closed now cb st Hst Hs). simpl.
    rewrite (V2_current_state cb st Hst), Hs. split; assumption.
  - destruct (Z_lt_le_dec (now - V2.lastFailureTime cb)
                (WaitDurationInOpenState (V2.config cb))) as [Hlt|Hle].
    + rewrite (V2_admission_open_cooling now cb st Hst Hs Hlt). simpl.
      rewrite (V2_current_state cb st Hst), Hs. split; assumption.
    + rewrite (V2_admission_open_cooled now cb st Hst Hs Hle). cbv zeta.
      rewrite Hq. destruct (quota <=? 0) eqn:E; simpl.
      * split; [lia | intros _; reflexivity].
      * apply Z.leb_gt in E. split; [lia | intro H; exfalso; apply H; reflexivity].
  - rewrite (V2_admission_halfopen now cb st Hst Hs). rewrite Hq.
    destruct (quota <=? V2.halfOpenCalls cb) eqn:E; simpl.
    + rewrite (V2_current_state cb st Hst), Hs. split; assumption.
    + apply Z.leb_gt in E.
      rewrite incr_int64 by (unfold minInt; lia).
      split; [lia | ].
      unfold V2.current. simpl. rewrite Hst. simpl. rewrite Hs.
      intro H; exfalso; apply H; reflexivity.
Qed.

Lemma V2_recordResult_counter (pruneNow pushNow now : Time)
    (err : option error) (isSlow : bool) (cb cb' : V2.CircuitBreaker) :
  counterWithin quota (V2.current cb) (V2.halfOpenCalls cb) ->
  V2.recordResult pruneNow pushNow now err isSlow cb = Returns cb' ->
  counterWithin quota (V2.current cb') (V2.halfOpenCalls cb').
Proof.
  intros (Hr & Hz) H.
  destruct (V2_recordResult_result _ _ _ _ _ _ _ H) as (w & Haw & _).
  destruct (V2_addRequest_result _ _ _ _ _ _ Haw)
    as (_ & _ & _ & _ & _ & _ & Hstw & Hh & _).
  destruct (V2.state cb) as [st|] eqn:Hst.
  2: { unfold V2.recordResult in H. rewrite Haw in H. simpl in H.
       rewrite Hstw in H. discriminate. }
  rewrite (V2_current_state cb st Hst) in Hz.
  assert (Hw : V2.current w = Some (StateRegister.state st))
    by (apply V2_current_state; exact Hstw).
  destruct (StateRegister.state st) eqn:Hs.
  - rewrite (V2_recordResult_closed _ _ now err isSlow cb w st Hst Hs Haw) in H.
    assert (Hzero : V2.halfOpenCalls cb = 0) by (apply Hz; discriminate).
    destruct (_ && _) in H; inversion H; subst cb'; simpl;
      rewrite ?Hw, ?Hh, Hzero; (split; [lia | intros _; reflexivity]).
  - rewrite (V2_recordResult_open _ _ now err isSlow cb w st Hst Hs Haw) in H.
    assert (Hzero : V2.halfOpenCalls cb = 0) by (apply Hz; discriminate).
    destruct (_ <=? _) in H; inversion H; subst cb'; simpl;
      rewrite ?Hw, ?Hh, ?Hzero; (split; [lia | intros _; reflexivity]).
  - rewrite (V2_recordResult_halfopen _ _ now err isSlow cb w st Hst Hs Haw)
      in H.
    destruct (notNil err || isSlow) in H;
      [ | destruct (_ <=? _) in H ]; inversion H; subst cb'; simpl;
      rewrite ?Hw, ?Hh; try (split; [lia | intros _; reflexivity]).
    split; [exact Hr | intro Hn; exfalso; apply Hn; reflexivity].
Qed.

End Counter.

(** X2.  Under a half-open quota that is an [int], every breaker reached
    from [NewCircuitBreaker] by the two lock-protected sections in any
    order has [halfOpenCalls] between 0 and the quota (0 when the quota is
    negative), and [halfOpenCalls] is 0 whenever the breaker is not
    Half-Open.  For both versions. *)
Theorem X2_half_open_counter :
  forall c : Config,
    PermittedNumberOfCallsInHalfOpenState c <= maxInt ->
    (forall cb, V1.reachable c cb ->
       0 <= V1.halfOpenCalls cb
            <= Z.max 0 (PermittedNumberOfCallsInHalfOpenState c)
       /\ (V1.current cb <> Some HalfOpen -> V1.halfOpenCalls cb = 0))
    /\ (forall cb, V2.reachable c cb ->
       0 <= V2.halfOpenCalls cb
            <= Z.max 0 (PermittedNumberOfCallsInHalfOpenState c)
       /\ (V2.current cb <> Some HalfOpen -> V2.halfOpenCalls cb = 0)).
Proof.
  intros c Hq. split.
  - intros cb Hreach.
    induction Hreach as [ | now cb Hr IH | now err isSlow cb cb' Hr IH H ].
    + simpl. split; [lia | intros _; reflexivity].
    + apply V1_admission_counter; [exact Hq | | exact IH].
      destruct (V1_reachable_config c cb Hr) as (Hc & _). now rewrite Hc.
    + apply (V1_recordResult_counter _ now err isSlow cb cb' IH H).
  - intros cb Hreach.
    induction Hreach as [ | now cb Hr IH
                          | pruneNow pushNow now err isSlow cb cb' Hr IH H ].
    + simpl. split; [lia | intros _; reflexivity].
    + apply V2_admission_counter; [exact Hq | | exact IH].
      destruct (V2_reachable_config c cb Hr) as (Hc & _). now rewrite Hc.
    + apply (V2_recordResult_counter _ pruneNow pushNow now err isSlow
               cb cb' IH H).
Qed.

(** ** Calls on a breaker that is cooling down *)

(** X3.  An Open breaker rejects every call that arrives before the wait
    has elapsed since [lastFailureTime]: whatever the calls and their
    number, each of them is answered with the circuit-open message without
    its action being run, and the breaker after all of them is the breaker
    before.  For both versions. *)
Theorem X3_open_rejects_until_cooled :
  forall (W : Type) (calls : list (Clock * (W -> option error * W))) (w : W),
    (forall (cb : V1.CircuitBreaker),
        V1.current cb = Some Open ->
        (forall call, In call calls ->
           atAdmission (fst call) - V1.lastFailureTime cb
           < WaitDurationInOpenState (V1.config cb)) ->
        V1.ExecuteAll calls cb w = Returns (cb, w)
        /\ forall call, In call calls ->
             V1.Execute (fst call) (snd call) cb w
             = Returns (Some (errOpened (V1.config cb)), cb, w))
    /\ (forall (cb : V2.CircuitBreaker),
        V2.current cb = Some Open ->
        (forall call, In call calls ->
           atAdmission (fst call) - V2.lastFailureTime cb
           < WaitDurationInOpenState (V2.config cb)) ->
        ExecuteAllV2 calls cb w = Returns (cb, w)
        /\ forall call, In call calls ->
             V2.Execute (fst call) (snd call) cb w
             = Returns (Some (errOpened (V2.config cb)), cb, w)).
Proof.
  intros W calls w. split.
  - intros cb Hopen Hearly.
    assert (Hone : forall call, In call calls ->
              V1.Execute (fst call) (snd call) cb w
              = Returns (Some (errOpened (V1.config cb)), cb, w)).
    { intros call Hin. apply V1_Execute_rejected.
      unfold V1.current in Hopen.
      destruct (V1.state cb) as [st|] eqn:Hst; [ | discriminate ].
      apply (V1_admission_open_cooling _ cb st Hst);
        [simpl in Hopen; congruence | apply Hearly, Hin]. }
    split; [ | exact Hone ].
    clear Hearly. induction calls as [|[clk action] calls IH]; [reflexivity | ].
    pose proof (Hone (clk, action) (or_introl eq_refl)) as H1.
    simpl in H1. simpl. rewrite H1. simpl.
    apply IH. intros call Hin. apply Hone. right. exact Hin.
  - intros cb Hopen Hearly.
    assert (Hone : forall call, In call calls ->
              V2.Execute (fst call) (snd call) cb w
              = Returns (Some (errOpened (V2.config cb)), cb, w)).
    { intros call Hin. apply V2_Execute_rejected.
      unfold V2.current in Hopen.
      destruct (V2.state cb) as [st|] eqn:Hst; [ | discriminate ].
      apply (V2_admission_open_cooling _ cb st Hst);
        [simpl in Hopen; congruence | apply Hearly, Hin]. }
    split; [ | exact Hone ].
    clear Hearly. induction calls as [|[clk action] calls IH]; [reflexivity | ].
    pose proof (Hone (clk, action) (or_introl eq_refl)) as H1.
    simpl in H1. simpl. rewrite H1. simpl.
    apply IH. intros call Hin. apply Hone. right. exact Hin.
Qed.

(** ** A quota below one *)




(** ** A breaker without a state register *)

(** X5.  A breaker without a state register (the zero value of the
    struct): [Execute] returns the not-initialized error, runs no action
    and leaves the breaker as it is; [recordResult] of V1 panics on the nil
    register and that of V2 never returns a breaker.  No breaker reached
    from [NewCircuitBreaker] is in that case. *)
Theorem X5_missing_register :
  (forall (W : Type) (clk : Clock) (action : W -> option error * W)
          (cb : V1.CircuitBreaker) (w : W),
      V1.state cb = None ->
      V1.Execute clk action cb w = Returns (Some errNotInitialized, cb, w)
      /\ forall now err isSlow, V1.recordResult now err isSlow cb = Panics)
  /\ (forall (W : Type) (clk : Clock) (action : W -> option error * W)
             (cb : V2.CircuitBreaker) (w : W),
      V2.state cb = None ->
      V2.Execute clk action cb w = Returns (Some errNotInitialized, cb, w)
      /\ forall pruneNow pushNow now err isSlow r,
           V2.recordResult pruneNow pushNow now err isSlow cb <> Returns r)
  /\ (forall c cb, V1.reachable c cb -> V1.state cb <> None)
  /\ (forall c cb, V2.reachable c cb -> V2.state cb <> None).
Proof.
  repeat apply conj.
  - intros W clk action cb w Hst. split.
    + unfold V1.Execute, V1.admission. rewrite Hst. reflexivity.
    + intros now err isSlow. unfold V1.recordResult. cbv zeta.
      rewrite V1_addRequest_state, Hst. reflexivity.
  - intros W clk action cb w Hst. split.
    + unfold V2.Execute, V2.admission. rewrite Hst. reflexivity.
    + intros pruneNow pushNow now err isSlow r H.
      destruct (V2_recordResult_result _ _ _ _ _ _ _ H) as (w' & Hw & _).
      destruct (V2_addRequest_result _ _ _ _ _ _ Hw)
        as (_ & _ & _ & _ & _ & _ & Hstw & _).
      unfold V2.recordResult in H. rewrite Hw in H. simpl in H.
      rewrite Hstw, Hst in H. discriminate.
  - intros c cb H. apply (V1_reachable_config c cb H).
  - intros c cb H. apply (V2_reachable_config c cb H).
Qed.

(** ** The window as the latest records *)

Lemma recordedV1_reachable (c : Config) (history : list V1.requestEntry)
    (cb : V1.CircuitBreaker) :
  recordedV1 c history cb -> V1.reachable c cb.
Proof.
  induction 1; [apply V1.reach_new | apply V1.reach_admission; assumption | ].
  eapply V1.reach_recordResult; eassumption.
Qed.

Lemma recordedV2_reachable (c : Config) (history : list V2.requestEntry)
    (cb : V2.CircuitBreaker) :
  recordedV2 c history cb -> V2.reachable c cb.
Proof.
  induction 1; [apply V2.reach_new | apply V2.reach_admission; assumption | ].
  eapply V2.reach_recordResult; eassumption.
Qed.

Lemma tl_skipn {A : Type} (k : nat) (l : list A) :
  tl (skipn k l) = skipn (S k) l.
Proof.
  revert l. induction k as [|k IH]; intros [|a l]; try reflexivity.
  apply (IH l).
Qed.

Lemma latest_length {A : Type} (n : nat) (l : list A) :
  List.length (latest n l) = Nat.min n (List.length l).
Proof. unfold latest. rewrite length_skipn. lia. Qed.

(** Pushing on the latest [n]: the oldest goes when there were [n]. *)
Lemma latest_push {A : Type} (n : nat) (l : list A) (a : A) :
  (1 <= n)%nat ->
  latest n (l ++ [a])
  = ((if (n <=? List.length l)%nat then tl (latest n l) else latest n l)
       ++ [a])%list.
Proof.
  intro Hn. unfold latest. rewrite length_app. simpl List.length.
  destruct (n <=? List.length l)%nat eqn:E.
  - apply Nat.leb_le in E. rewrite tl_skipn, skipn_app.
    replace (List.length l + 1 - n)%nat with (S (List.length l - n)) by lia.
    replace (S (List.length l - n) - List.length l)%nat with O by lia.
    reflexivity.
  - apply Nat.leb_gt in E.
    replace (List.length l + 1 - n)%nat with O by lia.
    replace (List.length l - n)%nat with O by lia. reflexivity.
Qed.

Lemma latest_one_push {A : Type} (l : list A) (a : A) :
  latest 1 (l ++ [a]) = [a] /\ tl (latest 1 l) = [].
Proof.
  split.
  - unfold latest. rewrite length_app. simpl List.length.
    replace (List.length l + 1 - 1)%nat with (List.length l) by lia.
    rewrite skipn_app, skipn_all, Nat.sub_diag. reflexivity.
  - pose proof (latest_length 1 l) as H.
    destruct (latest 1 l) as [|x [|y t]];
      [reflexivity | reflexivity | cbn [List.length] in H; lia].
Qed.

(** X6.  The window of V1 holds the latest records pushed, in the order
    they were pushed: after any history of lock-protected sections since
    [NewCircuitBreaker], the window is the last [max 1 SlidingWindowSize]
    records of the history of pushes (one record is kept when the size is
    0 or negative). *)
Theorem X6_window_is_latest_V1 :
  forall (c : Config) (history : list V1.requestEntry)
         (cb : V1.CircuitBreaker),
    recordedV1 c history cb ->
    V1.requests cb
    = latest (Z.to_nat (Z.max 1 (SlidingWindowSize c))) history.
Proof.
  intros c history cb H.
  induction H as [ | history now cb Hrec IH
                   | history now err isSlow cb cb' Hrec IH Hres ].
  - reflexivity.
  - destruct (V1_admission_frame now cb) as (_ & Hq & _). simpl in Hq.
    rewrite Hq. exact IH.
  - pose proof (recordedV1_reachable c history cb Hrec) as Hreach.
    destruct (V1_reachable_config c cb Hreach) as (Hc & Hs).
    destruct (V1_recordResult_returns now err isSlow cb Hs)
      as (r & Hr & Hq & _).
    assert (r = cb') by congruence. subst r.
    rewrite Hq, V1_addRequest_requests. unfold V1.Len. rewrite Hc, IH.
    set (n := Z.to_nat (Z.max 1 (SlidingWindowSize c))).
    rewrite latest_length.
    destruct (Z_le_gt_dec (SlidingWindowSize c) 0) as [Hsmall|Hbig].
    + assert (Hn : n = 1%nat) by (unfold n; lia).
      rewrite Hn.
      destruct (latest_one_push history
                  {| V1.failed := notNil err; V1.slow := isSlow |})
        as (Hpush & Htl).
      rewrite Hpush.
      replace (SlidingWindowSize c
               <=? Z.of_nat (Nat.min 1 (List.length history))) with true
        by (symmetry; apply Z.leb_le; lia).
      rewrite Htl. reflexivity.
    + rewrite latest_push by (unfold n; lia).
      destruct (n <=? List.length history)%nat eqn:E.
      * apply Nat.leb_le in E.
        replace (SlidingWindowSize c
                 <=? Z.of_nat (Nat.min n (List.length history))) with true
          by (symmetry; apply Z.leb_le; unfold n in *; lia).
        reflexivity.
      * apply Nat.leb_gt in E.
        replace (SlidingWindowSize c
                 <=? Z.of_nat (Nat.min n (List.length history))) with false
          by (symmetry; apply Z.leb_gt; unfold n in *; lia).
        reflexivity.
Qed.

Lemma skipn_by_length {A : Type} (k : nat) (l : list A) :
  skipn k l = skipn (List.length l - List.length (skipn k l)) l.
Proof.
  rewrite length_skipn.
  destruct (Nat.le_gt_cases k (List.length l)) as [Hle|Hgt].
  - f_equal. lia.
  - rewrite skipn_all2 by lia.
    replace (List.length l - (List.length l - k))%nat with (List.length l)
      by lia.
    symmetry. apply skipn_all.
Qed.

Lemma latest_latest {A : Type} (n m : nat) (l : list A) :
  (m <= n)%nat -> latest m (latest n l) = latest m l.
Proof.
  intro H. unfold latest. rewrite length_skipn, skipn_skipn. f_equal. lia.
Qed.

Lemma latest_grow {A : Type} (n : nat) (l : list A) (a : A) :
  (latest n l ++ [a])%list = latest (S n) (l ++ [a]).
Proof.
  unfold latest. rewrite length_app. simpl List.length.
  replace (List.length l + 1 - S n)%nat with (List.length l - n)%nat by lia.
  rewrite skipn_app.
  replace (List.length l - n - List.length l)%nat with O by lia.
  reflexivity.
Qed.

(** X7.  The count-based window of V2 with a size of at least 1 holds the
    latest records pushed, in the order they were pushed: after any
    history of lock-protected sections since [NewCircuitBreaker], the
    window is the last [SlidingWindowSize] records of the history of
    pushes. *)
Theorem X7_window_is_latest_V2 :
  forall (c : Config) (history : list V2.requestEntry)
         (cb : V2.CircuitBreaker),
    SlidingWindowType c = COUNT_BASED ->
    1 <= SlidingWindowSize c ->
    recordedV2 c history cb ->
    V2.requests cb = latest (Z.to_nat (SlidingWindowSize c)) history.
Proof.
  intros c history cb Hkind Hsize H.
  induction H as [ | history now cb Hrec IH
                   | history pruneNow pushNow now err isSlow cb cb'
                       Hrec IH Hres ].
  - reflexivity.
  - destruct (V2_admission_frame now cb) as (_ & Hq & _). simpl in Hq.
    rewrite Hq. exact IH.
  - pose proof (recordedV2_reachable c history cb Hrec) as Hreach.
    destruct (V2_reachable_config c cb Hreach) as (Hc & _).
    destruct (V2_recordResult_result _ _ _ _ _ _ _ Hres)
      as (w & Hw & Hq & _).
    destruct (V2_addRequest_result _ _ _ _ _ _ Hw)
      as (pruned & Hp & Hreq & _).
    rewrite V2_cleanup_count_based in Hp by (rewrite Hc; exact Hkind).
    destruct (enforceCountBasedWindow_result cb pruned Hp)
      as (_ & Hlen & k & _ & Hsk).
    rewrite Hq, Hreq.
    set (n := Z.to_nat (SlidingWindowSize c)) in *.
    assert (Hpruned : V2.requests pruned = latest (Nat.pred n) history).
    { assert (Hm : List.length (skipn k (latest n history))
                   = Nat.min (Nat.pred n) (List.length history)).
      { rewrite <- IH, <- Hsk. unfold V2.Len in Hlen.
        rewrite Hc, IH, latest_length in Hlen. unfold n in *. lia. }
      rewrite Hsk, IH, (skipn_by_length k (latest n history)), Hm.
      change (skipn (List.length (latest n history)
                     - Nat.min (Nat.pred n) (List.length history))
                (latest n history))
        with (latest (Nat.min (Nat.pred n) (List.length history))
                (latest n history)).
      rewrite latest_latest by lia.
      unfold latest. f_equal. lia. }
    rewrite Hpruned, latest_grow. f_equal. unfold n. lia.
Qed.


(** X9.  With a count-based window of size 0 or less, the pruning loop of
    V2 never ends, on any breaker: no amount of fuel lets it return,
    [recordResult] diverges and so does every [Execute] whose call is
    admitted. *)
Theorem X9_count_window_without_size_hangs :
  forall (c : Config),
    SlidingWindowType c = COUNT_BASED ->
    SlidingWindowSize c <= 0 ->
    (forall cb fuel, V2.config cb = c ->
       V2.enforceCountBasedWindow_loop fuel cb = None)
    /\ (forall cb pruneNow pushNow now err isSlow,
          V2.config cb = c ->
          V2.recordResult pruneNow pushNow now err isSlow cb = Diverges)
    /\ (forall (W : Type) (clk : Clock) (action : W -> option error * W)
               (w : W) (cb cb' : V2.CircuitBreaker),
          V2.config cb = c ->
          V2.admission (atAdmission clk) cb = (cb', None) ->
          V2.Execute clk action cb w = Diverges).
Proof.
  intros c Hkind Hsize.
  assert (Hloop : forall cb fuel, V2.config cb = c ->
            V2.enforceCountBasedWindow_loop fuel cb = None)
    by (intros cb fuel Hc; apply V2_count_loop_spins; rewrite Hc; exact Hsize).
  assert (Hrec : forall cb pruneNow pushNow now err isSlow,
            V2.config cb = c ->
            V2.recordResult pruneNow pushNow now err isSlow cb = Diverges).
  { intros cb pruneNow pushNow now err isSlow Hc.
    unfold V2.recordResult, V2.addRequest.
    rewrite (V2_cleanup_count_based pruneNow cb) by (rewrite Hc; exact Hkind).
    unfold V2.enforceCountBasedWindow. rewrite Hloop by exact Hc.
    reflexivity. }
  split; [exact Hloop | ]. split; [exact Hrec | ].
  intros W clk action w cb cb' Hc Hadm.
  rewrite (V2_Execute_admitted clk action cb cb' w Hadm).
  rewrite Hrec; [reflexivity | ].
  destruct (V2_admission_frame (atAdmission clk) cb) as (Hc' & _).
  rewrite Hadm in Hc'. simpl in Hc'. congruence.
Qed.

(** ** The version with aggregates against the version that scans *)

Lemma erase_failuresIn (l : list V2.requestEntry) :
  V1.failuresIn (map eraseEntry l) = V2.failuresIn l.
Proof.
  induction l as [|e l IH]; [reflexivity | ].
  simpl map. rewrite V1_failuresIn_cons, V2_failuresIn_cons, IH. reflexivity.
Qed.

Lemma erase_slowCallsIn (l : list V2.requestEntry) :
  V1.slowCallsIn (map eraseEntry l) = V2.slowCallsIn l.
Proof.
  induction l as [|e l IH]; [reflexivity | ].
  simpl map. rewrite V1_slowCallsIn_cons, V2_slowCallsIn_cons, IH. reflexivity.
Qed.

Lemma erase_Len (cb : V2.CircuitBreaker) : V1.Len (erase cb) = V2.Len cb.
Proof. unfold V1.Len, V2.Len. simpl. rewrite length_map. reflexivity. Qed.

(** With exact aggregates the two versions compute the same rates. *)
Lemma erase_rates (cb : V2.CircuitBreaker) :
  V2.exact cb -> V2.Len cb <= maxInt ->
  V1.getFailureRate (erase cb) = V2.getFailureRate cb
  /\ V1.getSlowCallRate (erase cb) = V2.getSlowCallRate cb.
Proof.
  intros (Hf & Hs) Hlen.
  unfold V1.getFailureRate, V1.getSlowCallRate, V2.getFailureRate,
    V2.getSlowCallRate.
  rewrite erase_Len.
  destruct (V1_scans (erase cb)) as (Sf & Ss);
    [rewrite erase_Len; exact Hlen | ].
  rewrite Sf, Ss. simpl V1.requests.
  rewrite erase_failuresIn, erase_slowCallsIn, Hf, Hs. split; reflexivity.
Qed.

Lemma erase_admission (now : Time) (cb : V2.CircuitBreaker) :
  V1.admission now (erase cb)
  = (erase (fst (V2.admission now cb)), snd (V2.admission now cb)).
Proof.
  destruct cb as [c [st|] h t reqs fc sc]; [ | reflexivity ].
  destruct st as [[ | | ]];
    unfold V1.admission, V2.admission, erase, IsOpen, IsHalfOpen; simpl;
    repeat match goal with
      | |- context [if ?b then _ else _] => destruct b; simpl
      end; reflexivity.
Qed.

(** On a window within its size both versions remove the same record, if
    any, before the push. *)
Lemma erase_addRequest (pruneNow pushNow : Time) (failed slow : bool)
    (cb w : V2.CircuitBreaker) :
  SlidingWindowType (V2.config cb) = COUNT_BASED ->
  V2.Len cb <= SlidingWindowSize (V2.config cb) ->
  V2.addRequest pruneNow pushNow failed slow cb = Returns w ->
  V1.addRequest failed slow (erase cb) = erase w.
Proof.
  intros Hkind Hlen Hw.
  destruct (V2_addRequest_result _ _ _ _ _ _ Hw)
    as (pruned & Hp & Hreq & _ & _ & Hc & Hst & Hh & Ht).
  rewrite V2_cleanup_count_based in Hp by exact Hkind.
  destruct (enforceCountBasedWindow_result cb pruned Hp)
    as (Hsize & Hplen & k & _ & Hsk).
  rewrite V1_addRequest_frame, V1_addRequest_requests, erase_Len.
  unfold erase, V1.set_requests. simpl.
  rewrite Hc, Hst, Hh, Ht, Hreq, map_app. simpl. f_equal. f_equal.
  rewrite Hsk, (skipn_by_length k (V2.requests cb)), <- Hsk.
  unfold V2.Len in *.
  destruct (SlidingWindowSize (V2.config cb)
            <=? Z.of_nat (List.length (V2.requests cb))) eqn:E.
  - apply Z.leb_le in E.
    replace (List.length (V2.requests cb)
             - List.length (V2.requests pruned))%nat with 1%nat by lia.
    destruct (V2.requests cb); reflexivity.
  - apply Z.leb_gt in E.
    replace (List.length (V2.requests cb)
             - List.length (V2.requests pruned))%nat with 0%nat by lia.
    reflexivity.
Qed.

Lemma V2_count_window_Len (c : Config) (cb : V2.CircuitBreaker) :
  SlidingWindowType c = COUNT_BASED ->
  1 <= SlidingWindowSize c ->
  V2.reachable c cb ->
  V2.Len cb <= SlidingWindowSize c.
Proof.
  intros Hkind Hsize Hreach.
  induction Hreach as [ | now cb Hr IH
                        | pruneNow pushNow now err isSlow cb cb' Hr IH H ].
  - unfold V2.Len. simpl. lia.
  - destruct (V2_admission_frame now cb) as (_ & Hq & _).
    simpl in Hq. unfold V2.Len in *. rewrite Hq. exact IH.
  - destruct (V2_reachable_config c cb Hr) as (Hc & _).
    destruct (V2_recordResult_result _ _ _ _ _ _ _ H) as (w & Hw & Hq & _).
    destruct (V2_addRequest_result _ _ _ _ _ _ Hw)
      as (pruned & Hp & Hreq & _).
    rewrite V2_cleanup_count_based in Hp by (rewrite Hc; exact Hkind).
    destruct (enforceCountBasedWindow_result cb pruned Hp)
      as (_ & Hlen & _).
    unfold V2.Len in *. rewrite Hq, Hreq, length_app. simpl.
    rewrite Hc in Hlen. lia.
Qed.

Lemma erase_recordResult (c : Config) (pruneNow pushNow now : Time)
    (err : option error) (isSlow : bool) (cb cb' : V2.CircuitBreaker) :
  SlidingWindowType c = COUNT_BASED ->
  1 <= SlidingWindowSize c <= maxInt ->
  V2.reachable c cb ->
  V2.recordResult pruneNow pushNow now err isSlow cb = Returns cb' ->
  V1.recordResult now err isSlow (erase cb) = Returns (erase cb').
Proof.
  intros Hkind (Hsize & Hmax) Hreach H.
  destruct (V2_reachable_config c cb Hreach) as (Hc & _).
  pose proof (V2_count_window_Len c cb Hkind Hsize Hreach) as Hlen.
  destruct (V2_recordResult_result _ _ _ _ _ _ _ H) as (w & Hw & _).
  assert (Hreachw : V2.reachable c cb')
    by (eapply V2.reach_recordResult; eassumption).
  pose proof (erase_addRequest pruneNow pushNow (notNil err) isSlow cb w)
    as Herase.
  rewrite Hc in Herase. specialize (Herase Hkind Hlen Hw).
  assert (Hwlen : V2.Len w <= maxInt).
  { destruct (V2_recordResult_result _ _ _ _ _ _ _ H) as (w' & Hw' & Hq & _).
    assert (w' = w) by congruence. subst w'.
    pose proof (V2_count_window_Len c cb' Hkind Hsize Hreachw) as Hl.
    unfold V2.Len in *. rewrite Hq in Hl. lia. }
  assert (Hex : V2.exact w).
  { apply V2_tracked_exact; [ | exact Hwlen ].
    apply (V2_addRequest_tracked _ _ _ _ _ _
             (V2_reachable_tracked c cb Hreach) Hw). }
  destruct (erase_rates w Hex Hwlen) as (Rf & Rs).
  unfold V2.recordResult in H. rewrite Hw in H. simpl in H.
  unfold V1.recordResult. cbv zeta. rewrite Herase, Rf, Rs, erase_Len.
  clear - H.
  destruct w as [cw [st|] h t reqs fc sc]; [ | discriminate ].
  unfold V2.getFailureRate, V2.getSlowCallRate, V2.Len in *.
  simpl in *.
  destruct (StateRegister.state st);
    repeat match type of H with
      | context [if ?b then _ else _] => destruct b
      end;
    inversion H; reflexivity.
Qed.

(** X10.  With a count-based window whose size is an [int] of at least 1,
    the breaker with incremental counters (V2) behaves as the breaker that
    scans its window (V1): forgetting the timestamps and the two counters
    of a reachable breaker of V2 gives a reachable breaker of V1, and then
    the admission section, [recordResult] and [Execute] of the two versions
    give the same answers and corresponding breakers; those of V2
    return. *)
Theorem X10_aggregates_refine_scans :
  forall (c : Config),
    SlidingWindowType c = COUNT_BASED ->
    1 <= SlidingWindowSize c <= maxInt ->
    forall cb : V2.CircuitBreaker,
      V2.reachable c cb ->
      V1.reachable c (erase cb)
      /\ (forall now,
            V1.admission now (erase cb)
            = (erase (fst (V2.admission now cb)), snd (V2.admission now cb)))
      /\ (forall pruneNow pushNow now err isSlow,
            exists cb',
              V2.recordResult pruneNow pushNow now err isSlow cb = Returns cb'
              /\ V1.recordResult now err isSlow (erase cb)
                 = Returns (erase cb'))
      /\ (forall (W : Type) (clk : Clock) (action : W -> option error * W)
                 (w : W),
            exists result cb' w',
              V2.Execute clk action cb w = Returns (result, cb', w')
              /\ V1.Execute clk action (erase cb) w
                 = Returns (result, erase cb', w')).
Proof.
  intros c Hkind Hsize cb Hreach.
  assert (Hrec : forall cb, V2.reachable c cb ->
            forall pruneNow pushNow now err isSlow,
            exists cb',
              V2.recordResult pruneNow pushNow now err isSlow cb = Returns cb'
              /\ V1.recordResult now err isSlow (erase cb)
                 = Returns (erase cb')).
  { intros cb0 Hreach0 pruneNow pushNow now err isSlow.
    destruct (V2_reachable_config c cb0 Hreach0) as (Hc & Hs).
    destruct (V2_recordResult_returns pruneNow pushNow now err isSlow cb0 Hs)
      as (cb' & H); [right; rewrite Hc; lia | ].
    exists cb'. split; [exact H | ].
    apply (erase_recordResult c pruneNow pushNow now err isSlow cb0 cb'
             Hkind Hsize Hreach0 H). }
  split; [ | split; [intro now; apply erase_admission | split ] ].
  - induction Hreach as [ | now cb Hr IH
                          | pruneNow pushNow now err isSlow cb cb' Hr IH H ].
    + apply V1.reach_new.
    + pose proof (V1.reach_admission c now (erase cb) IH) as Ha.
      rewrite erase_admission in Ha. exact Ha.
    + apply (V1.reach_recordResult c now err isSlow (erase cb) (erase cb') IH).
      apply (erase_recordResult c pruneNow pushNow now err isSlow cb cb'
               Hkind Hsize Hr H).
  - apply Hrec, Hreach.
  - intros W clk action w.
    pose proof (erase_admission (atAdmission clk) cb) as Ha.
    destruct (V2.admission (atAdmission clk) cb) as [cb1 [rej|]] eqn:E;
      simpl in Ha.
    + exists (Some rej), cb1, w.
      split; [apply V2_Execute_rejected, E | apply V1_Execute_rejected, Ha].
    + rewrite (V2_Execute_admitted clk action cb cb1 w E).
      rewrite (V1_Execute_admitted clk action (erase cb) (erase cb1) w Ha).
      assert (Hr1 : V2.reachable c cb1).
      { pose proof (V2.reach_admission c (atAdmission clk) cb Hreach) as H1.
        rewrite E in H1. exact H1. }
      destruct (Hrec cb1 Hr1 (atPrune clk) (atPush clk) (atRecord clk)
                  (fst (action w))
                  (SlowCallDurationThreshold (V2.config cb1)
                     <=? atReturn clk - atStart clk))
        as (cb2 & H2 & H2').
      exists (fst (action w)), cb2, (snd (action w)).
      rewrite H2. simpl V1.config. rewrite H2'. split; reflexivity.
Qed.

(** ** The time-based window as the records that are not older *)







(** ** A probe that fails *)

(** X12.  A probe that fails or is slow re-opens the breaker (V1): on a
    Half-Open breaker below its quota, [Execute] runs the action and
    returns its result, the breaker is then Open with [halfOpenCalls] 0
    and [lastFailureTime] the reading at which the outcome was recorded,
    and a next call that arrives before the wait has elapsed since that
    reading is rejected with the circuit-open message, its action not
    run. *)
Theorem X12_failed_probe_reopens :
  forall (W : Type) (clk next : Clock) (action other : W -> option error * W)
         (w : W) (cb : V1.CircuitBreaker) (st : CircuitBreakerState),
    V1.state cb = Some st ->
    StateRegister.state st = HalfOpen ->
    V1.halfOpenCalls cb < PermittedNumberOfCallsInHalfOpenState (V1.config cb) ->
    fst (action w) <> None
    \/ SlowCallDurationThreshold (V1.config cb) <= atReturn clk - atStart clk ->
    exists cb',
      V1.Execute clk action cb w = Returns (fst (action w), cb', snd (action w))
      /\ V1.current cb' = Some Open
      /\ V1.halfOpenCalls cb' = 0
      /\ V1.lastFailureTime cb' = atRecord clk
      /\ (atAdmission next - atRecord clk
          < WaitDurationInOpenState (V1.config cb) ->
          V1.Execute next other cb' (snd (action w))
          = Returns (Some (errOpened (V1.config cb)), cb', snd (action w))).
Proof.
  intros W clk next action other w cb st Hst Hs Hroom Hbad.
  pose proof (V1_admission_halfopen (atAdmission clk) cb st Hst Hs) as Hadm.
  replace (PermittedNumberOfCallsInHalfOpenState (V1.config cb)
           <=? V1.halfOpenCalls cb) with false in Hadm
    by (symmetry; apply Z.leb_gt; exact Hroom).
  set (cb1 := V1.set_halfOpenCalls (incr (V1.halfOpenCalls cb)) cb) in *.
  set (slowly := SlowCallDurationThreshold (V1.config cb1)
                 <=? atReturn clk - atStart clk).
  set (w1 := V1.addRequest (notNil (fst (action w))) slowly cb1).
  set (cb' := V1.set_lastFailureTime (atRecord clk)
                (V1.set_halfOpenCalls 0 (V1.set_state (SetState st Open) w1))).
  exists cb'.
  assert (Hbad' : notNil (fst (action w)) || slowly = true).
  { apply orb_true_iff. destruct Hbad as [Hbad|Hbad].
    - left. destruct (fst (action w)); [reflexivity | congruence].
    - right. apply Z.leb_le. exact Hbad. }
  split.
  { rewrite (V1_Execute_admitted clk action cb cb1 w Hadm). fold slowly.
    rewrite (V1_recordResult_halfopen (atRecord clk) (fst (action w)) slowly
               cb1 st Hst Hs).
    cbv zeta. fold w1. rewrite Hbad'. reflexivity. }
  split; [reflexivity | ]. split; [reflexivity | ]. split; [reflexivity | ].
  intro Hearly.
  assert (Hc : V1.config w1 = V1.config cb)
    by (unfold w1; rewrite V1_addRequest_config; reflexivity).
  rewrite <- Hc.
  apply V1_Execute_rejected.
  change (V1.config w1) with (V1.config cb').
  apply (V1_admission_open_cooling (atAdmission next) cb' (SetState st Open));
    [reflexivity | reflexivity | ].
  change (V1.config cb') with (V1.config w1).
  change (V1.lastFailureTime cb') with (atRecord clk).
  rewrite Hc. exact Hearly.
Qed.

(** ** No trip before the minimum number of calls *)

Lemma V1_addRequest_Len_grows (failed slow : bool) (cb : V1.CircuitBreaker) :
  V1.Len (V1.addRequest failed slow cb) <= V1.Len cb + 1.
Proof.
  unfold V1.Len. rewrite V1_addRequest_requests, length_app.
  destruct (_ <=? _); [destruct (V1.requests cb) | ]; simpl; lia.
Qed.

Lemma V1_quiet_run {W : Type}
    (calls : list (Clock * (W -> option error * W))) :
  forall (cb : V1.CircuitBreaker) (w : W),
    V1.current cb = Some Closed ->
    V1.Len cb + Z.of_nat (List.length calls)
    < MinimumNumberOfCalls (V1.config cb) ->
    exists cb',
      V1.ExecuteAll calls cb w = Returns (cb', afterActions calls w)
      /\ V1.current cb' = Some Closed
      /\ V1.halfOpenCalls cb' = V1.halfOpenCalls cb
      /\ V1.Len cb' <= V1.Len cb + Z.of_nat (List.length calls).
Proof.
  induction calls as [|[clk action] calls IH]; intros cb w Hcur Hfew.
  - exists cb. simpl in *. repeat split; try assumption; lia.
  - unfold V1.current in Hcur.
    destruct (V1.state cb) as [st|] eqn:Hst; [ | discriminate ].
    assert (Hs : StateRegister.state st = Closed) by (simpl in Hcur; congruence).
    set (slowly := SlowCallDurationThreshold (V1.config cb)
                   <=? atReturn clk - atStart clk).
    set (w1 := V1.addRequest (notNil (fst (action w))) slowly cb).
    pose proof (V1_addRequest_Len_grows (notNil (fst (action w))) slowly cb)
      as Hgrow. fold w1 in Hgrow.
    assert (Hc : V1.config w1 = V1.config cb) by apply V1_addRequest_config.
    assert (Hone : V1.Execute clk action cb w
                   = Returns (fst (action w), w1, snd (action w))).
    { rewrite (V1_Execute_admitted clk action cb cb w
                 (V1_admission_closed _ cb st Hst Hs)).
      fold slowly.
      rewrite (V1_recordResult_closed (atRecord clk) (fst (action w)) slowly
                 cb st Hst Hs).
      cbv zeta. fold w1. rewrite Hc.
      replace (MinimumNumberOfCalls (V1.config cb) <=? V1.Len w1) with false
        by (symmetry; apply Z.leb_gt; cbn [List.length] in Hfew; lia).
      reflexivity. }
    destruct (IH w1 (snd (action w))) as (cb' & Hall & Hcur' & Hh & Hlen).
    + unfold V1.current, w1. rewrite V1_addRequest_state, Hst. simpl.
      now rewrite Hs.
    + rewrite Hc. cbn [List.length] in Hfew. lia.
    + exists cb'. cbn [V1.ExecuteAll]. rewrite Hone. cbn [bind fst snd].
      split; [exact Hall | ]. split; [exact Hcur' | ].
      split; [rewrite Hh; apply V1_addRequest_halfOpenCalls | ].
      cbn [List.length]. lia.
Qed.

(** X13.  A fresh breaker of V1 does not trip before
    [MinimumNumberOfCalls] calls: fewer calls than that, whatever their
    outcomes and durations, are all admitted and run, and leave the breaker
    Closed with [halfOpenCalls] 0 and at most one record per call in the
    window. *)
Theorem X13_no_trip_before_minimum :
  forall (W : Type) (c : Config)
         (calls : list (Clock * (W -> option error * W))) (w : W),
    Z.of_nat (List.length calls) < MinimumNumberOfCalls c ->
    exists cb,
      V1.ExecuteAll calls (V1.NewCircuitBreaker c) w
      = Returns (cb, afterActions calls w)
      /\ V1.current cb = Some Closed
      /\ V1.halfOpenCalls cb = 0
      /\ V1.Len cb <= Z.of_nat (List.length calls).
Proof.
  intros W c calls w Hfew.
  destruct (V1_quiet_run calls (V1.NewCircuitBreaker c) w)
    as (cb & Hall & Hcur & Hh & Hlen).
  - reflexivity.
  - change (V1.Len (V1.NewCircuitBreaker c)) with 0.
    change (V1.config (V1.NewCircuitBreaker c)) with c. lia.
  - change (V1.Len (V1.NewCircuitBreaker c)) with 0 in Hlen.
    exists cb. split; [exact Hall | ]. split; [exact Hcur | ].
    split; [exact Hh | lia].
Qed.

(** ** What an admitted call leaves in the window *)

(** X14.  What an admitted call leaves in the window.  When [Execute]
    admits a call and returns, the window ends with one new record: it is
    marked failed exactly when the action returned an error, and slow
    exactly when the action took at least [SlowCallDurationThreshold],
    whether it failed or not.  Before it stand the earlier records (in V1
    all of them or all but the oldest; in V2 all but some of the oldest),
    and in V2 the record carries the reading of the clock at the push. *)
Theorem X14_recorded_outcome :
  forall (W : Type) (clk : Clock) (action : W -> option error * W) (w : W),
    (forall (cb admitted after : V1.CircuitBreaker) (result : option error)
            (w' : W),
        V1.admission (atAdmission clk) cb = (admitted, None) ->
        V1.Execute clk action cb w = Returns (result, after, w') ->
        exists kept record,
          V1.requests after = (kept ++ [record])%list
          /\ (kept = V1.requests cb \/ kept = tl (V1.requests cb))
          /\ (V1.failed record = true <-> result <> None)
          /\ (V1.slow record = true <->
              SlowCallDurationThreshold (V1.config cb)
              <= atReturn clk - atStart clk))
    /\ (forall (cb admitted after : V2.CircuitBreaker)
               (result : option error) (w' : W),
        V2.admission (atAdmission clk) cb = (admitted, None) ->
        V2.Execute clk action cb w = Returns (result, after, w') ->
        exists (k : nat) record,
          V2.requests after = (skipn k (V2.requests cb) ++ [record])%list
          /\ (V2.failed record = true <-> result <> None)
          /\ (V2.slow record = true <->
              SlowCallDurationThreshold (V2.config cb)
              <= atReturn clk - atStart clk)
          /\ V2.executionTime record = atPush clk).
Proof.
  intros W clk action w. split.
  - intros cb admitted after result w' Hadm Hex.
    rewrite (V1_Execute_admitted clk action cb admitted w Hadm) in Hex.
    apply bind_Returns in Hex. destruct Hex as (cb2 & Hrec & Hret).
    inversion Hret; subst; clear Hret.
    destruct (V1_admission_frame (atAdmission clk) cb) as (Hc & Hq & _).
    rewrite Hadm in Hc, Hq. simpl in Hc, Hq.
    destruct (V1_recordResult_returns (atRecord clk) (fst (action w))
                (SlowCallDurationThreshold (V1.config admitted)
                   <=? atReturn clk - atStart clk) admitted
                (V1_admitted_has_state _ _ _ Hadm)) as (r & Hr & Hreq & _).
    assert (r = after) by congruence. subst r.
    rewrite Hreq, V1_addRequest_requests, Hq, Hc.
    eexists. eexists. split; [reflexivity | ].
    split; [destruct (_ <=? V1.Len admitted); auto | ].
    simpl. split.
    + destruct (fst (action w)); simpl; split; congruence.
    + apply Z.leb_le.
  - intros cb admitted after result w' Hadm Hex.
    rewrite (V2_Execute_admitted clk action cb admitted w Hadm) in Hex.
    apply bind_Returns in Hex. destruct Hex as (cb2 & Hrec & Hret).
    inversion Hret; subst; clear Hret.
    destruct (V2_admission_frame (atAdmission clk) cb) as (Hc & Hq & _).
    rewrite Hadm in Hc, Hq. simpl in Hc, Hq.
    destruct (V2_recordResult_result _ _ _ _ _ _ _ Hrec)
      as (w1 & Hw & Hreq & _).
    destruct (V2_addRequest_result _ _ _ _ _ _ Hw)
      as (pruned & Hp & Hwreq & _).
    destruct (V2_cleanupOldRequests_result _ _ _ Hp) as (k & Hk).
    exists k. eexists. split.
    + rewrite Hreq, Hwreq. subst pruned.
      rewrite V2_removals_requests, Hq. reflexivity.
    + simpl. rewrite Hc. split; [ | split; [apply Z.leb_le | reflexivity] ].
      destruct (fst (action w)); simpl; split; congruence.
Qed.

(** ** Callers that arrive while the probes are running *)

Lemma admissionsV1_half_open (readings : list Time) :
  forall (cb : V1.CircuitBreaker),
    V1.current cb = Some HalfOpen ->
    0 <= V1.halfOpenCalls cb
         <= PermittedNumberOfCallsInHalfOpenState (V1.config cb) ->
    PermittedNumberOfCallsInHalfOpenState (V1.config cb) <= maxInt ->
    let room :=
      Z.to_nat (PermittedNumberOfCallsInHalfOpenState (V1.config cb)
                - V1.halfOpenCalls cb) in
    let admitted := Nat.min (List.length readings) room in
    admissionsV1 readings cb
    = (V1.set_halfOpenCalls (V1.halfOpenCalls cb + Z.of_nat admitted) cb,
       (repeat None admitted
          ++ repeat (Some (errHalfOpenLimit (V1.config cb)))
               (List.length readings - admitted))%list).
Proof.
  induction readings as [|now readings IH]; intros cb Hcur Hh Hq room admitted.
  - subst admitted. simpl. f_equal. destruct cb; simpl.
    unfold V1.set_halfOpenCalls. simpl. f_equal. lia.
  - unfold V1.current in Hcur.
    destruct (V1.state cb) as [st|] eqn:Hst; [ | discriminate ].
    assert (Hs : StateRegister.state st = HalfOpen)
      by (simpl in Hcur; congruence).
    cbn [admissionsV1].
    rewrite (V1_admission_halfopen now cb st Hst Hs).
    destruct (PermittedNumberOfCallsInHalfOpenState (V1.config cb)
              <=? V1.halfOpenCalls cb) eqn:E.
    + apply Z.leb_le in E.
      assert (Hroom : room = O) by (unfold room; lia).
      assert (Hadm : admitted = O) by (unfold admitted; rewrite Hroom; lia).
      rewrite (IH cb); [ | unfold V1.current; rewrite Hst; simpl; congruence
                         | exact Hh | exact Hq ].
      fold room. rewrite Hroom, Hadm. rewrite Nat.min_0_r. simpl.
      rewrite !Nat.sub_0_r. reflexivity.
    + apply Z.leb_gt in E.
      rewrite incr_int64 by (unfold minInt; lia).
      set (cb1 := V1.set_halfOpenCalls (V1.halfOpenCalls cb + 1) cb).
      rewrite (IH cb1);
        [ | unfold V1.current; simpl; rewrite Hst; simpl; congruence
          | simpl; lia | exact Hq ].
      simpl V1.config. simpl V1.halfOpenCalls.
      assert (Hroom : room
                = S (Z.to_nat
                       (PermittedNumberOfCallsInHalfOpenState (V1.config cb)
                        - (V1.halfOpenCalls cb + 1))))
        by (unfold room; lia).
      unfold admitted. rewrite Hroom. cbn [List.length Nat.min].
      set (m := Nat.min (List.length readings) _).
      cbn [repeat app Nat.sub]. unfold cb1, V1.set_halfOpenCalls. simpl.
      f_equal. f_equal. lia.
Qed.

Lemma admissionsV2_half_open (readings : list Time) :
  forall (cb : V2.CircuitBreaker),
    V2.current cb = Some HalfOpen ->
    0 <= V2.halfOpenCalls cb
         <= PermittedNumberOfCallsInHalfOpenState (V2.config cb) ->
    PermittedNumberOfCallsInHalfOpenState (V2.config cb) <= maxInt ->
    let room :=
      Z.to_nat (PermittedNumberOfCallsInHalfOpenState (V2.config cb)
                - V2.halfOpenCalls cb) in
    let admitted := Nat.min (List.length readings) room in
    admissionsV2 readings cb
    = (V2.set_halfOpenCalls (V2.halfOpenCalls cb + Z.of_nat admitted) cb,
       (repeat None admitted
          ++ repeat (Some (errHalfOpenLimit (V2.config cb)))
               (List.length readings - admitted))%list).
Proof.
  induction readings as [|now readings IH]; intros cb Hcur Hh Hq room admitted.
  - subst admitted. simpl. f_equal. destruct cb; simpl.
    unfold V2.set_halfOpenCalls. simpl. f_equal. lia.
  - unfold V2.current in Hcur.
    destruct (V2.state cb) as [st|] eqn:Hst; [ | discriminate ].
    assert (Hs : StateRegister.state st = HalfOpen)
      by (simpl in Hcur; congruence).
    cbn [admissionsV2].
    rewrite (V2_admission_halfopen now cb st Hst Hs).
    destruct (PermittedNumberOfCallsInHalfOpenState (V2.config cb)
              <=? V2.halfOpenCalls cb) eqn:E.
    + apply Z.leb_le in E.
      assert (Hroom : room = O) by (unfold room; lia).
      assert (Hadm : admitted = O) by (unfold admitted; rewrite Hroom; lia).
      rewrite (IH cb); [ | unfold V2.current; rewrite Hst; simpl; congruence
                         | exact Hh | exact Hq ].
      fold room. rewrite Hroom, Hadm. rewrite Nat.min_0_r. simpl.
      rewrite !Nat.sub_0_r. reflexivity.
    + apply Z.leb_gt in E.
      rewrite incr_int64 by (unfold minInt; lia).
      set (cb1 := V2.set_halfOpenCalls (V2.halfOpenCalls cb + 1) cb).
      rewrite (IH cb1);
        [ | unfold V2.current; simpl; rewrite Hst; simpl; congruence
          | simpl; lia | exact Hq ].
      simpl V2.config. simpl V2.halfOpenCalls.
      assert (Hroom : room
                = S (Z.to_nat
                       (PermittedNumberOfCallsInHalfOpenState (V2.config cb)
                        - (V2.halfOpenCalls cb + 1))))
        by (unfold room; lia).
      unfold admitted. rewrite Hroom. cbn [List.length Nat.min].
      set (m := Nat.min (List.length readings) _).
      cbn [repeat app Nat.sub]. unfold cb1, V2.set_halfOpenCalls. simpl.
      f_equal. f_equal. lia.
Qed.

(** X15.  Callers that arrive at a Half-Open breaker while the probes are
    still running: starting from [halfOpenCalls] 0 with a quota that is an
    [int] and not negative, of any number of admission sections in a row
    the first [quota] are admitted and all later ones are answered with
    the half-open-limit message; the counter ends at the number admitted
    and nothing else of the breaker changes.  For both versions. *)
Theorem X15_half_open_admits_the_quota :
  forall (readings : list Time),
    (forall (cb : V1.CircuitBreaker),
        V1.current cb = Some HalfOpen ->
        V1.halfOpenCalls cb = 0 ->
        0 <= PermittedNumberOfCallsInHalfOpenState (V1.config cb) <= maxInt ->
        let quota :=
          Z.to_nat (PermittedNumberOfCallsInHalfOpenState (V1.config cb)) in
        let admitted := Nat.min (List.length readings) quota in
        admissionsV1 readings cb
        = (V1.set_halfOpenCalls (Z.of_nat admitted) cb,
           (repeat None admitted
              ++ repeat (Some (errHalfOpenLimit (V1.config cb)))
                   (List.length readings - admitted))%list))
    /\ (forall (cb : V2.CircuitBreaker),
        V2.current cb = Some HalfOpen ->
        V2.halfOpenCalls cb = 0 ->
        0 <= PermittedNumberOfCallsInHalfOpenState (V2.config cb) <= maxInt ->
        let quota :=
          Z.to_nat (PermittedNumberOfCallsInHalfOpenState (V2.config cb)) in
        let admitted := Nat.min (List.length readings) quota in
        admissionsV2 readings cb
        = (V2.set_halfOpenCalls (Z.of_nat admitted) cb,
           (repeat None admitted
              ++ repeat (Some (errHalfOpenLimit (V2.config cb)))
                   (List.length readings - admitted))%list)).
Proof.
  intros readings. split.
  - intros cb Hcur Hzero Hq quota admitted.
    pose proof (admissionsV1_half_open readings cb Hcur) as H.
    rewrite Hzero in H. cbv zeta in H.
    rewrite Z.sub_0_r in H. fold quota admitted in H.
    rewrite H by lia. reflexivity.
  - intros cb Hcur Hzero Hq quota admitted.
    pose proof (admissionsV2_half_open readings cb Hcur) as H.
    rewrite Hzero in H. cbv zeta in H.
    rewrite Z.sub_0_r in H. fold quota admitted in H.
    rewrite H by lia. reflexivity.
Qed.

(** ** Probes that succeed *)

Lemma V1_probes_run {W : Type}
    (calls : list (Clock * (W -> option error * W))) :
  forall (cb : V1.CircuitBreaker) (w : W),
    V1.current cb = Some HalfOpen ->
    0 <= V1.halfOpenCalls cb ->
    V1.halfOpenCalls cb + Z.of_nat (List.length calls)
    <= PermittedNumberOfCallsInHalfOpenState (V1.config cb) ->
    PermittedNumberOfCallsInHalfOpenState (V1.config cb) <= maxInt ->
    (forall call, In call calls ->
       (forall w, fst (snd call w) = None)
       /\ atReturn (fst call) - atStart (fst call)
          < SlowCallDurationThreshold (V1.config cb)) ->
    exists cb',
      V1.ExecuteAll calls cb w = Returns (cb', afterActions calls w)
      /\ V1.config cb' = V1.config cb
      /\ (calls <> [] ->
          V1.halfOpenCalls cb + Z.of_nat (List.length calls)
          = PermittedNumberOfCallsInHalfOpenState (V1.config cb) ->
          V1.current cb' = Some Closed /\ V1.halfOpenCalls cb' = 0)
      /\ (V1.halfOpenCalls cb + Z.of_nat (List.length calls)
          < PermittedNumberOfCallsInHalfOpenState (V1.config cb) ->
          V1.current cb' = Some HalfOpen
          /\ V1.halfOpenCalls cb'
             = V1.halfOpenCalls cb + Z.of_nat (List.length calls)).
Proof.
  induction calls as [|[clk action] calls IH];
    intros cb w Hcur Hh Hroom Hq Hgood.
  - exists cb. cbn [V1.ExecuteAll afterActions fold_left List.length].
    split; [reflexivity | ]. split; [reflexivity | ].
    split; [congruence | ]. intros _. split; [exact Hcur | lia].
  - unfold V1.current in Hcur.
    destruct (V1.state cb) as [st|] eqn:Hst; [ | discriminate ].
    assert (Hs : StateRegister.state st = HalfOpen)
      by (simpl in Hcur; congruence).
    cbn [List.length] in Hroom |- *.
    destruct (Hgood (clk, action) (or_introl eq_refl)) as [Hok Hfast].
    cbn [fst snd] in Hok, Hfast.
    set (admitted := V1.set_halfOpenCalls (V1.halfOpenCalls cb + 1) cb).
    assert (Hadm : V1.admission (atAdmission clk) cb = (admitted, None)).
    { rewrite (V1_admission_halfopen _ cb st Hst Hs).
      replace (PermittedNumberOfCallsInHalfOpenState (V1.config cb)
               <=? V1.halfOpenCalls cb) with false
        by (symmetry; apply Z.leb_gt; lia).
      rewrite incr_int64 by (unfold minInt; lia). reflexivity. }
    set (w1 := V1.addRequest false false admitted).
    assert (Hc1 : V1.config w1 = V1.config cb)
      by (unfold w1; rewrite V1_addRequest_config; reflexivity).
    assert (Hst1 : V1.state w1 = Some st)
      by (unfold w1; rewrite V1_addRequest_state; exact Hst).
    assert (Hh1 : V1.halfOpenCalls w1 = V1.halfOpenCalls cb + 1)
      by (unfold w1; rewrite V1_addRequest_halfOpenCalls; reflexivity).
    pose proof (V1_Execute_admitted clk action cb admitted w Hadm) as Hone.
    rewrite Hok in Hone.
    replace (SlowCallDurationThreshold (V1.config admitted)
             <=? atReturn clk - atStart clk) with false in Hone
      by (symmetry; apply Z.leb_gt; exact Hfast).
    rewrite (V1_recordResult_halfopen (atRecord clk) None false admitted st
               Hst Hs) in Hone.
    cbv zeta in Hone. cbn [notNil orb] in Hone. fold w1 in Hone.
    change (V1.config admitted) with (V1.config cb) in Hone.
    change (V1.halfOpenCalls admitted) with (V1.halfOpenCalls cb + 1) in Hone.
    destruct (PermittedNumberOfCallsInHalfOpenState (V1.config cb)
              <=? V1.halfOpenCalls cb + 1) eqn:E.
    + apply Z.leb_le in E.
      assert (Hnil : calls = []) by (destruct calls; [reflexivity | cbn [List.length] in Hroom; lia]).
      subst calls.
      eexists. cbn [V1.ExecuteAll]. rewrite Hone. cbn [bind fst snd].
      cbn [V1.ExecuteAll afterActions fold_left fst snd].
      split; [reflexivity | ]. split; [exact Hc1 | ].
      split.
      * intros _ _. split; reflexivity.
      * cbn [List.length]. lia.
    + apply Z.leb_gt in E.
      destruct (IH w1 (snd (action w))) as (cb' & Hall & Hc' & Hclose & Hstay).
      * unfold V1.current. rewrite Hst1. simpl. now rewrite Hs.
      * lia.
      * rewrite Hc1, Hh1. lia.
      * rewrite Hc1. exact Hq.
      * intros call Hin. rewrite Hc1. apply Hgood. right. exact Hin.
      * exists cb'. cbn [V1.ExecuteAll]. rewrite Hone. cbn [bind fst snd].
        rewrite Hc1, Hh1 in Hclose, Hstay.
        split; [exact Hall | ]. split; [congruence | ].
        split.
        -- intros _ Hfull. destruct calls as [|call calls'].
           ++ cbn [List.length] in Hfull. lia.
           ++ apply Hclose; [discriminate | lia].
        -- intros Hless.
           destruct Hstay as [Hcur' Hh']; [lia | ].
           split; [exact Hcur' | lia].
Qed.

(** X16.  Probes that succeed (V1).  On a Half-Open breaker with
    [halfOpenCalls] 0, calls one after the other that return no error and
    are not slow, no more of them than the quota, are all admitted and
    run.  When their number is the quota the breaker ends Closed with
    [halfOpenCalls] 0; when it is below the quota the breaker is still
    Half-Open and has counted them. *)
Theorem X16_successful_probes_close :
  forall (W : Type) (calls : list (Clock * (W -> option error * W)))
         (cb : V1.CircuitBreaker) (w : W),
    V1.current cb = Some HalfOpen ->
    V1.halfOpenCalls cb = 0 ->
    PermittedNumberOfCallsInHalfOpenState (V1.config cb) <= maxInt ->
    Z.of_nat (List.length calls)
    <= PermittedNumberOfCallsInHalfOpenState (V1.config cb) ->
    (forall call, In call calls ->
       (forall w, fst (snd call w) = None)
       /\ atReturn (fst call) - atStart (fst call)
          < SlowCallDurationThreshold (V1.config cb)) ->
    exists cb',
      V1.ExecuteAll calls cb w = Returns (cb', afterActions calls w)
      /\ (calls <> [] ->
          Z.of_nat (List.length calls)
          = PermittedNumberOfCallsInHalfOpenState (V1.config cb) ->
          V1.current cb' = Some Closed /\ V1.halfOpenCalls cb' = 0)
      /\ (Z.of_nat (List.length calls)
          < PermittedNumberOfCallsInHalfOpenState (V1.config cb) ->
          V1.current cb' = Some HalfOpen
          /\ V1.halfOpenCalls cb' = Z.of_nat (List.length calls)).
Proof.
  intros W calls cb w Hcur Hzero Hq Hroom Hgood.
  destruct (V1_probes_run calls cb w Hcur) as (cb' & Hall & _ & Hclose & Hstay);
    try (rewrite Hzero; lia); try assumption.
  rewrite Hzero in Hclose, Hstay. rewrite !Z.add_0_l in Hclose, Hstay.
  exists cb'. split; [exact Hall | ]. split; assumption.
Qed.

(** ** The further properties at concrete breakers *)

(** X1 at work: a call admitted earlier is recorded on the opened breaker
    of the test when the wait of 2s has just elapsed. *)
Lemma X1_witness :
  V1.recordResult (2 * Second) None false openedBreaker
  = Returns (V1.set_halfOpenCalls 0
               (V1.set_state {| state := HalfOpen |}
                  (V1.addRequest false false openedBreaker))).
Proof.
  apply (proj1 (proj1 X1_open_to_half_open_on_record (2 * Second) None false
                  openedBreaker {| state := Open |} eq_refl eq_refl)).
  vm_compute. discriminate.
Defined.

(** X2 at work: the breaker of V2 after one failing call. *)
Lemma X2_witness :
  PermittedNumberOfCallsInHalfOpenState testConfig <= maxInt
  /\ 0 <= V2.halfOpenCalls onceFailed
          <= Z.max 0 (PermittedNumberOfCallsInHalfOpenState testConfig).
Proof.
  assert (H : PermittedNumberOfCallsInHalfOpenState testConfig <= maxInt)
    by (vm_compute; discriminate).
  split; [exact H | ].
  apply (proj2 (X2_half_open_counter testConfig H) onceFailed).
  apply (V2.reach_recordResult testConfig 1 1 1 (Some "failure"%string)
           false (V2.NewCircuitBreaker testConfig) onceFailed);
    [apply V2.reach_new | reflexivity].
Defined.

(** X3 at work: two calls on the opened breaker of the test, 5ns and 7ns
    after it opened. *)
Lemma X3_witness :
  V1.ExecuteAll
    [(clockAt 5 1, succeeding); (clockAt 7 1, failing "failure"%string)]
    openedBreaker 0%nat
  = Returns (openedBreaker, 0%nat).
Proof.
  assert (H : forall call,
             In call [(clockAt 5 1, succeeding);
                      (clockAt 7 1, failing "failure"%string)] ->
             atAdmission (fst call) - V1.lastFailureTime openedBreaker
             < WaitDurationInOpenState (V1.config openedBreaker)).
  { intros call [<- | [<- | []]]; vm_compute; reflexivity. }
  exact (proj1 (proj1 (X3_open_rejects_until_cooled nat _ 0%nat)
                  openedBreaker eq_refl H)).
Defined.


(** X5 at work: a call on a breaker of V1 without a register. *)
Lemma X5_witness :
  V1.Execute (clockAt 0 1) succeeding (noRegisterV1 testConfig) 0%nat
  = Returns (Some errNotInitialized, noRegisterV1 testConfig, 0%nat).
Proof.
  exact (proj1 (proj1 X5_missing_register nat (clockAt 0 1) succeeding
                  (noRegisterV1 testConfig) 0%nat eq_refl)).
Defined.

(** X6 at work: the window of V1 after one failing call. *)
Lemma X6_witness :
  V1.requests (V1.addRequest true false (V1.NewCircuitBreaker testConfig))
  = latest (Z.to_nat (Z.max 1 (SlidingWindowSize testConfig)))
      [{| V1.failed := true; V1.slow := false |}].
Proof.
  apply (X6_window_is_latest_V1 testConfig
           [{| V1.failed := true; V1.slow := false |}]).
  apply (recordedV1_recordResult testConfig [] 1 (Some "failure"%string)
           false (V1.NewCircuitBreaker testConfig));
    [apply recordedV1_new | reflexivity].
Defined.

(** X7 at work: the window of V2 after one failing call. *)
Lemma X7_witness :
  V2.requests onceFailed
  = latest (Z.to_nat (SlidingWindowSize testConfig))
      [{| V2.failed := true; V2.slow := false; V2.executionTime := 1 |}].
Proof.
  apply (X7_window_is_latest_V2 testConfig
           [{| V2.failed := true; V2.slow := false; V2.executionTime := 1 |}]);
    [reflexivity | vm_compute; discriminate | ].
  apply (recordedV2_recordResult testConfig [] 1 1 1 (Some "failure"%string)
           false (V2.NewCircuitBreaker testConfig));
    [apply recordedV2_new | reflexivity].
Defined.


(** X9 at work: recording the first outcome under a window of size 0. *)
Lemma X9_witness :
  V2.recordResult 1 1 1 None false (V2.NewCircuitBreaker zeroSizeConfig)
  = Diverges.
Proof.
  assert (H : SlidingWindowSize zeroSizeConfig <= 0)
    by (vm_compute; discriminate).
  apply (proj1 (proj2 (X9_count_window_without_size_hangs zeroSizeConfig
                         eq_refl H))).
  reflexivity.
Defined.

(** X10 at work: the breaker of V2 after one failing call, seen as one of
    V1, and a next call on both. *)
Lemma X10_witness :
  V1.reachable testConfig (erase onceFailed)
  /\ exists result cb' w',
       V2.Execute (clockAt 5 1) succeeding onceFailed 1%nat
       = Returns (result, cb', w')
       /\ V1.Execute (clockAt 5 1) succeeding (erase onceFailed) 1%nat
          = Returns (result, erase cb', w').
Proof.
  assert (Hsize : 1 <= SlidingWindowSize testConfig <= maxInt)
    by (split; vm_compute; discriminate).
  assert (Hreach : V2.reachable testConfig onceFailed).
  { apply (V2.reach_recordResult testConfig 1 1 1 (Some "failure"%string)
             false (V2.NewCircuitBreaker testConfig) onceFailed);
      [apply V2.reach_new | reflexivity]. }
  destruct (X10_aggregates_refine_scans testConfig eq_refl Hsize onceFailed
              Hreach) as (H1 & _ & _ & H4).
  split; [exact H1 | exact (H4 nat (clockAt 5 1) succeeding 1%nat)].
Defined.


(** X12 at work: the first probe of the test fails. *)
Lemma X12_witness :
  exists cb',
    V1.Execute (clockAt 0 1) (failing "failure"%string) firstProbeV1 0%nat
    = Returns (Some "failure"%string, cb', 1%nat)
    /\ V1.current cb' = Some Open.
Proof.
  assert (H1 : V1.halfOpenCalls firstProbeV1
               < PermittedNumberOfCallsInHalfOpenState
                   (V1.config firstProbeV1))
    by (vm_compute; reflexivity).
  assert (H2 : fst (failing "failure"%string 0%nat) <> None)
    by (simpl; discriminate).
  destruct (X12_failed_probe_reopens nat (clockAt 0 1) (clockAt 5 1)
              (failing "failure"%string) succeeding 0%nat firstProbeV1
              {| state := HalfOpen |} eq_refl eq_refl H1 (or_introl H2))
    as (cb' & Hex & Hcur & _).
  exists cb'. split; [exact Hex | exact Hcur].
Defined.

(** X13 at work: two failures on the fresh breaker of the test, which
    asks for six calls. *)
Lemma X13_witness :
  exists cb,
    V1.ExecuteAll
      [(clockAt 0 1, failing "failure"%string);
       (clockAt 10 1, failing "failure"%string)]
      (V1.NewCircuitBreaker testConfig) 0%nat
    = Returns (cb, 2%nat)
    /\ V1.current cb = Some Closed.
Proof.
  destruct (X13_no_trip_before_minimum nat testConfig
              [(clockAt 0 1, failing "failure"%string);
               (clockAt 10 1, failing "failure"%string)] 0%nat)
    as (cb & Hall & Hcur & _); [vm_compute; reflexivity | ].
  exists cb. split; [exact Hall | exact Hcur].
Defined.

(** X14 at work: the first call of the test fails after 1ns. *)
Lemma X14_witness :
  exists kept record,
    V1.requests (V1.addRequest true false (V1.NewCircuitBreaker testConfig))
    = (kept ++ [record])%list
    /\ (V1.failed record = true <-> Some "failure"%string <> None)
    /\ (V1.slow record = true <-> 200 * Millisecond <= 1).
Proof.
  assert (Hadm : V1.admission (atAdmission (clockAt 0 1))
                   (V1.NewCircuitBreaker testConfig)
                 = (V1.NewCircuitBreaker testConfig, None)) by reflexivity.
  assert (Hex : V1.Execute (clockAt 0 1) (failing "failure"%string)
                  (V1.NewCircuitBreaker testConfig) 0%nat
                = Returns (Some "failure"%string,
                           V1.addRequest true false
                             (V1.NewCircuitBreaker testConfig), 1%nat))
    by reflexivity.
  destruct (proj1 (X14_recorded_outcome nat (clockAt 0 1)
                     (failing "failure"%string) 0%nat)
              _ _ _ _ _ Hadm Hex)
    as (kept & record & Hreq & _ & Hf & Hs).
  exists kept, record. split; [exact Hreq | ]. split; [exact Hf | exact Hs].
Defined.

(** X15 at work: five callers arrive at the breaker of the test that has
    just become Half-Open; its quota is three. *)
Lemma X15_witness :
  admissionsV1 [1; 2; 3; 4; 5] firstProbeV1
  = (V1.set_halfOpenCalls 3 firstProbeV1,
     [None; None; None;
      Some (errHalfOpenLimit testConfig);
      Some (errHalfOpenLimit testConfig)]).
Proof.
  assert (H : 0 <= PermittedNumberOfCallsInHalfOpenState
                     (V1.config firstProbeV1) <= maxInt)
    by (split; vm_compute; discriminate).
  exact (proj1 (X15_half_open_admits_the_quota [1; 2; 3; 4; 5])
           firstProbeV1 eq_refl eq_refl H).
Defined.

(** X16 at work: the three probes of the test succeed. *)
Lemma X16_witness :
  exists cb',
    V1.ExecuteAll
      [(clockAt 0 1, succeeding); (clockAt 10 1, succeeding);
       (clockAt 20 1, succeeding)] firstProbeV1 0%nat
    = Returns (cb', 3%nat)
    /\ V1.current cb' = Some Closed.
Proof.
  assert (Hq : PermittedNumberOfCallsInHalfOpenState (V1.config firstProbeV1)
               <= maxInt) by (vm_compute; discriminate).
  assert (Hgood : forall call,
             In call [(clockAt 0 1, succeeding); (clockAt 10 1, succeeding);
                      (clockAt 20 1, succeeding)] ->
             (forall w : nat, fst (snd call w) = None)
             /\ atReturn (fst call) - atStart (fst call)
                < SlowCallDurationThreshold (V1.config firstProbeV1)).
  { intros call [<- | [<- | [<- | []]]];
      (split; [intro; reflexivity | vm_compute; reflexivity]). }
  assert (Hroom : Z.of_nat
                    (List.length
                       [(clockAt 0 1, succeeding); (clockAt 10 1, succeeding);
                        (clockAt 20 1, succeeding)])
                  <= PermittedNumberOfCallsInHalfOpenState
                       (V1.config firstProbeV1))
    by (vm_compute; discriminate).
  destruct (X16_successful_probes_close nat _ firstProbeV1 0%nat eq_refl
              eq_refl Hq Hroom Hgood)
    as (cb' & Hall & Hclose & _).
  exists cb'. split; [exact Hall | ].
  apply Hclose; [discriminate | reflexivity].
Defined.
